(** * AscendAI lead assessment: a shallow embedding of
      [src/ascendai/lead_assessor.py] and [src/ascendai/llm.py]

    Modelling conventions.

    - Python values that cross the JSON boundary are the inductive [pyval].
      A Python [dict] is an association list in insertion order with unique
      keys ([dict_set] overwrites in place, as Python does).
    - A Python [str] is a Rocq [string]; a character is a code point below
      256.  [py_isspace] lists the code points below 256 for which
      [str.isspace] holds.
    - A Python [float] is [pyfloat]: the exact rational value of a finite
      float, or one of the three IEEE special values.  Comparison follows
      IEEE (every comparison with NaN is false).  The rounding error of
      binary64 arithmetic is not modelled.
    - Exceptions are values of [exn]; a computation that may raise returns
      [result].  Code that talks to the search service, the completion
      service and the database runs in the monad [M], which threads the
      number of calls made so far; the answers of the services are given by
      [Providers], indexed by the call number, so that a service may answer
      the same request differently each time.
    - The library functions [json.loads], [json.dumps], [float] on strings
      and [urlparse(_).netloc] are fields of [PyLib]; every theorem holds for
      all of their behaviours. *)

From Stdlib Require Import ZArith QArith List String Ascii Bool Lia Lqa.
Import ListNotations.

Set Warnings "-register-all".
Close Scope Q_scope.
Local Open Scope list_scope.
Local Open Scope string_scope.

(** ** Strings *)

Module PyStr.

(** [str.isspace] on code points below 256. *)
Definition py_isspace (c : ascii) : bool :=
  let n := nat_of_ascii c in
  (((9 <=? n) && (n <=? 13)) || ((28 <=? n) && (n <=? 32))
   || (n =? 133) || (n =? 160))%nat.

Definition is_empty (s : string) : bool :=
  match s with
  | EmptyString => true
  | String _ _ => false
  end.

Fixpoint lstrip (s : string) : string :=
  match s with
  | EmptyString => EmptyString
  | String c r => if py_isspace c then lstrip r else s
  end.

Fixpoint rstrip (s : string) : string :=
  match s with
  | EmptyString => EmptyString
  | String c r =>
      let r' := rstrip r in
      if is_empty r' && py_isspace c then EmptyString else String c r'
  end.

(** [s.strip()] *)
Definition strip (s : string) : string := rstrip (lstrip s).

(** [s.startswith(p)] *)
Definition startswith (s p : string) : bool := String.prefix p s.

(** [s[n:]] for [0 <= n] *)
Fixpoint drop (n : nat) (s : string) : string :=
  match n, s with
  | O, _ => s
  | S k, EmptyString => EmptyString
  | S k, String _ r => drop k r
  end.

(** [s[:n]] for [0 <= n] *)
Fixpoint take (n : nat) (s : string) : string :=
  match n, s with
  | O, _ => EmptyString
  | S k, EmptyString => EmptyString
  | S k, String c r => String c (take k r)
  end.

(** [s.split(sep)] for a non-empty [sep].  [skip] counts the characters of a
    separator that was recognised and is still being passed over.  The head
    of the returned list is the part under construction. *)
Fixpoint split_go (sep : string) (skip : nat) (s : string) : list string :=
  match s with
  | EmptyString => [EmptyString]
  | String c r =>
      match skip with
      | S k => split_go sep k r
      | O =>
          if String.prefix sep s
          then EmptyString :: split_go sep (String.length sep - 1) r
          else match split_go sep 0 r with
               | p :: ps => String c p :: ps
               | [] => [String c EmptyString]
               end
      end
  end.

Definition split (s sep : string) : list string := split_go sep 0 s.

(** [c in s] for a single character *)
Fixpoint contains_char (c : ascii) (s : string) : bool :=
  match s with
  | EmptyString => false
  | String a r => Ascii.eqb a c || contains_char c r
  end.

(** [sep.join(l)] *)
Definition join (sep : string) (l : list string) : string :=
  String.concat sep l.

(** The characters of a string, as the strings of length one that iterating
    over a [str] yields. *)
Fixpoint chars (s : string) : list string :=
  match s with
  | EmptyString => []
  | String c r => String c EmptyString :: chars r
  end.

End PyStr.

(** ** Floats *)

Inductive pyfloat : Type :=
| Finite (q : Q)
| PosInf
| NegInf
| NaN.

Module PyFloat.

Definition zero : pyfloat := Finite 0%Q.
Definition one : pyfloat := Finite 1%Q.
Definition of_Z (z : Z) : pyfloat := Finite (inject_Z z).

(** [a < b] *)
Definition ltb (a b : pyfloat) : bool :=
  match a, b with
  | NaN, _ | _, NaN => false
  | Finite x, Finite y => negb (Qle_bool y x)
  | Finite _, PosInf => true
  | Finite _, NegInf => false
  | PosInf, _ => false
  | NegInf, NegInf => false
  | NegInf, _ => true
  end.

(** [a > b] *)
Definition gtb (a b : pyfloat) : bool := ltb b a.

(** [min(a, b)]: the builtin keeps its first argument unless a later one is
    strictly smaller. *)
Definition py_min (a b : pyfloat) : pyfloat := if ltb b a then b else a.

(** [max(a, b)]: the builtin keeps its first argument unless a later one is
    strictly greater. *)
Definition py_max (a b : pyfloat) : pyfloat := if gtb b a then b else a.

Definition is_zero (a : pyfloat) : bool :=
  match a with
  | Finite q => Qeq_bool q 0%Q
  | _ => false
  end.

Definition add (a b : pyfloat) : pyfloat :=
  match a, b with
  | NaN, _ | _, NaN => NaN
  | Finite x, Finite y => Finite (x + y)%Q
  | PosInf, NegInf | NegInf, PosInf => NaN
  | PosInf, _ | _, PosInf => PosInf
  | NegInf, _ | _, NegInf => NegInf
  end.

Definition sign_pos (a : pyfloat) : bool :=
  match a with
  | Finite q => Qle_bool 0%Q q
  | PosInf => true
  | _ => false
  end.

Definition mul (a b : pyfloat) : pyfloat :=
  match a, b with
  | NaN, _ | _, NaN => NaN
  | Finite x, Finite y => Finite (x * y)%Q
  | _, _ =>
      if is_zero a || is_zero b then NaN
      else if Bool.eqb (sign_pos a) (sign_pos b) then PosInf else NegInf
  end.

(** [a / b] for [b] different from zero; the caller raises
    [ZeroDivisionError] otherwise. *)
Definition div (a b : pyfloat) : pyfloat :=
  match a, b with
  | NaN, _ | _, NaN => NaN
  | Finite x, Finite y => Finite (x / y)%Q
  | Finite _, _ => Finite 0%Q
  | _, Finite _ =>
      if Bool.eqb (sign_pos a) (sign_pos b) then PosInf else NegInf
  | _, _ => NaN
  end.

(** Rounding of a rational to the nearest integer, ties to the even one, as
    [round(x)] does on a float. *)
Definition round_half_even (q : Q) : Z :=
  let n := Qnum q in
  let d := Zpos (Qden q) in
  let fl := (n / d)%Z in
  let r := (n mod d)%Z in
  match (2 * r ?= d)%Z with
  | Lt => fl
  | Gt => (fl + 1)%Z
  | Eq => if Z.even fl then fl else (fl + 1)%Z
  end.

(** Integers of magnitude below [2^1024 - 2^970] convert to a finite float;
    [float(n)] raises [OverflowError] on the others. *)
Definition int_fits (z : Z) : bool :=
  (Z.abs z <? 2 ^ 1024 - 2 ^ 970)%Z.

End PyFloat.

(** ** Values *)

Inductive pyval : Type :=
| PyNone
| PyBool (b : bool)
| PyInt (z : Z)
| PyFloat (f : pyfloat)
| PyStr (s : string)
| PyList (l : list pyval)
| PyDict (d : list (string * pyval)).

Definition dict : Type := list (string * pyval).

(** Truth value of an object, as [if x:] and [x or y] test it. *)
Definition truthy (v : pyval) : bool :=
  match v with
  | PyNone => false
  | PyBool b => b
  | PyInt z => negb (z =? 0)%Z
  | PyFloat f => negb (PyFloat.is_zero f)
  | PyStr s => negb (PyStr.is_empty s)
  | PyList l => match l with [] => false | _ => true end
  | PyDict d => match d with [] => false | _ => true end
  end.

(** [a or b] *)
Definition py_or (a b : pyval) : pyval := if truthy a then a else b.

Definition is_none (v : pyval) : bool :=
  match v with
  | PyNone => true
  | _ => false
  end.

Fixpoint dict_get (d : dict) (k : string) : option pyval :=
  match d with
  | [] => None
  | (k', v) :: r => if String.eqb k' k then Some v else dict_get r k
  end.

(** [d.get(k)] *)
Definition py_get (d : dict) (k : string) : pyval :=
  match dict_get d k with
  | Some v => v
  | None => PyNone
  end.

(** [k in d] *)
Definition dict_mem (d : dict) (k : string) : bool :=
  match dict_get d k with
  | Some _ => true
  | None => false
  end.

(** [d[k] = v] *)
Fixpoint dict_set (d : dict) (k : string) (v : pyval) : dict :=
  match d with
  | [] => [(k, v)]
  | (k', v') :: r =>
      if String.eqb k' k then (k', v) :: r else (k', v') :: dict_set r k v
  end.

Definition dict_keys (d : dict) : list string := map fst d.

(** ** Exceptions *)

Record exn : Type := mkExn { exn_class : string; exn_msg : string }.

Inductive result (A : Type) : Type :=
| Ok (a : A)
| Raise (e : exn).

Arguments Ok {A} a.
Arguments Raise {A} e.

Definition AttributeError (msg : string) : exn := mkExn "AttributeError" msg.
Definition TypeError (msg : string) : exn := mkExn "TypeError" msg.
Definition ValueError (msg : string) : exn := mkExn "ValueError" msg.
Definition OverflowError (msg : string) : exn := mkExn "OverflowError" msg.
Definition HTTPError (msg : string) : exn := mkExn "HTTPError" msg.
Definition JSONDecodeError (msg : string) : exn := mkExn "JSONDecodeError" msg.
Definition ZeroDivisionError (msg : string) : exn :=
  mkExn "ZeroDivisionError" msg.
Definition SQLAlchemyError (msg : string) : exn := mkExn "SQLAlchemyError" msg.

(** [str(e)] *)
Definition exn_str (e : exn) : string := exn_msg e.

Definition type_name (v : pyval) : string :=
  match v with
  | PyNone => "NoneType"
  | PyBool _ => "bool"
  | PyInt _ => "int"
  | PyFloat _ => "float"
  | PyStr _ => "str"
  | PyList _ => "list"
  | PyDict _ => "dict"
  end.

(** [v.get(k)]: only a [dict] has the method. *)
Definition method_get (v : pyval) (k : string) : result pyval :=
  match v with
  | PyDict d => Ok (py_get d k)
  | _ => Raise (AttributeError
                  ("'" ++ type_name v ++ "' object has no attribute 'get'"))
  end.

Definition rbind {A B : Type} (c : result A) (k : A -> result B) : result B :=
  match c with
  | Ok a => k a
  | Raise e => Raise e
  end.

Notation "x <-? c ;; k" := (rbind c (fun x => k))
  (at level 61, c at next level, right associativity).

(** [a or b] where evaluating either side may raise; [b] is looked at only
    when [a] is falsy. *)
Definition py_or_lazy (a b : result pyval) : result pyval :=
  match a with
  | Raise e => Raise e
  | Ok v => if truthy v then Ok v else b
  end.

(** [l[:n]] on a list, for any integer [n]. *)
Definition list_slice_to {A : Type} (l : list A) (n : Z) : list A :=
  if (0 <=? n)%Z then firstn (Z.to_nat n) l
  else firstn (List.length l - Z.to_nat (- n)) l.

Definition str_slice_to (s : string) (n : Z) : string :=
  if (0 <=? n)%Z then PyStr.take (Z.to_nat n) s
  else PyStr.take (String.length s - Z.to_nat (- n)) s.

(** [v[:n]] *)
Definition py_slice_to (v : pyval) (n : Z) : result pyval :=
  match v with
  | PyList l => Ok (PyList (list_slice_to l n))
  | PyStr s => Ok (PyStr (str_slice_to s n))
  | PyDict _ => Raise (TypeError "unhashable type: 'slice'")
  | _ => Raise (TypeError
                  ("'" ++ type_name v ++ "' object is not subscriptable"))
  end.

(** The items that [for r in v] visits. *)
Definition py_iter (v : pyval) : result (list pyval) :=
  match v with
  | PyList l => Ok l
  | PyStr s => Ok (map PyStr (PyStr.chars s))
  | PyDict d => Ok (map PyStr (dict_keys d))
  | _ => Raise (TypeError
                  ("'" ++ type_name v ++ "' object is not iterable"))
  end.

(** ** The lead record ([src/models/lead.py])

    The columns that the assessor reads or writes; [status] and the
    optional texts are [None] for a NULL column. *)

Record Lead : Type := mkLead {
  id : Z;
  company_name : option string;
  industry : option string;
  description : option string;
  source_url : option string;
  lead_score : pyfloat;
  status : option string;
  created_at : Z;
  raw_data : option string
}.

Definition opt_str (o : option string) : pyval :=
  match o with
  | Some s => PyStr s
  | None => PyNone
  end.

(** [o or ""] for an optional string *)
Definition or_empty (o : option string) : string :=
  match o with
  | Some s => s
  | None => EmptyString
  end.

(** ** Library functions and service providers *)

Record PyLib : Type := mkPyLib {
  (** [json.loads(s)]; [None] stands for [json.JSONDecodeError] *)
  json_loads : string -> option pyval;
  (** [json.dumps(v, ensure_ascii=False)] *)
  json_dumps : pyval -> string;
  (** [float(s)] on a string; [None] stands for [ValueError] *)
  float_of_str : string -> option pyfloat;
  (** [urlparse(url).netloc]; [None] stands for the [ValueError] that
      [urlparse] raises on a malformed URL *)
  urlparse_netloc : string -> option string
}.

(** What [requests.post] hands back: the status code of the response and
    what its [json()] method gives. *)
Record Response : Type := mkResponse {
  status_code : Z;
  resp_json : result pyval
}.

Inductive http_outcome : Type :=
| PostRaises (e : exn)
| PostReturns (r : Response).

Record Providers : Type := mkProviders {
  (** the n-th call of [requests.post] with the query and the number of
      results asked for *)
  requests_post : nat -> string -> Z -> http_outcome;
  (** the n-th call of [BedrockLLM.generate_text] with the prompt and
      [maxTokens]: the text extracted from the answer of
      [bedrock.converse], or the exception raised *)
  converse_text : nat -> string -> Z -> result string;
  (** the n-th call of [session.commit]; [None] when it succeeds *)
  session_commit : nat -> option exn
}.

(** ** The monad of effectful code *)

Record State : Type := mkState {
  n_search : nat;
  n_llm : nat;
  n_commit : nat;
  db : list Lead
}.

Definition M (A : Type) : Type := State -> result A * State.

Definition ret {A : Type} (a : A) : M A := fun s => (Ok a, s).

Definition raise {A : Type} (e : exn) : M A := fun s => (Raise e, s).

Definition bind {A B : Type} (c : M A) (k : A -> M B) : M B :=
  fun s =>
    match c s with
    | (Ok a, s') => k a s'
    | (Raise e, s') => (Raise e, s')
    end.

(** [try: c  except Exception as e: h e] *)
Definition try_except {A : Type} (c : M A) (h : exn -> M A) : M A :=
  fun s =>
    match c s with
    | (Ok a, s') => (Ok a, s')
    | (Raise e, s') => h e s'
    end.

Definition lift {A : Type} (r : result A) : M A := fun s => (r, s).

Notation "x <- c ;; k" := (bind c (fun x => k))
  (at level 61, c at next level, right associativity).

(** [for x in l: acc = body x acc] *)
Fixpoint for_each {X A : Type} (l : list X) (body : X -> A -> M A) (acc : A)
  : M A :=
  match l with
  | [] => ret acc
  | x :: r => acc' <- body x acc ;; for_each r body acc'
  end.

(** The double quote character, as a string. *)
Definition dquote : string := String (ascii_of_nat 34) EmptyString.

Definition space : ascii := ascii_of_nat 32.


Definition newline : string := String (ascii_of_nat 10) EmptyString.

Definition incr_search (s : State) : State :=
  mkState (S (n_search s)) (n_llm s) (n_commit s) (db s).

Definition incr_llm (s : State) : State :=
  mkState (n_search s) (S (n_llm s)) (n_commit s) (db s).

Definition incr_commit (s : State) : State :=
  mkState (n_search s) (n_llm s) (S (n_commit s)) (db s).

Definition set_db (d : list Lead) (s : State) : State :=
  mkState (n_search s) (n_llm s) (n_commit s) d.

(** ** [SerperClient] *)

Module SerperClient.

(** [resp.raise_for_status()] *)
Definition raise_for_status (r : Response) : result unit :=
  if ((400 <=? status_code r) && (status_code r <? 600))%Z
  then Raise (HTTPError "HTTP error")
  else Ok tt.

(** The body of the [try] of [search], given what [requests.post] did. *)
Definition search_try (num_results : Z) (out : http_outcome)
  : result pyval :=
  match out with
  | PostRaises e => Raise e
  | PostReturns resp =>
      _ <-? raise_for_status resp ;;
      data <-? resp_json resp ;;
      results <-? py_or_lazy (method_get data "organic")
                    (py_or_lazy (method_get data "results")
                       (Ok (PyList []))) ;;
      py_slice_to results num_results
  end.

Section Search.
Variable pv : Providers.

(** [SerperClient.search(q, num_results)] *)
Definition search (q : string) (num_results : Z) : M pyval :=
  fun s =>
    let out := requests_post pv (n_search s) q num_results in
    match search_try num_results out with
    | Ok results => (Ok results, incr_search s)
    | Raise e => (Ok (PyList []), incr_search s)
    end.

End Search.

End SerperClient.

(** ** [LeadAssessor]: the query of one factor *)

Module Query.

Definition keywords_map : list (string * list string) :=
  [ ("tech_stack",
      ["built on"; "powered by"; "Shopify"; "WooCommerce"; "WordPress";
       "Magento"; "bigcommerce"; "platform"]);
    ("business_age_months",
      ["founded"; "established"; "since"; "founded in"; "incorporated";
       "year"]);
    ("merchant_category",
      ["subscription"; "SaaS"; "services"; "e-commerce"; "online store";
       "marketplace"]);
    ("company_scale",
      ["employees"; "team of"; "headcount"; "startup"; "enterprise"; "SMB";
       "small business"]);
    ("integration_readiness_score",
      ["API"; "integrations"; "developer docs"; "plugins"; "extensions";
       "Zapier"; "webhooks"]);
    ("transaction_intent_score",
      ["checkout"; "buy now"; "pricing"; "add to cart"; "purchase";
       "orders"; "payment"]);
    ("digital_maturity_score",
      ["analytics"; "Google Analytics"; "tracking"; "mobile friendly";
       "responsive"; "PWA"; "SEO"]);
    ("web_presence_quality",
      ["press"; "blog"; "mentions"; "backlinks"; "domain authority";
       "traffic"; "social"]);
    ("fraud_risk_pattern_score",
      ["chargeback"; "fraud"; "complaint"; "scam"; "refund"; "lawsuit";
       "security breach"]);
    ("traffic_check",
      ["monthly visits"; "traffic"; "SimilarWeb"; "Alexa"; "semrush";
       "traffic estimate"]);
    ("brand_search_volume",
      ["search volume"; "brand searches"; "Google Trends"; "searches for"])
  ].

Fixpoint lookup {A : Type} (m : list (string * A)) (k : string) : option A :=
  match m with
  | [] => None
  | (k', v) :: r => if String.eqb k' k then Some v else lookup r k
  end.

(** [keywords_map.get(factor, [factor, "website", "reviews"])[:6]] *)
Definition keywords (factor : string) : list string :=
  firstn 6 (match lookup keywords_map factor with
            | Some kws => kws
            | None => [factor; "website"; "reviews"]
            end).

(** [f'"{k}"' if " " in k else k] *)
Definition quote_if_spaced (k : string) : string :=
  if PyStr.contains_char space k then dquote ++ k ++ dquote else k.

Definition or_clause (factor : string) : string :=
  PyStr.join " OR " (map quote_if_spaced (keywords factor)).

(** [if o:] on an optional string *)
Definition nonempty (o : option string) : bool :=
  match o with
  | Some s => negb (PyStr.is_empty s)
  | None => false
  end.

Section Builder.
Variable lib : PyLib.

(** The [domain] variable of [_seo_query_for_factor]. *)
Definition domain_of (source_url : option string) : string :=
  match source_url with
  | Some url =>
      if PyStr.is_empty url then EmptyString
      else match urlparse_netloc lib url with
           | Some netloc => netloc
           | None => url
           end
  | None => EmptyString
  end.

Definition _seo_query_for_factor (name : string) (industry : option string)
  (source_url : option string) (factor : string) : string :=
  let quoted_name :=
    if PyStr.is_empty name then EmptyString else dquote ++ name ++ dquote in
  let domain := domain_of source_url in
  let parts :=
    filter (fun p => negb (PyStr.is_empty p))
      [quoted_name; or_clause factor] in
  let q := "(" ++ PyStr.join " " parts ++ ")" in
  let q := if nonempty industry then q ++ " " ++ or_empty industry else q in
  let q := if PyStr.is_empty domain then q else q ++ " site:" ++ domain in
  q.

End Builder.

End Query.

(** ** [BedrockLLM] ([src/ascendai/llm.py]) *)

Module BedrockLLM.

(** The removal of a markdown fence, as [_fallback_to_json_conversion] does
    it on the stripped text (the source repeats these lines for the text of
    the fixer):
<<
    if clean_text.startswith('```'):
        parts = clean_text.split('```')
        if len(parts) >= 2:
            clean_text = parts[1]
            if clean_text.startswith('json'):
                clean_text = clean_text[4:]
>> *)
Definition unfence (clean_text : string) : string :=
  if PyStr.startswith clean_text "```" then
    let parts := PyStr.split clean_text "```" in
    if (2 <=? List.length parts)%nat then
      let clean_text := nth 1 parts EmptyString in
      if PyStr.startswith clean_text "json" then PyStr.drop 4 clean_text
      else clean_text
    else clean_text
  else clean_text.

(** [strip], the removal of the fence, [strip] again. *)
Definition clean (response_text : string) : string :=
  PyStr.strip (unfence (PyStr.strip response_text)).

Definition fixer_prompt (clean_text : string) : string :=
  "The assistant produced the following response which is intended to be a JSON array of lead objects, "
  ++ "but it is not valid JSON. Please convert it into a valid JSON array of objects with these keys: "
  ++ "company_name, industry, description, why_payu, source_url, company_size, lead_score (0-100). "
  ++ "Preserve as much information as possible from the original output. Return ONLY the JSON array, no explanations."
  ++ newline ++ newline ++ "RAW_OUTPUT:" ++ newline ++ clean_text.

Section LLM.
Variable lib : PyLib.
Variable pv : Providers.

(** [generate_text(prompt, maxTokens)] *)
Definition generate_text (prompt : string) (maxTokens : Z) : M string :=
  fun s => (converse_text pv (n_llm s) prompt maxTokens, incr_llm s).

(** [_fallback_to_json_conversion(response_text)] *)
Definition _fallback_to_json_conversion (response_text : string) : M pyval :=
  let clean_text := clean response_text in
  match json_loads lib clean_text with
  | Some leads => ret leads
  | None =>
      try_except
        (fixed <- generate_text (fixer_prompt clean_text) 3000 ;;
         let fixed_text := clean fixed in
         match json_loads lib fixed_text with
         | Some leads => ret leads
         | None => raise (JSONDecodeError "Expecting value")
         end)
        (fun e => raise e)
  end.

(** [generate_json(prompt, maxTokens)] *)
Definition generate_json (prompt : string) (maxTokens : Z) : M pyval :=
  response <- generate_text prompt maxTokens ;;
  _fallback_to_json_conversion response.

End LLM.

End BedrockLLM.

(** ** [LeadAssessor] *)

Module LeadAssessor.

Definition FACTOR_KEYS : list string :=
  [ "tech_stack";
    "business_age_months";
    "merchant_category";
    "company_scale";
    "integration_readiness_score";
    "transaction_intent_score";
    "digital_maturity_score";
    "web_presence_quality";
    "fraud_risk_pattern_score";
    "traffic_check";
    "brand_search_volume" ].

(** The list that the normalisation loop of [assess_lead] iterates. *)
Definition SCORE_KEYS : list string :=
  [ "integration_readiness_score";
    "transaction_intent_score";
    "digital_maturity_score";
    "web_presence_quality";
    "fraud_risk_pattern_score";
    "traffic_check";
    "brand_search_volume" ].

Fixpoint map_result {A B : Type} (f : A -> result B) (l : list A)
  : result (list B) :=
  match l with
  | [] => Ok []
  | x :: r => y <-? f x ;; ys <-? map_result f r ;; Ok (y :: ys)
  end.

(** One round of the loop [for r in results:] of [_search_for_factor]. *)
Definition snippet_of (q : string) (r : pyval) : result pyval :=
  title <-? py_or_lazy (method_get r "title")
              (py_or_lazy (method_get r "position")
                 (py_or_lazy (method_get r "snippet_title")
                    (Ok (PyStr EmptyString)))) ;;
  snippet <-? py_or_lazy (method_get r "snippet")
                (py_or_lazy (method_get r "summary")
                   (py_or_lazy (method_get r "description")
                      (py_or_lazy (method_get r "snippet_text")
                         (Ok (PyStr EmptyString))))) ;;
  link <-? py_or_lazy (method_get r "link")
             (py_or_lazy (method_get r "url")
                (py_or_lazy (method_get r "source")
                   (Ok (PyStr EmptyString)))) ;;
  Ok (PyDict [("query", PyStr q); ("title", title); ("snippet", snippet);
              ("link", link)]).

Definition lead_info (lead : Lead) : pyval :=
  PyDict [("company_name", opt_str (company_name lead));
          ("source_url", opt_str (source_url lead));
          ("industry", opt_str (industry lead))].

(** The accumulators of [assess_lead]. *)
Record Acc : Type := mkAcc {
  assessment : dict;
  raw_search_snippets : dict;
  rationales : dict
}.

Definition empty_acc : Acc := mkAcc [] [] [].

(** [parsed_factor] of [assess_lead], from the value that [generate_json]
    returned. *)
Definition parsed_factor_of (res : pyval) : dict :=
  match res with
  | PyList (PyDict d :: _) => d
  | PyList _ => []
  | PyDict d => d
  | _ => []
  end.

(** The [value] of [assess_lead]:
<<
    value = parsed_factor.get(factor)
    if value is None:
        value = parsed_factor.get("value") or parsed_factor.get("score")
                or parsed_factor.get("result")
>> *)
Definition extract_value (parsed_factor : dict) (factor : string) : pyval :=
  let value := py_get parsed_factor factor in
  if is_none value
  then py_or (py_or (py_get parsed_factor "value")
                (py_get parsed_factor "score"))
         (py_get parsed_factor "result")
  else value.

(** The part of the loop body after [generate_json] returned [res]. *)
Definition record_factor (factor : string) (res : pyval) (acc : Acc) : Acc :=
  let parsed_factor := parsed_factor_of res in
  let value := extract_value parsed_factor factor in
  let assessment' :=
    if is_none value then assessment acc
    else dict_set (assessment acc) factor value in
  let rationales' :=
    if truthy (py_get parsed_factor "rationale")
    then dict_set (rationales acc) factor (py_get parsed_factor "rationale")
    else rationales acc in
  mkAcc assessment' (raw_search_snippets acc) rationales'.

(** [float(v)] *)
Definition py_float (lib : PyLib) (v : pyval) : result pyfloat :=
  match v with
  | PyNone =>
      Raise (TypeError
        "float() argument must be a string or a real number, not 'NoneType'")
  | PyBool b => Ok (if b then PyFloat.one else PyFloat.zero)
  | PyInt z =>
      if PyFloat.int_fits z then Ok (PyFloat.of_Z z)
      else Raise (OverflowError "int too large to convert to float")
  | PyFloat f => Ok f
  | PyStr s =>
      match float_of_str lib s with
      | Some f => Ok f
      | None => Raise (ValueError "could not convert string to float")
      end
  | PyList _ =>
      Raise (TypeError
        "float() argument must be a string or a real number, not 'list'")
  | PyDict _ =>
      Raise (TypeError
        "float() argument must be a string or a real number, not 'dict'")
  end.

(** [max(0.0, min(1.0, fv))] *)
Definition clamp01 (fv : pyfloat) : pyfloat :=
  PyFloat.py_max PyFloat.zero (PyFloat.py_min PyFloat.one fv).

(** One round of the normalisation loop of [assess_lead]; the state is the
    assessment and [numeric_scores]. *)
Definition normalize_step (lib : PyLib) (st : dict * list pyfloat)
  (k : string) : dict * list pyfloat :=
  let '(a, numeric_scores) := st in
  let v := py_get a k in
  if is_none v then st
  else match py_float lib v with
       | Raise _ => st
       | Ok fv =>
           let fv := clamp01 fv in
           (dict_set a k (PyFloat fv), (numeric_scores ++ [fv])%list)
       end.

Definition normalize (lib : PyLib) (a : dict) : dict * list pyfloat :=
  fold_left (normalize_step lib) SCORE_KEYS (a, []).

(** [sum(l)]: the additions start from the integer 0. *)
Definition py_sum (l : list pyfloat) : pyfloat :=
  fold_left PyFloat.add l (PyFloat.of_Z 0).

(** [round(x)] on a float *)
Definition py_round (x : pyfloat) : result Z :=
  match x with
  | Finite q => Ok (PyFloat.round_half_even q)
  | NaN => Raise (ValueError "cannot convert float NaN to integer")
  | _ => Raise (OverflowError "cannot convert float infinity to integer")
  end.

(** [a / n] for a float [a] and an integer [n] *)
Definition py_truediv (a : pyfloat) (n : Z) : result pyfloat :=
  if (n =? 0)%Z then Raise (ZeroDivisionError "float division by zero")
  else Ok (PyFloat.div a (PyFloat.of_Z n)).

(** [int(round((sum(numeric_scores) / len(numeric_scores)) * 100))
     if numeric_scores else 0] *)
Definition computed_lead_score (numeric_scores : list pyfloat)
  : result pyval :=
  match numeric_scores with
  | [] => Ok (PyInt 0)
  | _ =>
      m <-? py_truediv (py_sum numeric_scores)
              (Z.of_nat (List.length numeric_scores)) ;;
      n <-? py_round (PyFloat.mul m (PyFloat.of_Z 100)) ;;
      Ok (PyInt n)
  end.

(** The lines of [assess_lead] after the loop over the factors. *)
Definition finish (lib : PyLib) (acc : Acc) : result dict :=
  let '(a, numeric_scores) := normalize lib (assessment acc) in
  a <-? (if negb (dict_mem a "lead_score")
         then score <-? computed_lead_score numeric_scores ;;
              Ok (dict_set a "lead_score" score)
         else Ok a) ;;
  let a := dict_set a "rationales" (PyDict (rationales acc)) in
  let a := dict_set a "raw_search_snippets"
             (PyDict (raw_search_snippets acc)) in
  Ok a.

(** [existing["assessment"] = assessment] on whatever [existing] is. *)
Definition py_setitem (v : pyval) (k : string) (x : pyval) : result pyval :=
  match v with
  | PyDict d => Ok (PyDict (dict_set d k x))
  | PyList _ =>
      Raise (TypeError "list indices must be integers or slices, not str")
  | _ =>
      Raise (TypeError
        ("'" ++ type_name v ++ "' object does not support item assignment"))
  end.

(** [isinstance(v, (int, float))]; a [bool] is an [int]. *)
Definition is_int_or_float (v : pyval) : bool :=
  match v with
  | PyBool _ | PyInt _ | PyFloat _ => true
  | _ => false
  end.

Definition set_raw_data (l : Lead) (r : option string) : Lead :=
  mkLead (id l) (company_name l) (industry l) (description l) (source_url l)
    (lead_score l) (status l) (created_at l) r.

Definition set_lead_score (l : Lead) (f : pyfloat) : Lead :=
  mkLead (id l) (company_name l) (industry l) (description l) (source_url l)
    f (status l) (created_at l) (raw_data l).

Definition set_status (l : Lead) (st : option string) : Lead :=
  mkLead (id l) (company_name l) (industry l) (description l) (source_url l)
    (lead_score l) st (created_at l) (raw_data l).

(** The row of a lead is written by [session.add] and [session.commit]:
    the row with the same primary key is replaced. *)
Fixpoint db_write (rows : list Lead) (l : Lead) : list Lead :=
  match rows with
  | [] => [l]
  | r :: rest =>
      if (id r =? id l)%Z then l :: rest else r :: db_write rest l
  end.

(** [Lead.status != "assessed"] as SQL evaluates it: a row without a status
    does not pass the filter. *)
Definition not_assessed (l : Lead) : bool :=
  match status l with
  | Some st => negb (String.eqb st "assessed")
  | None => false
  end.

Fixpoint insert_by_created_at (l : Lead) (sorted : list Lead) : list Lead :=
  match sorted with
  | [] => [l]
  | r :: rest =>
      if (created_at l <? created_at r)%Z then l :: sorted
      else r :: insert_by_created_at l rest
  end.

(** [order_by(Lead.created_at)] *)
Definition order_by_created_at (rows : list Lead) : list Lead :=
  fold_right insert_by_created_at [] rows.

(** The query of [assess_all_leads] before the limit. *)
Definition unassessed (rows : list Lead) : list Lead :=
  order_by_created_at (filter not_assessed rows).

(** [if limit: q = q.limit(limit)].  A negative limit is taken to be
    rejected by the database, as PostgreSQL does. *)
Definition apply_limit (limit : option Z) (rows : list Lead)
  : result (list Lead) :=
  match limit with
  | None => Ok rows
  | Some n =>
      if (n =? 0)%Z then Ok rows
      else if (n <? 0)%Z
           then Raise (SQLAlchemyError "LIMIT must not be negative")
           else Ok (firstn (Z.to_nat n) rows)
  end.

Section Assessor.
Variable lib : PyLib.
Variable pv : Providers.

(** [_search_for_factor(lead, factor, num_results)] *)
Definition _search_for_factor (lead : Lead) (factor : string)
  (num_results : Z) : M (list pyval) :=
  let name := PyStr.strip (or_empty (company_name lead)) in
  let industry := PyStr.strip (or_empty (industry lead)) in
  let q := Query._seo_query_for_factor lib name (Some industry)
             (source_url lead) factor in
  results <- SerperClient.search pv q num_results ;;
  lift (items <-? py_iter results ;; map_result (snippet_of q) items).

(** [_build_factor_prompt(lead, factor, snippets)] *)
Definition _build_factor_prompt (lead : Lead) (factor : string)
  (snippets : list pyval) : string :=
  "You are an assistant that inspects web search results and extracts one field for a company."
  ++ newline
  ++ "Field: " ++ factor ++ newline
  ++ "Allowed output: Return a single JSON object with keys: "
  ++ dquote ++ factor ++ dquote ++ " and optional "
  ++ dquote ++ "rationale" ++ dquote ++ "." ++ newline
  ++ "If the field is a score, return a float between 0 and 1. If it is a categorical value, return one of the allowed categories."
  ++ newline
  ++ "Return ONLY valid JSON (no markdown)." ++ newline ++ newline
  ++ "LEAD:" ++ newline ++ json_dumps lib (lead_info lead)
  ++ newline ++ newline
  ++ "SEARCH_SNIPPETS:" ++ newline ++ json_dumps lib (PyList snippets)
  ++ newline.

(** The body of the loop [for factor in self.FACTOR_KEYS:]. *)
Definition factor_step (lead : Lead) (factor : string) (acc : Acc) : M Acc :=
  snippets <- _search_for_factor lead factor 3 ;;
  let acc := mkAcc (assessment acc)
               (dict_set (raw_search_snippets acc) factor (PyList snippets))
               (rationales acc) in
  let prompt := _build_factor_prompt lead factor snippets in
  try_except
    (res <- BedrockLLM.generate_json lib pv prompt 800 ;;
     ret (record_factor factor res acc))
    (fun e => ret acc).

(** The loop over the factors, from given accumulators. *)
Definition collect_from (lead : Lead) (factors : list string) (acc : Acc)
  : M Acc :=
  for_each factors (factor_step lead) acc.

Definition collect (lead : Lead) : M Acc :=
  collect_from lead FACTOR_KEYS empty_acc.

(** The body of the outer [try] of [assess_lead]. *)
Definition assess_try (lead : Lead) : M dict :=
  acc <- collect lead ;;
  lift (finish lib acc).

(** [assess_lead(lead)] *)
Definition assess_lead (lead : Lead) : M dict :=
  try_except (assess_try lead)
    (fun e => ret [("error", PyStr (exn_str e))]).

(** The [existing] of [persist_assessment]. *)
Definition existing_of (lead : Lead) : pyval :=
  match raw_data lead with
  | Some raw =>
      if PyStr.is_empty raw then PyDict []
      else match json_loads lib raw with
           | Some v => v
           | None => PyDict [("raw", PyStr raw)]
           end
  | None => PyDict []
  end.

(** The lines of [persist_assessment] before [session.add]: the lead as it
    is handed to the session. *)
Definition prepare (lead : Lead) (a : dict) : result Lead :=
  existing <-? py_setitem (existing_of lead) "assessment" (PyDict a) ;;
  let lead := set_raw_data lead (Some (json_dumps lib existing)) in
  lead <-? (if is_int_or_float (py_get a "lead_score")
            then f <-? py_float lib (py_get a "lead_score") ;;
                 Ok (set_lead_score lead f)
            else Ok lead) ;;
  Ok (set_status lead (Some "assessed")).

(** [session.add(lead); session.commit()] *)
Definition add_and_commit (lead : Lead) : M unit :=
  fun s =>
    match session_commit pv (n_commit s) with
    | None => (Ok tt, set_db (db_write (db s) lead) (incr_commit s))
    | Some e => (Raise e, incr_commit s)
    end.

(** [persist_assessment(lead, assessment)].  The value returned is the state
    of the lead object afterwards: [session.rollback()] discards the changes
    made to it. *)
Definition persist_assessment (lead : Lead) (a : dict) : M Lead :=
  try_except
    (lead' <- lift (prepare lead a) ;;
     _ <- add_and_commit lead' ;;
     ret lead')
    (fun e => ret lead).

Definition result_entry (lead : Lead) (a : dict) : pyval :=
  PyDict [("lead_id", PyInt (id lead));
          ("company_name", opt_str (company_name lead));
          ("assessment", PyDict a)].

(** The body of the loop of [assess_all_leads]. *)
Definition assess_one (lead : Lead) (results : list pyval)
  : M (list pyval) :=
  a <- assess_lead lead ;;
  lead' <- persist_assessment lead a ;;
  ret (results ++ [result_entry lead' a])%list.

(** [assess_all_leads(limit)] *)
Definition assess_all_leads (limit : option Z) : M (list pyval) :=
  fun s =>
    match apply_limit limit (unassessed (db s)) with
    | Raise e => (Raise e, s)
    | Ok leads => for_each leads assess_one [] s
    end.

End Assessor.

End LeadAssessor.

(** ** [BedrockLLM._extract_bedrock_response_text] ([src/ascendai/llm.py]) *)

Module BedrockResponse.

(** The inner function [search_for_text]: the first string stored under a
    key [text], looking into the values of a [dict] and the items of a
    [list] in order; a result found deeper is taken only when it is not
    empty ([if res: return res]).  The recursion limit of the interpreter
    is not modelled. *)
Fixpoint search_for_text (obj : pyval) : option string :=
  match obj with
  | PyDict d =>
      (fix in_items (items : list (string * pyval)) : option string :=
         match items with
         | [] => None
         | (k, v) :: rest =>
             match String.eqb k "text", v with
             | true, PyStr t => Some t
             | _, _ =>
                 match search_for_text v with
                 | Some res =>
                     if PyStr.is_empty res then in_items rest else Some res
                 | None => in_items rest
                 end
             end
         end) d
  | PyList l =>
      (fix in_list (els : list pyval) : option string :=
         match els with
         | [] => None
         | el :: rest =>
             match search_for_text el with
             | Some res =>
                 if PyStr.is_empty res then in_list rest else Some res
             | None => in_list rest
             end
         end) l
  | _ => None
  end.

(** The loop [for sub in c.get('content'):]. *)
Fixpoint first_sub (subs : list pyval) : option string :=
  match subs with
  | [] => None
  | PyDict sd :: rest =>
      match py_get sd "text" with
      | PyStr t => Some t
      | _ => first_sub rest
      end
  | _ :: rest => first_sub rest
  end.

(** The loop [for c in content:]. *)
Fixpoint first_content (content : list pyval) : option string :=
  match content with
  | [] => None
  | PyDict cd :: rest =>
      match dict_get cd "text" with
      | Some (PyStr t) => Some t
      | _ =>
          match py_get cd "content" with
          | PyList subs =>
              match first_sub subs with
              | Some t => Some t
              | None => first_content rest
              end
          | _ => first_content rest
          end
      end
  | PyStr t :: _ => Some t
  | _ :: rest => first_content rest
  end.

(** The block under the comment [# common modern shape]: what it returns,
    or [None] when it falls through. *)
Definition modern_shape (resp_obj : pyval) : option string :=
  match resp_obj with
  | PyDict r =>
      match py_get r "output" with
      | PyDict out =>
          match py_get out "message" with
          | PyDict msg =>
              match py_get msg "content" with
              | PyList content => first_content content
              | _ => None
              end
          | _ => None
          end
      | _ => None
      end
  | _ => None
  end.

(** [_extract_bedrock_response_text(resp_obj)].  [dumps] is [json.dumps]
    with its default settings, which does not raise on a JSON value. *)
Definition _extract_bedrock_response_text (dumps : pyval -> string)
  (resp_obj : pyval) : string :=
  if negb (truthy resp_obj) then EmptyString
  else match modern_shape resp_obj with
       | Some t => t
       | None =>
           match search_for_text resp_obj with
           | Some res => res
           | None => dumps resp_obj
           end
       end.

End BedrockResponse.

(** ** [LeadAssessor._estimate_factor_with_llm] *)

Module Estimate.

Section Estimator.
Variable lib : PyLib.
Variable pv : Providers.

Definition estimate_prompt (lead : Lead) (factor : string)
  (snippets : list pyval) : string :=
  "You did not find explicit evidence in the provided snippets. Using the lead information and the snippets, "
  ++ "provide a best-effort ESTIMATE for the field `" ++ factor
  ++ "` for the company." ++ newline
  ++ "Return a JSON object with keys: " ++ dquote ++ factor ++ dquote
  ++ " (value), optional " ++ dquote ++ "rationale" ++ dquote
  ++ " explaining why, and " ++ dquote ++ "estimated" ++ dquote ++ ": true."
  ++ newline
  ++ "If the value is a score, return a float between 0 and 1. If categorical, return one of the allowed categories."
  ++ newline
  ++ "Return ONLY valid JSON (no markdown)." ++ newline ++ newline
  ++ "LEAD:" ++ newline ++ json_dumps lib (LeadAssessor.lead_info lead)
  ++ newline ++ newline
  ++ "SEARCH_SNIPPETS:" ++ newline ++ json_dumps lib (PyList snippets)
  ++ newline.

(** [_estimate_factor_with_llm(lead, factor, snippets)] *)
Definition _estimate_factor_with_llm (lead : Lead) (factor : string)
  (snippets : list pyval) : M dict :=
  try_except
    (res <- BedrockLLM.generate_json lib pv
              (estimate_prompt lead factor snippets) 600 ;;
     ret (LeadAssessor.parsed_factor_of res))
    (fun _ => ret []).

End Estimator.

End Estimate.

(** ** The assessment endpoints of [src/ascendai/api.py] *)

Module Api.

Section Endpoints.
Variable lib : PyLib.
Variable pv : Providers.

(** The [assessment] that [get_lead] and [list_leads] read from a lead:
<<
    assessment = None
    if lead.raw_data:
        try:
            raw = json.loads(lead.raw_data)
            assessment = raw.get("assessment")
        except Exception:
            pass
>> *)
Definition stored_assessment (lead : Lead) : pyval :=
  match raw_data lead with
  | Some raw =>
      if PyStr.is_empty raw then PyNone
      else match json_loads lib raw with
           | Some data =>
               match method_get data "assessment" with
               | Ok a => a
               | Raise _ => PyNone
               end
           | None => PyNone
           end
  | None => PyNone
  end.

(** [session.query(Lead).filter(Lead.id == lead_id).first()] *)
Definition lead_by_id (rows : list Lead) (lead_id : Z) : option Lead :=
  find (fun l => (id l =? lead_id)%Z) rows.

(** The body of the loop [for lead_id in request.lead_ids:] of
    [assess_leads]. *)
Definition assess_by_id (lead_id : Z) (assessments : list pyval)
  : M (list pyval) :=
  fun s =>
    match lead_by_id (db s) lead_id with
    | None => (Ok assessments, s)
    | Some lead =>
        (a <- LeadAssessor.assess_lead lib pv lead ;;
         lead' <- LeadAssessor.persist_assessment lib pv lead a ;;
         ret (assessments ++ [LeadAssessor.result_entry lead' a])%list) s
    end.

(** The part of [assess_leads] between the construction of the assessor and
    the response: the list [assessments]. *)
Definition assess_leads (lead_ids : option (list Z)) (limit : option Z)
  : M (list pyval) :=
  match lead_ids with
  | Some (lead_id :: rest) => for_each (lead_id :: rest) assess_by_id []
  | _ => LeadAssessor.assess_all_leads lib pv limit
  end.

End Endpoints.

End Api.

(** ** [PayULeadGenerator.extract_companies_from_url]
       ([src/ascendai/lead_generation.py]) *)

Module LeadGenerator.

(** [d.setdefault(k, v)] *)
Definition dict_setdefault (d : dict) (k : string) (v : pyval) : dict :=
  if dict_mem d k then d else dict_set d k v.

(** The seven [item.setdefault] calls. *)
Definition with_defaults (url : string) (item : dict) : dict :=
  let item := dict_setdefault item "company_name" (PyStr "") in
  let item := dict_setdefault item "industry" (PyStr "") in
  let item := dict_setdefault item "description" (PyStr "") in
  let item := dict_setdefault item "why_payu" (PyStr "") in
  let item := dict_setdefault item "source_url" (PyStr url) in
  let item := dict_setdefault item "company_size" (PyStr "") in
  let item := dict_setdefault item "lead_score" (PyInt 0) in
  item.

(** The list [valid]: the objects among the items of [leads], with their
    defaults. *)
Fixpoint valid_items (url : string) (items : list pyval) : list pyval :=
  match items with
  | [] => []
  | PyDict item :: rest => PyDict (with_defaults url item) :: valid_items url rest
  | _ :: rest => valid_items url rest
  end.

Definition extraction_prompt (url truncated : string) : string :=
  "You are a professional lead finder agent. Read the following page text from "
  ++ url ++ " "
  ++ "and extract company leads mentioned or clearly described on the page. "
  ++ "Return ONLY a JSON array of objects with these keys: company_name, industry, description, "
  ++ "why_payu, source_url, company_size, lead_score (0-100). If no companies are present, "
  ++ "return an empty JSON array. Use the page content to infer fields; be concise."
  ++ newline ++ newline ++ "PAGE_TEXT:" ++ newline ++ truncated.

Definition UnboundLocalError : exn :=
  mkExn "UnboundLocalError"
    "cannot access local variable 'leads' where it is not associated with a value".

Section Extraction.
Variable lib : PyLib.
Variable pv : Providers.
(** [_get_page_text_from_url(url)]: the text of the page, or the exception
    of the browser. *)
Variable get_page_text : string -> result string.

(** [extract_companies_from_url(url)].  When [generate_json] raises, both
    [except] clauses print and fall through to [return leads], and [leads]
    was never assigned. *)
Definition extract_companies_from_url (url : string) : M pyval :=
  page_text <- lift (get_page_text url) ;;
  let truncated := PyStr.take (Z.to_nat 12000) page_text in
  let prompt := extraction_prompt url truncated in
  fun s =>
    match BedrockLLM.generate_json lib pv prompt 2000 s with
    | (Ok leads, s') =>
        let valid :=
          valid_items url (match leads with PyList l => l | _ => [] end) in
        match valid with
        | [] => (Ok leads, s')
        | _ => (Ok (PyList valid), s')
        end
    | (Raise _, s') => (Raise UnboundLocalError, s')
    end.

End Extraction.

End LeadGenerator.

(** ** Deterministic stand-ins for the libraries and the services

    Used to run the model on concrete inputs. *)

Module Fake.

(** A [json.loads] that knows the texts of a table. *)
Definition lib_of (tbl : list (string * pyval)) : PyLib :=
  mkPyLib (Query.lookup tbl) (fun _ => "{}") (fun _ => None)
    (Query.lookup [("https://acme.io", "acme.io")]).

(** Services that give the same answer to every call; the commit
    succeeds. *)
Definition providers (post : http_outcome) (text : result string)
  : Providers :=
  mkProviders (fun _ _ _ => post) (fun _ _ _ => text) (fun _ => None).

Definition organic (results : pyval) : http_outcome :=
  PostReturns (mkResponse 200 (Ok (PyDict [("organic", results)]))).

Definition acme : Lead :=
  mkLead 1 (Some "Acme Co") (Some "SaaS") None (Some "https://acme.io")
    PyFloat.zero (Some "new") 0 None.

Definition start (rows : list Lead) : State := mkState 0 0 0 rows.

Definition pricing_snippet : pyval :=
  PyDict [("title", PyStr "Acme Pricing");
          ("snippet", PyStr "checkout and pricing page");
          ("link", PyStr "https://acme.io/pricing")].

Definition quoted (s : string) : string := dquote ++ s ++ dquote.

(** The text of the JSON object with the one key [k] and the value written
    [v]. *)
Definition obj1 (k v : string) : string := "{" ++ quoted k ++ ": " ++ v ++ "}".

(** [{"value": 0, "score": 0.7}] *)
Definition text_value_zero : string :=
  "{" ++ quoted "value" ++ ": 0, " ++ quoted "score" ++ ": 0.7}".

Definition obj_value_zero : dict :=
  [("value", PyInt 0); ("score", PyFloat (Finite (7 # 10)))].

(** [{"lead_score": 150}] *)
Definition text_lead_score_150 : string := obj1 "lead_score" "150".

(** [{"transaction_intent_score": 0.8, "rationale": "checkout page found"}] *)
Definition text_intent : string :=
  "{" ++ quoted "transaction_intent_score" ++ ": 0.8, "
  ++ quoted "rationale" ++ ": " ++ quoted "checkout page found" ++ "}".

(** What [json.loads] gives on the texts used below. *)
Definition json_table : list (string * pyval) :=
  [ (text_value_zero, PyDict obj_value_zero);
    (text_lead_score_150, PyDict [("lead_score", PyInt 150)]);
    (text_intent,
     PyDict [("transaction_intent_score", PyFloat (Finite (8 # 10)));
             ("rationale", PyStr "checkout page found")]);
    ("[1]", PyList [PyInt 1]);
    ("[1, 2]", PyList [PyInt 1; PyInt 2]);
    (obj1 "tech_stack" (quoted "Shopify"),
     PyDict [("tech_stack", PyStr "Shopify")]);
    (obj1 "business_age_months" "24",
     PyDict [("business_age_months", PyInt 24)]);
    (obj1 "value" (quoted "SMB"), PyDict [("value", PyStr "SMB")]);
    (obj1 "integration_readiness_score" "0.8",
     PyDict [("integration_readiness_score", PyFloat (Finite (8 # 10)))]);
    (obj1 "transaction_intent_score" "1.5",
     PyDict [("transaction_intent_score", PyFloat (Finite (15 # 10)))]);
    (obj1 "score" "-0.2", PyDict [("score", PyFloat (Finite (-2 # 10)))]);
    (obj1 "web_presence_quality" (quoted "high"),
     PyDict [("web_presence_quality", PyStr "high")]);
    (obj1 "traffic_check" "0.5",
     PyDict [("traffic_check", PyFloat (Finite (5 # 10)))]);
    (obj1 "brand_search_volume" "0.25",
     PyDict [("brand_search_volume", PyFloat (Finite (25 # 100)))]) ].

Definition lib : PyLib := lib_of json_table.

(** A completion service that gives the answers of a list, one for each
    call, and raises once the list is used up. *)
Definition scripted (post : http_outcome) (texts : list (result string))
  : Providers :=
  mkProviders (fun _ _ _ => post)
    (fun n _ _ => nth n texts (Raise (mkExn "ClientError" "throttled")))
    (fun _ => None).

(** A run in which the completion of [merchant_category] does not parse and
    the fixer call raises, the completion of [fraud_risk_pattern_score]
    raises, and the scores are 0.8, 1.5, -0.2, the string [high], 0.5 and
    0.25. *)
Definition mixed : Providers :=
  scripted (organic (PyList [pricing_snippet]))
    [ Ok (obj1 "tech_stack" (quoted "Shopify"));
      Ok (obj1 "business_age_months" "24");
      Ok "Sure! Here is the JSON you asked for";
      Raise (mkExn "ClientError" "throttled");
      Ok ("```json" ++ newline ++ obj1 "value" (quoted "SMB") ++ newline
          ++ "```");
      Ok (obj1 "integration_readiness_score" "0.8");
      Ok (obj1 "transaction_intent_score" "1.5");
      Ok (obj1 "score" "-0.2");
      Ok (obj1 "web_presence_quality" (quoted "high"));
      Raise (mkExn "ClientError" "throttled");
      Ok (obj1 "traffic_check" "0.5");
      Ok (obj1 "brand_search_volume" "0.25") ].

Definition run_value {A : Type} (default : A) (r : result A * State) : A :=
  match fst r with
  | Ok a => a
  | Raise _ => default
  end.

Definition mixed_acc : LeadAssessor.Acc :=
  run_value LeadAssessor.empty_acc
    (LeadAssessor.collect lib mixed acme (start [])).

Definition mixed_end : State :=
  snd (LeadAssessor.collect lib mixed acme (start [])).

(** Every completion is [{"value": 0, "score": 0.7}]; no search result. *)
Definition value_zero : Providers :=
  providers (organic (PyList [])) (Ok text_value_zero).

(** Every completion is [{"lead_score": 150}]; no search result. *)
Definition lead_score_150 : Providers :=
  providers (organic (PyList [])) (Ok text_lead_score_150).

(** The search gives a list with a string in it. *)
Definition bad_results : Providers :=
  providers (organic (PyList [PyStr "x"])) (Ok text_intent).


Definition error_only : dict := [("error", PyStr "boom")].

Definition three_results : pyval :=
  PyList [PyDict [("title", PyStr "a")]; PyDict [("title", PyStr "b")];
          PyDict [("title", PyStr "c")]].

End Fake.

(** ** Notions used to state the properties *)

Module Spec.

Definition non_null (o : option pyval) : option pyval :=
  match o with
  | Some PyNone => None
  | _ => o
  end.


(** The value kept for a factor: the value of the factor key when it is not
    null; otherwise the value of [value] when it is truthy, otherwise the
    value of [score] when it is truthy, otherwise the value of [result] when
    it is not null. *)
Definition chosen_value (d : dict) (factor : string) : option pyval :=
  match non_null (dict_get d factor) with
  | Some v => Some v
  | None =>
      if truthy (py_get d "value") then Some (py_get d "value")
      else if truthy (py_get d "score") then Some (py_get d "score")
      else non_null (dict_get d "result")
  end.

Definition finite_part (f : pyfloat) : Q :=
  match f with
  | Finite q => q
  | _ => 0%Q
  end.

(** The clamped scores of an assessment: for each score key, in order, the
    value under the key converted to a float and clamped, when the
    conversion succeeds. *)
Definition normalized_scores (lib : PyLib) (a : dict) : list Q :=
  flat_map
    (fun k =>
       match LeadAssessor.py_float lib (py_get a k) with
       | Ok f => [finite_part (LeadAssessor.clamp01 f)]
       | Raise _ => []
       end)
    LeadAssessor.SCORE_KEYS.

Definition mean (qs : list Q) : Q :=
  (fold_left Qplus qs 0 / inject_Z (Z.of_nat (List.length qs)))%Q.

(** [round(mean(scores) * 100)], and 0 when there is no score. *)
Definition score_of (qs : list Q) : Z :=
  match qs with
  | [] => 0%Z
  | _ => PyFloat.round_half_even (mean qs * 100)%Q
  end.

Definition is_object (v : pyval) : Prop :=
  match v with
  | PyDict _ => True
  | _ => False
  end.


(** The primary keys of the rows are distinct. *)
Definition unique_ids (rows : list Lead) : Prop := NoDup (map id rows).

(** The lead of an entry of the list that [assess_all_leads] returns. *)
Definition entry_lead_id (entry : pyval) : option pyval :=
  match entry with
  | PyDict d => dict_get d "lead_id"
  | _ => None
  end.

(** The outcome of the one repair attempt of JSON repair: the answer of the
    completion service to the fixer prompt, cleaned and parsed. *)
Definition repaired (lib : PyLib) (pv : Providers) (clean_text : string)
  (s : State) : result pyval :=
  match converse_text pv (n_llm s) (BedrockLLM.fixer_prompt clean_text) 3000
  with
  | Ok fixed =>
      match json_loads lib (BedrockLLM.clean fixed) with
      | Some v => Ok v
      | None => Raise (JSONDecodeError "Expecting value")
      end
  | Raise e => Raise e
  end.

(** The clamped floats that the normalisation collects over the keys
    [ks]. *)
Definition scores_over (lib : PyLib) (a : dict) (ks : list string)
  : list pyfloat :=
  flat_map
    (fun k =>
       match LeadAssessor.py_float lib (py_get a k) with
       | Ok f => [LeadAssessor.clamp01 f]
       | Raise _ => []
       end)
    ks.

End Spec.

(** ** Notions used to state the further properties *)

Module Props.

(** The string [t] is a value somewhere in [v]. *)
Inductive occurs (t : string) : pyval -> Prop :=
| occurs_here : occurs t (PyStr t)
| occurs_list (l : list pyval) (v : pyval) :
    In v l -> occurs t v -> occurs t (PyList l)
| occurs_dict (d : dict) (k : string) (v : pyval) :
    In (k, v) d -> occurs t v -> occurs t (PyDict d).

(** The string [t] is stored under a key [text] somewhere in [v]. *)
Inductive has_text (t : string) : pyval -> Prop :=
| has_text_here (d : dict) : In ("text", PyStr t) d -> has_text t (PyDict d)
| has_text_list (l : list pyval) (v : pyval) :
    In v l -> has_text t v -> has_text t (PyList l)
| has_text_dict (d : dict) (k : string) (v : pyval) :
    In (k, v) d -> has_text t v -> has_text t (PyDict d).


(** The keys that [assess_lead] adds after the factors. *)
Definition META_KEYS : list string :=
  ["lead_score"; "rationales"; "raw_search_snippets"].

(** The keys of a snippet of [_search_for_factor]. *)
Definition SNIPPET_KEYS : list string :=
  ["query"; "title"; "snippet"; "link"].

(** The seven keys that [extract_companies_from_url] gives a default, with
    their defaults for a page at [url]. *)
Definition defaults_for (url : string) : list (string * pyval) :=
  [("company_name", PyStr ""); ("industry", PyStr "");
   ("description", PyStr ""); ("why_payu", PyStr "");
   ("source_url", PyStr url); ("company_size", PyStr "");
   ("lead_score", PyInt 0)].

(** The objects among the items of a list. *)
Fixpoint objects_of (items : list pyval) : list dict :=
  match items with
  | [] => []
  | PyDict d :: rest => d :: objects_of rest
  | _ :: rest => objects_of rest
  end.

(** Every commit succeeds. *)
Definition commits_succeed (pv : Providers) : Prop :=
  forall n, session_commit pv n = None.

(** The [raw_data] of every lead that is not assessed is empty, is not
    JSON, or is a JSON object. *)
Definition raw_data_mergeable (lib : PyLib) (rows : list Lead) : Prop :=
  forall l, In l rows -> LeadAssessor.not_assessed l = true ->
            exists d, LeadAssessor.existing_of lib l = PyDict d.

(** The limit is absent or not negative. *)
Definition limit_ok (limit : option Z) : Prop :=
  forall n, limit = Some n -> (0 <= n)%Z.

(** [json.loads] reads back the document [doc] from what [json.dumps]
    writes for it, and that text is not empty. *)
Definition reads_back (lib : PyLib) (doc : pyval) : Prop :=
  json_loads lib (json_dumps lib doc) = Some doc
  /\ PyStr.is_empty (json_dumps lib doc) = false.

(** The [lead_id] that an entry of a result list carries. *)
Definition id_entry (l : Lead) : option pyval := Some (PyInt (id l)).

End Props.

(** ** Concrete inputs for the further properties *)

Module Demo.

(** A response of the Converse API. *)
Definition converse_message : dict :=
  [("role", PyStr "assistant");
   ("content", PyList [PyDict [("text", PyStr "hello")]])].

Definition converse_output : dict := [("message", PyDict converse_message)].

Definition converse_response : dict :=
  [("output", PyDict converse_output); ("stopReason", PyStr "end_turn")].

(** A response of another shape, with its text under [completion]. *)
Definition legacy_response : pyval :=
  PyDict [("completion", PyDict [("text", PyStr "hello")])].

Definition dumps (v : pyval) : string := "<json>".

(** The search raises. *)
Definition search_down : Providers :=
  Fake.providers (PostRaises (mkExn "ConnectionError" "down"))
    (Ok Fake.text_intent).

(** The completion service raises. *)
Definition llm_down : Providers :=
  Fake.providers (Fake.organic (PyList []))
    (Raise (mkExn "ClientError" "throttled")).

(** [{"assessment": {"error": "boom"}}] *)
Definition stored_text : string :=
  "{" ++ Fake.quoted "assessment" ++ ": "
  ++ Fake.obj1 "error" (Fake.quoted "boom") ++ "}".

Definition stored_doc : pyval :=
  PyDict [("assessment", PyDict Fake.error_only)].

(** [[{"company_name": "Acme", "lead_score": 80}, 3]] *)
Definition extracted_text : string :=
  "[{" ++ Fake.quoted "company_name" ++ ": " ++ Fake.quoted "Acme" ++ ", "
  ++ Fake.quoted "lead_score" ++ ": 80}, 3]".

Definition extracted_item : dict :=
  [("company_name", PyStr "Acme"); ("lead_score", PyInt 80)].

(** A library whose [json.dumps] writes [stored_text] and whose
    [json.loads] reads the two texts above. *)
Definition lib : PyLib :=
  mkPyLib
    (Query.lookup [(stored_text, stored_doc);
                   (extracted_text, PyList [PyDict extracted_item; PyInt 3])])
    (fun _ => stored_text) (fun _ => None) (fun _ => None).

(** Every completion is [extracted_text]. *)
Definition extractor : Providers :=
  Fake.providers (Fake.organic (PyList [])) (Ok extracted_text).

Definition page (url : string) : result string :=
  Ok "Acme builds checkout software for online shops.".

(** A lead that is already assessed. *)
Definition assessed_lead : Lead :=
  mkLead 3 (Some "Done Co") None None None PyFloat.zero (Some "assessed") 2
    None.

Definition rows : list Lead := [assessed_lead; Fake.acme].

(** The snippets of the first search of [Fake.mixed] for [Fake.acme]. *)
Definition tech_snippets : list pyval :=
  Fake.run_value []
    (LeadAssessor._search_for_factor Fake.lib Fake.mixed Fake.acme
       "tech_stack" 3 (Fake.start [])).

End Demo.

(** * Properties *)

(** ** Strings and dictionaries *)

Section StringFacts.




Lemma is_empty_true (a : string) : PyStr.is_empty a = true -> a = "".
Proof. destruct a; [reflexivity|discriminate]. Qed.

End StringFacts.

Section DictFacts.

Lemma dict_get_set_same (d : dict) (k : string) (v : pyval) :
  dict_get (dict_set d k v) k = Some v.
Proof.
  induction d as [|[k' v'] d IH]; simpl.
  - now rewrite String.eqb_refl.
  - destruct (String.eqb k' k) eqn:E; simpl; rewrite E; auto.
Qed.

Lemma dict_get_set_other (d : dict) (k k' : string) (v : pyval) :
  k <> k' -> dict_get (dict_set d k v) k' = dict_get d k'.
Proof.
  intros N. induction d as [|[k0 v0] d IH]; simpl.
  - destruct (String.eqb_spec k k'); [contradiction|reflexivity].
  - destruct (String.eqb_spec k0 k) as [->|N0]; simpl.
    + destruct (String.eqb_spec k k'); [contradiction|reflexivity].
    + destruct (String.eqb k0 k'); auto.
Qed.

Lemma py_get_set_other (d : dict) (k k' : string) (v : pyval) :
  k <> k' -> py_get (dict_set d k v) k' = py_get d k'.
Proof. intros N. unfold py_get. now rewrite dict_get_set_other. Qed.

Lemma dict_mem_set_other (d : dict) (k k' : string) (v : pyval) :
  k <> k' -> dict_mem (dict_set d k v) k' = dict_mem d k'.
Proof. intros N. unfold dict_mem. now rewrite dict_get_set_other. Qed.

Lemma dict_get_None_keys (d : dict) (k : string) :
  dict_get d k = None <-> ~ In k (dict_keys d).
Proof.
  induction d as [|[k' v'] d IH]; simpl.
  - tauto.
  - destruct (String.eqb_spec k' k) as [->|N].
    + split; [discriminate|intros H; exfalso; apply H; now left].
    + rewrite IH. tauto.
Qed.

Lemma dict_keys_set_new (d : dict) (k : string) (v : pyval) :
  dict_get d k = None -> dict_keys (dict_set d k v) = (dict_keys d ++ [k])%list.
Proof.
  induction d as [|[k' v'] d IH]; simpl; [reflexivity|].
  destruct (String.eqb k' k); [discriminate|].
  intros H. simpl. now rewrite IH.
Qed.

Lemma dict_keys_set_old (d : dict) (k : string) (v : pyval) :
  dict_get d k <> None -> dict_keys (dict_set d k v) = dict_keys d.
Proof.
  induction d as [|[k' v'] d IH]; simpl; [congruence|].
  destruct (String.eqb k' k); [reflexivity|].
  intros H. simpl. now rewrite IH.
Qed.



End DictFacts.

(** ** The query of one factor *)

Section QueryFacts.
Import Query.






End QueryFacts.

(** ** [SerperClient.search] *)

Section SearchFacts.
Import SerperClient.

Lemma firstn_length_Z {A : Type} (l : list A) (n : Z) :
  (0 <= n)%Z -> (Z.of_nat (List.length (firstn (Z.to_nat n) l)) <= n)%Z.
Proof.
  intros H. pose proof (firstn_le_length (Z.to_nat n) l). lia.
Qed.

Lemma take_length (n : nat) (s : string) :
  (String.length (PyStr.take n s) <= n)%nat.
Proof.
  revert s. induction n as [|n IH]; intros [|c s]; simpl; try lia.
  specialize (IH s). lia.
Qed.

Lemma search_try_shape (n : Z) (out : http_outcome) (v : pyval) :
  search_try n out = Ok v ->
  (exists l, v = PyList (list_slice_to l n))
  \/ (exists t, v = PyStr (str_slice_to t n)).
Proof.
  destruct out as [e|r]; simpl; [discriminate|].
  destruct (raise_for_status r); simpl; [|discriminate].
  destruct (resp_json r) as [data|]; simpl; [|discriminate].
  destruct (py_or_lazy _ _) as [res|]; simpl; [|discriminate].
  destruct res; simpl; try discriminate.
  - intros [= <-]. right. eauto.
  - intros [= <-]. left. eauto.
Qed.

(** What [search] returns, whatever the service does. *)
Lemma search_run (pv : Providers) (q : string) (n : Z) (s : State) :
  search pv q n s =
  (Ok (match search_try n (requests_post pv (n_search s) q n) with
       | Ok v => v
       | Raise _ => PyList []
       end), incr_search s).
Proof.
  unfold search. destruct (search_try _ _); reflexivity.
Qed.

(** C10, as the code has it.  [search] never raises.  It returns the empty
    list when [requests.post] raises, when the status of the response is an
    error status, when the body of the response cannot be decoded and when
    the decoded body is not an object.  When the body is an object whose
    [organic] value (or else [results] value) is a list, it returns the
    slice [[:num_results]] of that list, which for a [num_results] that is
    not negative has at most [num_results] items; when that value is a
    string it returns the slice of the string. *)
Theorem search_never_raises_bounded (pv : Providers) (q : string)
  (num_results : Z) (s : State) :
  exists v : pyval,
    search pv q num_results s = (Ok v, incr_search s)
    /\ (forall e, requests_post pv (n_search s) q num_results = PostRaises e ->
        v = PyList [])
    /\ (forall r, requests_post pv (n_search s) q num_results = PostReturns r ->
        ((400 <= status_code r < 600)%Z \/ (exists e, resp_json r = Raise e)
         \/ (exists data, resp_json r = Ok data
                          /\ forall d, data <> PyDict d)) ->
        v = PyList [])
    /\ (forall r d l,
        requests_post pv (n_search s) q num_results = PostReturns r ->
        ~ (400 <= status_code r < 600)%Z ->
        resp_json r = Ok (PyDict d) ->
        py_or (py_get d "organic") (py_or (py_get d "results") (PyList []))
        = PyList l ->
        v = PyList (list_slice_to l num_results))
    /\ ((0 <= num_results)%Z ->
        match v with
        | PyList l => (Z.of_nat (List.length l) <= num_results)%Z
        | PyStr t => (Z.of_nat (String.length t) <= num_results)%Z
        | _ => False
        end).
Proof.
  rewrite search_run. eexists. split; [reflexivity|].
  split; [|split; [|split]].
  - intros e ->. reflexivity.
  - intros r -> H. simpl. unfold raise_for_status.
    destruct H as [H|[[e H]|[data [H N]]]].
    + replace ((400 <=? status_code r) && (status_code r <? 600))%Z
        with true by (symmetry; apply andb_true_iff; split;
                      [apply Z.leb_le|apply Z.ltb_lt]; lia).
      reflexivity.
    + destruct (_ && _); simpl; [reflexivity|]. now rewrite H.
    + destruct (_ && _); simpl; [reflexivity|]. rewrite H. simpl.
      destruct data; simpl; try reflexivity.
      exfalso. now apply (N d).
  - intros r d l -> S J O. simpl. unfold raise_for_status.
    destruct ((400 <=? status_code r) && (status_code r <? 600))%Z eqn:E.
    + exfalso. apply S. apply andb_true_iff in E as [E1 E2].
      apply Z.leb_le in E1. apply Z.ltb_lt in E2. lia.
    + simpl. rewrite J. simpl.
      unfold py_or in O.
      destruct (truthy (py_get d "organic")) eqn:T1; simpl.
      * rewrite O. reflexivity.
      * destruct (truthy (py_get d "results")) eqn:T2; simpl;
          [now rewrite O|injection O as <-; reflexivity].
  - intros H.
    destruct (search_try _ _) as [v|] eqn:E.
    + apply search_try_shape in E as [[l ->]|[t ->]].
      * unfold list_slice_to.
        replace (0 <=? num_results)%Z with true
          by (symmetry; now apply Z.leb_le).
        now apply firstn_length_Z.
      * unfold str_slice_to.
        replace (0 <=? num_results)%Z with true
          by (symmetry; now apply Z.leb_le).
        pose proof (take_length (Z.to_nat num_results) t). lia.
    + simpl. lia.
Qed.

End SearchFacts.

(** ** The monad *)

Section MonadFacts.

Lemma bind_run {A B : Type} (c : M A) (k : A -> M B) (s : State) :
  bind c k s = match c s with
               | (Ok a, s') => k a s'
               | (Raise e, s') => (Raise e, s')
               end.
Proof. reflexivity. Qed.

Lemma for_each_app {X A : Type} (l1 l2 : list X) (body : X -> A -> M A)
  (acc : A) (s : State) :
  for_each (l1 ++ l2)%list body acc s =
  match for_each l1 body acc s with
  | (Ok acc1, s1) => for_each l2 body acc1 s1
  | (Raise e, s1) => (Raise e, s1)
  end.
Proof.
  revert acc s. induction l1 as [|x l1 IH]; intros acc s; simpl.
  - reflexivity.
  - rewrite !bind_run. destruct (body x acc s) as [[acc'|e] s']; auto.
Qed.

Lemma for_each_cons {X A : Type} (x : X) (l : list X) (body : X -> A -> M A)
  (acc : A) (s : State) :
  for_each (x :: l) body acc s =
  match body x acc s with
  | (Ok acc1, s1) => for_each l body acc1 s1
  | (Raise e, s1) => (Raise e, s1)
  end.
Proof. reflexivity. Qed.

End MonadFacts.

(** ** JSON repair *)

Section RepairFacts.
Import BedrockLLM.











Lemma lstrip_idem (t : string) : PyStr.lstrip (PyStr.lstrip t) = PyStr.lstrip t.
Proof.
  induction t as [|c t IH]; simpl; [reflexivity|].
  destruct (PyStr.py_isspace c) eqn:E; [exact IH|].
  simpl. now rewrite E.
Qed.




End RepairFacts.

Section RepairTheorem.
Import BedrockLLM LeadAssessor.
Variable lib : PyLib.
Variable pv : Providers.



Lemma fallback_run (response_text : string) (s : State) :
  _fallback_to_json_conversion lib pv response_text s =
  match json_loads lib (clean response_text) with
  | Some v => (Ok v, s)
  | None => (Spec.repaired lib pv (clean response_text) s, incr_llm s)
  end.
Proof.
  unfold _fallback_to_json_conversion, Spec.repaired.
  destruct (json_loads lib (clean response_text)) as [v|]; [reflexivity|].
  unfold try_except, bind, generate_text, raise, ret.
  destruct (converse_text pv (n_llm s) _ 3000) as [fixed|e]; [|reflexivity].
  destruct (json_loads lib (clean fixed)); reflexivity.
Qed.

Lemma generate_json_run (prompt : string) (maxTokens : Z) (s : State) :
  generate_json lib pv prompt maxTokens s =
  match converse_text pv (n_llm s) prompt maxTokens with
  | Ok response =>
      _fallback_to_json_conversion lib pv response (incr_llm s)
  | Raise e => (Raise e, incr_llm s)
  end.
Proof.
  unfold generate_json, bind, generate_text.
  destruct (converse_text pv (n_llm s) prompt maxTokens); reflexivity.
Qed.

Lemma factor_step_run (lead : Lead) (factor : string) (acc : Acc)
  (s : State) :
  factor_step lib pv lead factor acc s =
  match _search_for_factor lib pv lead factor 3 s with
  | (Raise e, s1) => (Raise e, s1)
  | (Ok snippets, s1) =>
      let acc1 := mkAcc (assessment acc)
                    (dict_set (raw_search_snippets acc) factor
                       (PyList snippets))
                    (rationales acc) in
      match generate_json lib pv
              (_build_factor_prompt lib lead factor snippets) 800 s1 with
      | (Ok res, s2) => (Ok (record_factor factor res acc1), s2)
      | (Raise e, s2) => (Ok acc1, s2)
      end
  end.
Proof.
  unfold factor_step. rewrite bind_run.
  destruct (_search_for_factor lib pv lead factor 3 s) as [[snippets|e] s1];
    [|reflexivity].
  unfold try_except. rewrite bind_run.
  destruct (generate_json lib pv _ 800 s1) as [[res|e] s2]; reflexivity.
Qed.


End RepairTheorem.

(** ** Normalisation and the overall score *)

Section NormalizeFacts.
Import LeadAssessor.
Variable lib : PyLib.

Lemma clamp01_range (f : pyfloat) :
  exists q, clamp01 f = Finite q /\ (0 <= q)%Q /\ (q <= 1)%Q.
Proof.
  unfold clamp01, PyFloat.py_max, PyFloat.py_min, PyFloat.gtb.
  destruct f as [x| | |]; simpl.
  - destruct (Qle_bool 1 x) eqn:E1; simpl.
    + exists 1%Q. repeat split; discriminate.
    + destruct (Qle_bool x 0) eqn:E2; simpl.
      * exists 0%Q. repeat split; discriminate.
      * exists x. split; [reflexivity|].
        split; apply Qlt_le_weak, Qnot_le_lt; intros H;
          apply Qle_bool_iff in H; congruence.
  - exists 1%Q. repeat split; discriminate.
  - exists 0%Q. repeat split; discriminate.
  - exists 1%Q. repeat split; discriminate.
Qed.

Lemma clamp01_finite (f : pyfloat) :
  clamp01 f = Finite (Spec.finite_part (clamp01 f)).
Proof. destruct (clamp01_range f) as [q [-> _]]. reflexivity. Qed.

(** Values below 0 become 0, values above 1 become 1, the others stay. *)
Lemma clamp01_cases (x : Q) :
  ((x < 0)%Q -> clamp01 (Finite x) = Finite 0)
  /\ ((1 < x)%Q -> clamp01 (Finite x) = Finite 1)
  /\ ((0 < x)%Q -> (x < 1)%Q -> clamp01 (Finite x) = Finite x).
Proof.
  unfold clamp01, PyFloat.py_max, PyFloat.py_min, PyFloat.gtb. simpl.
  repeat split.
  - intros H.
    assert (E1 : Qle_bool 1 x = false).
    { destruct (Qle_bool 1 x) eqn:E; [|reflexivity].
      apply Qle_bool_iff in E. exfalso.
      apply (Qlt_irrefl x). eapply Qlt_le_trans; [exact H|].
      eapply Qle_trans; [|exact E]. discriminate. }
    rewrite E1. simpl.
    assert (E2 : Qle_bool x 0 = true)
      by (apply Qle_bool_iff; now apply Qlt_le_weak).
    now rewrite E2.
  - intros H.
    assert (E1 : Qle_bool 1 x = true)
      by (apply Qle_bool_iff; now apply Qlt_le_weak).
    now rewrite E1.
  - intros H0 H1.
    assert (E1 : Qle_bool 1 x = false).
    { destruct (Qle_bool 1 x) eqn:E; [|reflexivity].
      apply Qle_bool_iff in E. exfalso.
      apply (Qlt_irrefl x). eapply Qlt_le_trans; eassumption. }
    assert (E2 : Qle_bool x 0 = false).
    { destruct (Qle_bool x 0) eqn:E; [|reflexivity].
      apply Qle_bool_iff in E. exfalso.
      apply (Qlt_irrefl x). eapply Qle_lt_trans; eassumption. }
    rewrite E1. simpl. now rewrite E2.
Qed.

Lemma normalize_step_run (a : dict) (ns : list pyfloat) (k : string) :
  normalize_step lib (a, ns) k =
  match py_float lib (py_get a k) with
  | Ok fv => (dict_set a k (PyFloat (clamp01 fv)), (ns ++ [clamp01 fv])%list)
  | Raise _ => (a, ns)
  end.
Proof.
  unfold normalize_step.
  destruct (py_get a k); simpl; try reflexivity.
Qed.

Lemma scores_over_ext (a b : dict) (ks : list string) :
  (forall k, In k ks -> py_get a k = py_get b k) ->
  Spec.scores_over lib a ks = Spec.scores_over lib b ks.
Proof.
  induction ks as [|k ks IH]; intros H; simpl; [reflexivity|].
  rewrite (H k) by now left.
  rewrite IH; [reflexivity|]. intros k' I. apply H. now right.
Qed.

Lemma normalize_scores (ks : list string) :
  forall a ns, NoDup ks ->
    snd (fold_left (normalize_step lib) ks (a, ns))
    = (ns ++ Spec.scores_over lib a ks)%list.
Proof.
  induction ks as [|k ks IH]; intros a ns N; cbn [fold_left].
  - simpl. now rewrite app_nil_r.
  - inversion N as [|? ? Hk N']; subst.
    rewrite normalize_step_run. cbn [Spec.scores_over flat_map].
    fold (Spec.scores_over lib a ks).
    destruct (py_float lib (py_get a k)) as [fv|e].
    + rewrite IH by assumption. rewrite <- app_assoc. simpl.
      f_equal. f_equal. apply scores_over_ext.
      intros k' I. apply py_get_set_other. intros ->. contradiction.
    + rewrite IH by assumption. reflexivity.
Qed.

Lemma normalize_other (ks : list string) (k : string) :
  forall a ns, ~ In k ks ->
    dict_get (fst (fold_left (normalize_step lib) ks (a, ns))) k
    = dict_get a k.
Proof.
  induction ks as [|k0 ks IH]; intros a ns N; cbn [fold_left];
    [reflexivity|].
  rewrite normalize_step_run.
  assert (k0 <> k) by (intros ->; apply N; now left).
  assert (~ In k ks) by (intros I; apply N; now right).
  destruct (py_float lib (py_get a k0)) as [fv|e].
  - rewrite IH by assumption. now apply dict_get_set_other.
  - now apply IH.
Qed.

Lemma normalize_at (ks : list string) (k : string) :
  forall a ns, NoDup ks -> In k ks ->
    dict_get (fst (fold_left (normalize_step lib) ks (a, ns))) k
    = match py_float lib (py_get a k) with
      | Ok fv => Some (PyFloat (clamp01 fv))
      | Raise _ => dict_get a k
      end.
Proof.
  induction ks as [|k0 ks IH]; intros a ns N I; [contradiction|].
  inversion N as [|? ? Hk N']; subst. cbn [fold_left].
  rewrite normalize_step_run.
  destruct I as [->|I].
  - destruct (py_float lib (py_get a k)) as [fv|e].
    + rewrite normalize_other by assumption. apply dict_get_set_same.
    + now apply normalize_other.
  - assert (k0 <> k) by (intros ->; contradiction).
    destruct (py_float lib (py_get a k0)) as [fv|e].
    + rewrite IH by assumption.
      rewrite py_get_set_other, dict_get_set_other by assumption.
      reflexivity.
    + now apply IH.
Qed.

Lemma SCORE_KEYS_NoDup : NoDup SCORE_KEYS.
Proof.
  unfold SCORE_KEYS.
  repeat (constructor; [simpl; intuition discriminate|]).
  constructor.
Qed.

Lemma FACTOR_KEYS_NoDup : NoDup FACTOR_KEYS.
Proof.
  unfold FACTOR_KEYS.
  repeat (constructor; [simpl; intuition discriminate|]).
  constructor.
Qed.

Lemma scores_over_finite (a : dict) (ks : list string) :
  Spec.scores_over lib a ks =
  map Finite
    (flat_map
       (fun k =>
          match py_float lib (py_get a k) with
          | Ok f => [Spec.finite_part (clamp01 f)]
          | Raise _ => []
          end) ks).
Proof.
  induction ks as [|k ks IH]; simpl; [reflexivity|].
  rewrite map_app, <- IH.
  destruct (py_float lib (py_get a k)) as [f|e]; simpl; [|reflexivity].
  now rewrite <- clamp01_finite.
Qed.

Lemma fold_add_finite (qs : list Q) (q0 : Q) :
  fold_left PyFloat.add (map Finite qs) (Finite q0)
  = Finite (fold_left Qplus qs q0).
Proof.
  revert q0. induction qs as [|q qs IH]; intros q0; simpl; [reflexivity|].
  apply IH.
Qed.

Lemma computed_lead_score_finite (qs : list Q) :
  computed_lead_score (map Finite qs) = Ok (PyInt (Spec.score_of qs)).
Proof.
  destruct qs as [|q qs]; [reflexivity|].
  unfold computed_lead_score, Spec.score_of, Spec.mean.
  cbn [map]. unfold py_truediv, py_sum.
  change (Finite q :: map Finite qs) with (map Finite (q :: qs)).
  rewrite length_map.
  unfold PyFloat.of_Z. rewrite fold_add_finite.
  destruct (Z.of_nat (List.length (q :: qs)) =? 0)%Z eqn:E.
  - apply Z.eqb_eq in E. simpl in E. lia.
  - reflexivity.
Qed.

End NormalizeFacts.

(** ** The loop over the factors *)

Section CollectFacts.
Import LeadAssessor.
Variable lib : PyLib.
Variable pv : Providers.

Lemma py_or_lazy_ok (a b : pyval) :
  py_or_lazy (Ok a) (Ok b) = Ok (py_or a b).
Proof. unfold py_or_lazy, py_or. destruct (truthy a); reflexivity. Qed.

Lemma snippet_of_object (q : string) (d : dict) :
  exists snippet, snippet_of q (PyDict d) = Ok snippet.
Proof.
  unfold snippet_of. cbn [method_get].
  rewrite !py_or_lazy_ok. cbn [rbind]. eauto.
Qed.


Lemma search_for_factor_run (lead : Lead) (factor : string) (n : Z)
  (s : State) :
  exists r, _search_for_factor lib pv lead factor n s = (r, incr_search s).
Proof.
  unfold _search_for_factor. rewrite bind_run, search_run.
  unfold lift. eauto.
Qed.


Lemma record_factor_other (factor k : string) (res : pyval) (acc : Acc) :
  k <> factor ->
  dict_get (assessment (record_factor factor res acc)) k
  = dict_get (assessment acc) k.
Proof.
  intros N. unfold record_factor. cbn [assessment].
  destruct (is_none _); [reflexivity|].
  apply dict_get_set_other. congruence.
Qed.

Lemma record_factor_raw (factor : string) (res : pyval) (acc : Acc) :
  raw_search_snippets (record_factor factor res acc)
  = raw_search_snippets acc.
Proof. reflexivity. Qed.

(** Every round leaves an entry for its factor in the evidence and touches
    no other key of the assessment. *)
Lemma factor_step_effect (lead : Lead) (factor : string) (acc acc' : Acc)
  (s s' : State) :
  factor_step lib pv lead factor acc s = (Ok acc', s') ->
  (forall k, k <> factor ->
     dict_get (assessment acc') k = dict_get (assessment acc) k)
  /\ (exists snippets,
        raw_search_snippets acc'
        = dict_set (raw_search_snippets acc) factor snippets)
  /\ (forall k, k <> factor ->
        dict_get (rationales acc') k = dict_get (rationales acc) k)
  /\ n_search s' = S (n_search s).
Proof.
  rewrite factor_step_run.
  destruct (search_for_factor_run lead factor 3 s) as [r E]. rewrite E.
  destruct r as [snippets|e]; [|discriminate].
  cbv zeta.
  assert (G : forall p, n_search (snd (BedrockLLM.generate_json lib pv p 800
                                        (incr_search s)))
                        = S (n_search s)).
  { intros p. rewrite generate_json_run.
    destruct (converse_text pv _ p 800); [|reflexivity].
    rewrite fallback_run. destruct (json_loads lib _); reflexivity. }
  specialize (G (_build_factor_prompt lib lead factor snippets)).
  destruct (BedrockLLM.generate_json lib pv _ 800 (incr_search s))
    as [[res|e] s2]; intros [= <- <-]; simpl in G.
  - repeat split; try assumption.
    + intros k N. now rewrite record_factor_other.
    + eexists. reflexivity.
    + intros k N. unfold record_factor. cbn [rationales].
      destruct (truthy _); [|reflexivity].
      apply dict_get_set_other. congruence.
  - repeat split; try assumption; try reflexivity.
    eexists. reflexivity.
Qed.

Lemma collect_from_other (lead : Lead) (fs : list string) (k : string) :
  forall acc acc' s s',
    collect_from lib pv lead fs acc s = (Ok acc', s') ->
    ~ In k fs ->
    dict_get (assessment acc') k = dict_get (assessment acc) k.
Proof.
  unfold collect_from.
  induction fs as [|f fs IH]; intros acc acc' s s' H N.
  - injection H as <- <-. reflexivity.
  - rewrite for_each_cons in H.
    destruct (factor_step lib pv lead f acc s) as [[acc1|e] s1] eqn:E;
      [|discriminate].
    apply factor_step_effect in E as [E _].
    rewrite (IH _ _ _ _ H) by (intros I; apply N; now right).
    apply E. intros ->. apply N. now left.
Qed.



(** No round stores a key that is not a factor: the guard
    ["lead_score" not in assessment] of [assess_lead] always holds. *)
Lemma collect_not_factor (lead : Lead) (k : string) (acc : Acc)
  (s s' : State) :
  collect lib pv lead s = (Ok acc, s') ->
  ~ In k FACTOR_KEYS ->
  dict_get (assessment acc) k = None.
Proof.
  intros H N. unfold collect in H.
  now rewrite (collect_from_other _ _ _ _ _ _ _ H N).
Qed.

(** No completion can put a [lead_score] into the assessment. *)
Lemma lead_score_guard_always_holds (lead : Lead) (acc : Acc)
  (s s' : State) :
  collect lib pv lead s = (Ok acc, s') ->
  dict_mem (assessment acc) "lead_score" = false.
Proof.
  intros H. unfold dict_mem.
  rewrite (collect_not_factor lead "lead_score" acc s s' H); [reflexivity|].
  simpl. intuition discriminate.
Qed.

End CollectFacts.

(** ** [assess_lead] *)

Section AssessFacts.
Import LeadAssessor.
Variable lib : PyLib.
Variable pv : Providers.

Lemma not_score_key_lead_score : ~ In "lead_score" SCORE_KEYS.
Proof. simpl. intuition discriminate. Qed.

Lemma not_factor_lead_score : ~ In "lead_score" FACTOR_KEYS.
Proof. simpl. intuition discriminate. Qed.


Lemma score_key_is_factor (k : string) : In k SCORE_KEYS -> In k FACTOR_KEYS.
Proof. simpl. intuition. Qed.

Lemma score_key_not_meta (k : string) :
  In k SCORE_KEYS ->
  k <> "lead_score" /\ k <> "rationales" /\ k <> "raw_search_snippets".
Proof.
  simpl. intros H.
  repeat (destruct H as [<-|H]; [repeat split; discriminate|]).
  contradiction.
Qed.

Lemma factor_not_meta (k : string) :
  In k FACTOR_KEYS ->
  k <> "lead_score" /\ k <> "rationales" /\ k <> "raw_search_snippets".
Proof.
  simpl. intros H.
  repeat (destruct H as [<-|H]; [repeat split; discriminate|]).
  contradiction.
Qed.

(** The assessment that [assess_lead] returns when the loop over the
    factors ended with the accumulators [acc]. *)
Lemma finish_run (acc : Acc) :
  dict_get (assessment acc) "lead_score" = None ->
  finish lib acc =
  Ok (dict_set
        (dict_set
           (dict_set (fst (normalize lib (assessment acc))) "lead_score"
              (PyInt (Spec.score_of
                        (Spec.normalized_scores lib (assessment acc)))))
           "rationales" (PyDict (rationales acc)))
        "raw_search_snippets" (PyDict (raw_search_snippets acc))).
Proof.
  intros H. unfold finish.
  pose proof (normalize_scores lib SCORE_KEYS (assessment acc) []
                SCORE_KEYS_NoDup) as Hs.
  pose proof (normalize_other lib SCORE_KEYS "lead_score" (assessment acc) []
                not_score_key_lead_score) as Ho.
  fold (normalize lib (assessment acc)) in Hs, Ho.
  destruct (normalize lib (assessment acc)) as [a ns].
  cbn [fst snd] in *. cbn [app] in Hs. subst ns.
  unfold dict_mem. rewrite Ho, H. cbn [negb].
  rewrite scores_over_finite.
  fold (Spec.normalized_scores lib (assessment acc)).
  rewrite computed_lead_score_finite. reflexivity.
Qed.

Lemma assess_lead_run (lead : Lead) (s : State) :
  assess_lead lib pv lead s =
  match collect lib pv lead s with
  | (Ok acc, s1) =>
      (Ok (match finish lib acc with
           | Ok a => a
           | Raise e => [("error", PyStr (exn_str e))]
           end), s1)
  | (Raise e, s1) => (Ok [("error", PyStr (exn_str e))], s1)
  end.
Proof.
  unfold assess_lead, try_except, assess_try. rewrite bind_run.
  destruct (collect lib pv lead s) as [[acc|e] s1]; [|reflexivity].
  unfold lift. destruct (finish lib acc); reflexivity.
Qed.

Lemma assess_lead_collected (lead : Lead) (s s1 : State) (acc : Acc) :
  collect lib pv lead s = (Ok acc, s1) ->
  assess_lead lib pv lead s =
  (Ok (dict_set
         (dict_set
            (dict_set (fst (normalize lib (assessment acc))) "lead_score"
               (PyInt (Spec.score_of
                         (Spec.normalized_scores lib (assessment acc)))))
            "rationales" (PyDict (rationales acc)))
         "raw_search_snippets" (PyDict (raw_search_snippets acc))), s1).
Proof.
  intros H. rewrite assess_lead_run, H.
  rewrite finish_run; [reflexivity|].
  apply (collect_not_factor lib pv lead _ _ _ _ H not_factor_lead_score).
Qed.

Lemma final_get_other (a : dict) (k : string) (x y z : pyval) :
  k <> "lead_score" -> k <> "rationales" -> k <> "raw_search_snippets" ->
  dict_get
    (dict_set (dict_set (dict_set a "lead_score" x) "rationales" y)
       "raw_search_snippets" z) k
  = dict_get a k.
Proof.
  intros H1 H2 H3.
  rewrite !dict_get_set_other by congruence. reflexivity.
Qed.

Lemma normalized_scores_range (a : dict) :
  Forall (fun q => (0 <= q)%Q /\ (q <= 1)%Q) (Spec.normalized_scores lib a).
Proof.
  unfold Spec.normalized_scores.
  induction SCORE_KEYS as [|k ks IH]; simpl; [constructor|].
  apply Forall_app. split; [|exact IH].
  destruct (py_float lib (py_get a k)) as [f|e]; [|constructor].
  constructor; [|constructor].
  destruct (clamp01_range f) as [q [-> R]]. exact R.
Qed.


Lemma clamp01_inside (x : Q) :
  (0 <= x)%Q -> (x <= 1)%Q ->
  (Spec.finite_part (clamp01 (Finite x)) == x)%Q.
Proof.
  intros H0 H1.
  destruct (Qlt_le_dec 0 x) as [P|P]; [destruct (Qlt_le_dec x 1) as [L|L]|].
  - destruct (clamp01_cases x) as [_ [_ C]]. rewrite (C P L). reflexivity.
  - assert (E : (x == 1)%Q) by now apply Qle_antisym.
    unfold clamp01, PyFloat.py_max, PyFloat.py_min, PyFloat.gtb. simpl.
    assert (B : Qle_bool 1 x = true) by now apply Qle_bool_iff.
    rewrite B. simpl. now symmetry.
  - assert (E : (x == 0)%Q) by now apply Qle_antisym.
    unfold clamp01, PyFloat.py_max, PyFloat.py_min, PyFloat.gtb. simpl.
    destruct (Qle_bool 1 x) eqn:B; simpl.
    + apply Qle_bool_iff in B. exfalso.
      assert (C : (1 <= 0)%Q) by (eapply Qle_trans; eassumption).
      now apply C.
    + assert (B0 : Qle_bool x 0 = true) by now apply Qle_bool_iff.
      rewrite B0. simpl. now symmetry.
Qed.

(** C4.  When the value collected for a score key converts to a float, the
    assessment that [assess_lead] returns holds under that key a float
    between 0 and 1: 0 for a value below 0, 1 for a value above 1, the
    value itself otherwise. *)
Theorem score_factors_clamped (lead : Lead) (s s1 : State) (acc : Acc)
  (k : string) (f : pyfloat) :
  collect lib pv lead s = (Ok acc, s1) ->
  In k SCORE_KEYS ->
  py_float lib (py_get (assessment acc) k) = Ok f ->
  exists (a : dict) (q : Q),
    assess_lead lib pv lead s = (Ok a, s1)
    /\ dict_get a k = Some (PyFloat (Finite q))
    /\ (0 <= q)%Q /\ (q <= 1)%Q
    /\ (forall x, f = Finite x ->
        ((x < 0)%Q -> (q == 0)%Q)
        /\ ((1 < x)%Q -> (q == 1)%Q)
        /\ ((0 <= x)%Q -> (x <= 1)%Q -> (q == x)%Q)).
Proof.
  intros H I F.
  destruct (clamp01_range f) as [q [C [R0 R1]]].
  eexists. exists q. split; [apply assess_lead_collected; exact H|].
  destruct (score_key_not_meta k I) as [N1 [N2 N3]].
  rewrite final_get_other by assumption.
  unfold normalize. rewrite normalize_at by (auto using SCORE_KEYS_NoDup).
  rewrite F, C. split; [reflexivity|].
  split; [assumption|]. split; [assumption|].
  intros x ->. destruct (clamp01_cases x) as [C0 [C1 _]].
  repeat split.
  - intros L. rewrite (C0 L) in C. injection C as <-. reflexivity.
  - intros L. rewrite (C1 L) in C. injection C as <-. reflexivity.
  - intros L0 L1. pose proof (clamp01_inside x L0 L1) as E.
    rewrite C in E. exact E.
Qed.


End AssessFacts.

(** ** The value kept for a factor *)

Section ExtractionFacts.
Import LeadAssessor.
Variable lib : PyLib.
Variable pv : Providers.

Lemma truthy_not_none (v : pyval) : truthy v = true -> is_none v = false.
Proof. destruct v; simpl; congruence. Qed.

Lemma fallback_chosen (d : dict) :
  let fallback := py_or (py_or (py_get d "value") (py_get d "score"))
                    (py_get d "result") in
  (if is_none fallback then None else Some fallback)
  = (if truthy (py_get d "value") then Some (py_get d "value")
     else if truthy (py_get d "score") then Some (py_get d "score")
     else Spec.non_null (dict_get d "result")).
Proof.
  cbv zeta. unfold py_or.
  destruct (truthy (py_get d "value")) eqn:T1; cbv iota.
  - rewrite T1. now rewrite truthy_not_none.
  - destruct (truthy (py_get d "score")) eqn:T2; cbv iota.
    + now rewrite truthy_not_none.
    + unfold py_get.
      destruct (dict_get d "result") as [[]|]; reflexivity.
Qed.

Lemma extract_value_chosen (d : dict) (factor : string) :
  (if is_none (extract_value d factor) then None
   else Some (extract_value d factor))
  = Spec.chosen_value d factor.
Proof.
  unfold extract_value, Spec.chosen_value.
  remember (py_get d factor) as pf eqn:P. unfold py_get in P.
  destruct (dict_get d factor) as [v|]; subst pf;
    [destruct v|]; cbn [is_none Spec.non_null]; try reflexivity;
    apply fallback_chosen.
Qed.


Lemma NoDup_split_not_in {A : Type} (pre post : list A) (x : A) :
  NoDup (pre ++ x :: post) -> ~ In x pre /\ ~ In x post.
Proof.
  intros N. apply NoDup_remove_2 in N.
  split; intros I; apply N; apply in_or_app; auto.
Qed.


End ExtractionFacts.

(** ** Persistence *)

Section PersistFacts.
Import LeadAssessor.
Variable lib : PyLib.
Variable pv : Providers.

Lemma persist_run (lead : Lead) (a : dict) (s : State) :
  persist_assessment lib pv lead a s =
  match prepare lib lead a with
  | Ok lead1 =>
      match session_commit pv (n_commit s) with
      | None => (Ok lead1, set_db (db_write (db s) lead1) (incr_commit s))
      | Some e => (Ok lead, incr_commit s)
      end
  | Raise e => (Ok lead, s)
  end.
Proof.
  unfold persist_assessment, try_except. rewrite bind_run. unfold lift.
  destruct (prepare lib lead a) as [lead1|e]; [|reflexivity].
  rewrite bind_run. unfold add_and_commit.
  destruct (session_commit pv (n_commit s)); reflexivity.
Qed.

(** What [prepare] changes in the lead. *)
Lemma prepare_effect (lead lead1 : Lead) (a : dict) :
  prepare lib lead a = Ok lead1 ->
  exists d,
    existing_of lib lead = PyDict d
    /\ id lead1 = id lead
    /\ status lead1 = Some "assessed"
    /\ raw_data lead1
       = Some (json_dumps lib (PyDict (dict_set d "assessment" (PyDict a))))
    /\ (is_int_or_float (py_get a "lead_score") = false ->
        lead_score lead1 = lead_score lead).
Proof.
  unfold prepare.
  destruct (existing_of lib lead) as [| | | | | |d]; try discriminate.
  cbn [py_setitem rbind].
  destruct (is_int_or_float (py_get a "lead_score")) eqn:N.
  - destruct (py_float lib (py_get a "lead_score")) as [f|e];
      [|discriminate].
    cbn [rbind]. intros [= <-]. exists d. repeat split. discriminate.
  - cbn [rbind]. intros [= <-]. exists d. repeat split.
Qed.

Lemma prepare_ok (lead : Lead) (a d : dict) :
  existing_of lib lead = PyDict d ->
  (forall z, py_get a "lead_score" = PyInt z -> PyFloat.int_fits z = true) ->
  exists lead1, prepare lib lead a = Ok lead1.
Proof.
  intros E F. unfold prepare. rewrite E. cbn [py_setitem rbind].
  destruct (py_get a "lead_score") as [|b|z|f| | |] eqn:V;
    cbn [is_int_or_float py_float rbind]; eauto.
  rewrite (F z eq_refl). cbn [rbind]. eauto.
Qed.

Lemma persist_id (lead lead' : Lead) (a : dict) (s s' : State) :
  persist_assessment lib pv lead a s = (Ok lead', s') -> id lead' = id lead.
Proof.
  rewrite persist_run.
  destruct (prepare lib lead a) as [lead1|e] eqn:P.
  - apply prepare_effect in P as [d [_ [I _]]].
    destruct (session_commit pv (n_commit s)); intros [= <- <-]; auto.
  - intros [= <- <-]. reflexivity.
Qed.

(** C7.  When the body of [assess_lead] raises, [assess_lead] returns the
    mapping whose only key is [error], with the message of the exception.
    [persist_assessment] changes the [lead_score] of the lead only when the
    [lead_score] of the assessment is an [int] or a [float] ([bool] is a
    subclass of [int]); the rows of the database are left as they were, or
    the row of that lead is written.  For a mapping with the only key
    [error] the [lead_score] of the lead stays as it was. *)
Theorem aggregate_failure_error_only :
  (forall lead s e s1,
      assess_try lib pv lead s = (Raise e, s1) ->
      assess_lead lib pv lead s = (Ok [("error", PyStr (exn_str e))], s1))
  /\ (forall lead a s,
      exists lead' s',
        persist_assessment lib pv lead a s = (Ok lead', s')
        /\ (lead_score lead' <> lead_score lead ->
            is_int_or_float (py_get a "lead_score") = true)
        /\ (db s' = db s \/ db s' = db_write (db s) lead'))
  /\ (forall lead msg s,
      exists lead' s',
        persist_assessment lib pv lead [("error", PyStr msg)] s
        = (Ok lead', s')
        /\ lead_score lead' = lead_score lead
        /\ (db s' = db s \/ db s' = db_write (db s) lead')).
Proof.
  assert (G : forall lead a s,
             exists lead' s',
               persist_assessment lib pv lead a s = (Ok lead', s')
               /\ (is_int_or_float (py_get a "lead_score") = false ->
                   lead_score lead' = lead_score lead)
               /\ (db s' = db s \/ db s' = db_write (db s) lead')).
  { intros lead a s. rewrite persist_run.
    destruct (prepare lib lead a) as [lead1|e] eqn:P.
    - apply prepare_effect in P as [d [_ [_ [_ [_ L]]]]].
      destruct (session_commit pv (n_commit s)).
      + exists lead, (incr_commit s). auto.
      + eexists. eexists. split; [reflexivity|]. split; [exact L|].
        right. reflexivity.
    - exists lead, s. auto. }
  split; [|split].
  - intros lead s e s1 H. unfold assess_lead, try_except. now rewrite H.
  - intros lead a s. destruct (G lead a s) as [lead' [s' [R [L D]]]].
    exists lead', s'. split; [exact R|]. split; [|exact D].
    intros N. destruct (is_int_or_float (py_get a "lead_score"));
      [reflexivity|]. exfalso. apply N. now apply L.
  - intros lead msg s.
    destruct (G lead [("error", PyStr msg)] s) as [lead' [s' [R [L D]]]].
    exists lead', s'. split; [exact R|]. split; [|exact D].
    now apply L.
Qed.

Lemma db_write_In (rows : list Lead) (x l : Lead) :
  Spec.unique_ids rows ->
  In l (db_write rows x) ->
  l = x \/ (In l rows /\ id l <> id x).
Proof.
  unfold Spec.unique_ids.
  induction rows as [|r rows IH]; simpl; intros N I.
  - destruct I as [<-|[]]. now left.
  - inversion N as [|? ? Nr N']; subst.
    destruct (Z.eqb_spec (id r) (id x)) as [E|E].
    + destruct I as [<-|I]; [now left|].
      right. split; [now right|].
      intros E'. apply Nr. rewrite E, <- E'. now apply in_map.
    + destruct I as [<-|I].
      * right. split; [now left|assumption].
      * destruct (IH N' I) as [->|[I' E']]; [now left|].
        right. split; [now right|assumption].
Qed.

Lemma insert_In (x l : Lead) (sorted : list Lead) :
  In l (insert_by_created_at x sorted) -> l = x \/ In l sorted.
Proof.
  induction sorted as [|r sorted IH]; simpl.
  - intros [<-|[]]. now left.
  - destruct (created_at x <? created_at r)%Z; simpl.
    + intros [<-|[<-|I]]; auto.
    + intros [<-|I]; auto. destruct (IH I); auto.
Qed.

Lemma order_by_In (rows : list Lead) (l : Lead) :
  In l (order_by_created_at rows) -> In l rows.
Proof.
  unfold order_by_created_at.
  induction rows as [|r rows IH]; simpl; [auto|].
  intros I. apply insert_In in I as [->|I]; auto.
Qed.

Lemma unassessed_In (rows : list Lead) (l : Lead) :
  In l (unassessed rows) -> In l rows /\ not_assessed l = true.
Proof.
  unfold unassessed. intros I. apply order_by_In in I.
  now apply filter_In in I.
Qed.

Lemma firstn_In {A : Type} (n : nat) (l : list A) (x : A) :
  In x (firstn n l) -> In x l.
Proof.
  intros I. rewrite <- (firstn_skipn n l). apply in_or_app. now left.
Qed.

Lemma apply_limit_In (limit : option Z) (rows leads : list Lead) (l : Lead) :
  apply_limit limit rows = Ok leads -> In l leads -> In l rows.
Proof.
  unfold apply_limit. destruct limit as [n|]; [|now intros [= <-]].
  destruct (n =? 0)%Z; [now intros [= <-]|].
  destruct (n <? 0)%Z; [discriminate|].
  intros [= <-]. apply firstn_In.
Qed.



Lemma assess_one_run (lead : Lead) (results : list pyval) (s : State) :
  exists a lead' s',
    assess_one lib pv lead results s
    = (Ok (results ++ [result_entry lead' a])%list, s')
    /\ id lead' = id lead.
Proof.
  unfold assess_one. rewrite bind_run, assess_lead_run.
  destruct (collect lib pv lead s) as [[acc|e] s1].
  - rewrite bind_run.
    destruct (persist_assessment lib pv lead _ s1) as [[lead'|e] s2] eqn:P.
    + eexists. exists lead', s2. split; [reflexivity|].
      now apply persist_id in P.
    + rewrite persist_run in P.
      destruct (prepare lib lead _); [|discriminate].
      destruct (session_commit pv (n_commit s1)); discriminate.
  - rewrite bind_run.
    destruct (persist_assessment lib pv lead _ s1) as [[lead'|e'] s2] eqn:P.
    + eexists. exists lead', s2. split; [reflexivity|].
      now apply persist_id in P.
    + rewrite persist_run in P.
      destruct (prepare lib lead _); [|discriminate].
      destruct (session_commit pv (n_commit s1)); discriminate.
Qed.

Lemma for_each_assess_ids (leads : list Lead) :
  forall results s results' s',
    for_each leads (assess_one lib pv) results s = (Ok results', s') ->
    map Spec.entry_lead_id results'
    = (map Spec.entry_lead_id results
       ++ map (fun l => Some (PyInt (id l))) leads)%list.
Proof.
  induction leads as [|l leads IH]; intros results s results' s' H.
  - injection H as <- <-. now rewrite app_nil_r.
  - rewrite for_each_cons in H.
    destruct (assess_one_run l results s) as [a [l' [s1 [E I]]]].
    rewrite E in H. rewrite (IH _ _ _ _ H).
    rewrite map_app, <- app_assoc. simpl. unfold result_entry.
    now rewrite I.
Qed.

End PersistFacts.

Section PersistTheorem.
Import LeadAssessor.
Variable lib : PyLib.
Variable pv : Providers.


End PersistTheorem.

(** ** Runs on concrete inputs *)

Section Runs.
Import LeadAssessor.




(** C2.  Every completion is the object [{"lead_score": 150}].  The
    assessment that [assess_lead] returns has the [lead_score] 0: the loop
    over the factors copies only the value kept for the factor, so the
    [lead_score] of a completion never reaches the assessment. *)
Theorem supplied_lead_score_is_dropped :
  json_loads Fake.lib (BedrockLLM.clean Fake.text_lead_score_150)
  = Some (PyDict [("lead_score", PyInt 150)])
  /\ exists a s',
       assess_lead Fake.lib Fake.lead_score_150 Fake.acme (Fake.start [])
       = (Ok a, s')
       /\ dict_get a "lead_score" = Some (PyInt 0).
Proof.
  split; [reflexivity|].
  eexists. eexists. split; [vm_compute; reflexivity|reflexivity].
Qed.


(** C10, as stated, fails.  With [num_results = -1] and three results in
    the answer, [search] returns two results, which is more than
    [num_results]; and when the [organic] value of the answer is a string,
    [search] returns a string, not a list. *)
Lemma search_exceeds_negative_bound :
  (exists l s',
      SerperClient.search
        (Fake.providers (Fake.organic Fake.three_results) (Ok "")) "q" (-1)
        (Fake.start [])
      = (Ok (PyList l), s')
      /\ ~ (Z.of_nat (List.length l) <= -1)%Z)
  /\ (exists s',
      SerperClient.search
        (Fake.providers (Fake.organic (PyStr "abcdef")) (Ok "")) "q" 3
        (Fake.start [])
      = (Ok (PyStr "abc"), s')).
Proof.
  split.
  - eexists. eexists. split; [vm_compute; reflexivity|]. simpl. lia.
  - eexists. vm_compute. reflexivity.
Qed.

(** The scenario of the specification: the completion of every factor is
    [{"transaction_intent_score": 0.8, "rationale": "checkout page found"}]
    and every search gives the pricing snippet. *)
Example scenario_transaction_intent :
  exists a s' r,
    assess_lead Fake.lib
      (Fake.providers (Fake.organic (PyList [Fake.pricing_snippet]))
         (Ok Fake.text_intent))
      Fake.acme (Fake.start [])
    = (Ok a, s')
    /\ dict_get a "transaction_intent_score"
       = Some (PyFloat (Finite (8 # 10)))
    /\ dict_get a "rationales" = Some (PyDict r)
    /\ dict_get r "transaction_intent_score"
       = Some (PyStr "checkout page found")
    /\ dict_get a "lead_score" = Some (PyInt 80).
Proof.
  eexists. eexists. eexists. split; [vm_compute; reflexivity|].
  repeat split; reflexivity.
Qed.

(** The scenario of the specification in which no completion parses, also
    after the repair: no factor has a value and the score is 0. *)
Example scenario_nothing_parses :
  exists a s',
    assess_lead Fake.lib
      (Fake.providers (Fake.organic (PyList [])) (Ok "I cannot help"))
      Fake.acme (Fake.start [])
    = (Ok a, s')
    /\ (forall k, In k FACTOR_KEYS -> dict_get a k = None)
    /\ dict_get a "lead_score" = Some (PyInt 0)
    /\ dict_get a "rationales" = Some (PyDict [])
    /\ n_llm s' = 22%nat.
Proof.
  eexists. eexists. split; [vm_compute; reflexivity|].
  split; [|repeat split; reflexivity].
  intros k I. simpl in I.
  repeat (destruct I as [<-|I]; [reflexivity|]). contradiction.
Qed.



Lemma score_factors_clamped_witness :
  collect Fake.lib Fake.mixed Fake.acme (Fake.start [])
  = (Ok Fake.mixed_acc, Fake.mixed_end)
  /\ In "transaction_intent_score" SCORE_KEYS
  /\ py_float Fake.lib
       (py_get (assessment Fake.mixed_acc) "transaction_intent_score")
     = Ok (Finite (15 # 10))
  /\ exists a q,
       assess_lead Fake.lib Fake.mixed Fake.acme (Fake.start [])
       = (Ok a, Fake.mixed_end)
       /\ dict_get a "transaction_intent_score" = Some (PyFloat (Finite q))
       /\ (q == 1)%Q.
Proof.
  assert (H1 : collect Fake.lib Fake.mixed Fake.acme (Fake.start [])
               = (Ok Fake.mixed_acc, Fake.mixed_end))
    by (vm_compute; reflexivity).
  assert (H2 : In "transaction_intent_score" SCORE_KEYS)
    by (simpl; tauto).
  assert (H3 : py_float Fake.lib
                 (py_get (assessment Fake.mixed_acc)
                    "transaction_intent_score")
               = Ok (Finite (15 # 10)))
    by (vm_compute; reflexivity).
  split; [exact H1|]. split; [exact H2|]. split; [exact H3|].
  destruct (score_factors_clamped Fake.lib Fake.mixed Fake.acme
              (Fake.start []) Fake.mixed_end Fake.mixed_acc
              "transaction_intent_score" (Finite (15 # 10)) H1 H2 H3)
    as [a [q [Ha [Hk [_ [_ Hc]]]]]].
  exists a, q. split; [exact Ha|]. split; [exact Hk|].
  destruct (Hc (15 # 10)%Q eq_refl) as [_ [Hgt _]].
  apply Hgt. reflexivity.
Defined.



Lemma aggregate_failure_error_only_witness :
  assess_try Fake.lib Fake.bad_results Fake.acme (Fake.start [])
  = (Raise (AttributeError "'str' object has no attribute 'get'"),
     incr_search (Fake.start []))
  /\ assess_lead Fake.lib Fake.bad_results Fake.acme (Fake.start [])
     = (Ok [("error", PyStr "'str' object has no attribute 'get'")],
        incr_search (Fake.start [])).
Proof.
  assert (H : assess_try Fake.lib Fake.bad_results Fake.acme (Fake.start [])
              = (Raise (AttributeError "'str' object has no attribute 'get'"),
                 incr_search (Fake.start [])))
    by (vm_compute; reflexivity).
  split; [exact H|].
  exact (proj1 (aggregate_failure_error_only Fake.lib Fake.bad_results)
           Fake.acme (Fake.start []) _ _ H).
Defined.



Lemma search_never_raises_bounded_witness :
  (0 <= 2)%Z
  /\ exists v,
       SerperClient.search
         (Fake.providers (Fake.organic Fake.three_results) (Ok "")) "q" 2
         (Fake.start [])
       = (Ok v, incr_search (Fake.start []))
       /\ match v with
          | PyList l => (Z.of_nat (List.length l) <= 2)%Z
          | _ => False
          end.
Proof.
  assert (H : (0 <= 2)%Z) by lia.
  split; [exact H|].
  destruct (search_never_raises_bounded
              (Fake.providers (Fake.organic Fake.three_results) (Ok ""))
              "q" 2 (Fake.start [])) as [v [R [_ [_ [L B]]]]].
  exists v. split; [exact R|].
  specialize (B H).
  rewrite (L _ _ _ eq_refl ltac:(simpl; lia) eq_refl eq_refl) in *.
  exact B.
Defined.

End Runs.

(** * Further properties of the code *)

(** ** The text of a Bedrock response *)

Section ResponseFacts.
Import BedrockResponse Props.

Lemma pyval_nested_ind (P : pyval -> Prop) :
  P PyNone ->
  (forall b, P (PyBool b)) ->
  (forall z, P (PyInt z)) ->
  (forall f, P (PyFloat f)) ->
  (forall s, P (PyStr s)) ->
  (forall l, Forall P l -> P (PyList l)) ->
  (forall d, Forall (fun kv => P (snd kv)) d -> P (PyDict d)) ->
  forall v, P v.
Proof.
  intros HN HB HI HF HS HL HD.
  fix IH 1.
  intros [|b|z|f|s|l|d];
    [exact HN|apply HB|apply HI|apply HF|apply HS| |].
  - apply HL. revert l. fix IHl 1. intros [|x l]; constructor.
    + apply IH.
    + apply IHl.
  - apply HD. revert d. fix IHd 1. intros [|[k x] d]; constructor.
    + apply IH.
    + apply IHd.
Qed.

Lemma search_dict_cons (k : string) (v : pyval) (rest : dict) :
  search_for_text (PyDict ((k, v) :: rest)) =
  match String.eqb k "text", v with
  | true, PyStr t => Some t
  | _, _ =>
      match search_for_text v with
      | Some res =>
          if PyStr.is_empty res then search_for_text (PyDict rest)
          else Some res
      | None => search_for_text (PyDict rest)
      end
  end.
Proof. reflexivity. Qed.

Lemma search_list_cons (el : pyval) (rest : list pyval) :
  search_for_text (PyList (el :: rest)) =
  match search_for_text el with
  | Some res =>
      if PyStr.is_empty res then search_for_text (PyList rest) else Some res
  | None => search_for_text (PyList rest)
  end.
Proof. reflexivity. Qed.

(** The head item of a [dict] is a text, or the search goes into it. *)
Lemma search_dict_head (k : string) (v : pyval) (rest : dict) :
  (exists t, k = "text" /\ v = PyStr t
             /\ search_for_text (PyDict ((k, v) :: rest)) = Some t)
  \/ ((forall t, ~ (k = "text" /\ v = PyStr t))
      /\ search_for_text (PyDict ((k, v) :: rest)) =
         match search_for_text v with
         | Some res =>
             if PyStr.is_empty res then search_for_text (PyDict rest)
             else Some res
         | None => search_for_text (PyDict rest)
         end).
Proof.
  rewrite search_dict_cons.
  destruct (String.eqb_spec k "text") as [->|N].
  - destruct v; try (right; split; [intros t [_ E]; discriminate E|reflexivity]).
    left. eauto.
  - right. split; [intros t [E _]; contradiction|].
    destruct v; reflexivity.
Qed.

Lemma has_text_dict_tail (t : string) (kv : string * pyval) (rest : dict) :
  has_text t (PyDict rest) -> has_text t (PyDict (kv :: rest)).
Proof.
  intros H. inversion H; subst.
  - apply has_text_here. now right.
  - eapply has_text_dict; [right; eassumption|assumption].
Qed.

Lemma has_text_list_tail (t : string) (x : pyval) (rest : list pyval) :
  has_text t (PyList rest) -> has_text t (PyList (x :: rest)).
Proof.
  intros H. inversion H; subst.
  eapply has_text_list; [right; eassumption|assumption].
Qed.

Lemma search_sound (v : pyval) :
  forall t, search_for_text v = Some t -> has_text t v.
Proof.
  induction v as [|b|z|f|s|l IH|d IH] using pyval_nested_ind;
    try discriminate.
  - induction IH as [|x l Hx Hl IHl]; intros t; [discriminate|].
    rewrite search_list_cons.
    destruct (search_for_text x) as [res|] eqn:E.
    + destruct (PyStr.is_empty res).
      * intros H. apply has_text_list_tail. auto.
      * intros [= <-]. eapply has_text_list; [now left|auto].
    + intros H. apply has_text_list_tail. auto.
  - induction IH as [|[k x] d Hx Hd IHd]; intros t; [discriminate|].
    destruct (search_dict_head k x d) as [[t0 [-> [-> ->]]]|[_ ->]].
    + intros [= <-]. apply has_text_here. now left.
    + simpl in Hx.
      destruct (search_for_text x) as [res|] eqn:E.
      * destruct (PyStr.is_empty res).
        -- intros H. apply has_text_dict_tail. auto.
        -- intros [= <-]. eapply has_text_dict; [now left|auto].
      * intros H. apply has_text_dict_tail. auto.
Qed.

Lemma nonempty_not_empty (t : string) :
  t <> "" -> PyStr.is_empty t = false.
Proof. destruct t; [congruence|reflexivity]. Qed.

Lemma search_complete (v : pyval) :
  forall t,
    has_text t v ->
    (forall t', has_text t' v -> t' <> "") ->
    exists t'', search_for_text v = Some t'' /\ t'' <> "".
Proof.
  induction v as [|b|z|f|s|l IH|d IH] using pyval_nested_ind;
    try (intros t H; inversion H; fail).
  - induction IH as [|x l Hx Hl IHl]; intros t H NE.
    + inversion H; subst. contradiction.
    + rewrite search_list_cons.
      assert (NEx : forall t', has_text t' x -> t' <> "")
        by (intros t' H'; apply NE; eapply has_text_list; [now left|exact H']).
      assert (NEl : forall t', has_text t' (PyList l) -> t' <> "")
        by (intros t' H'; apply NE; now apply has_text_list_tail).
      destruct (search_for_text x) as [res|] eqn:E.
      * assert (R : res <> "") by (apply NEx; now apply search_sound).
        rewrite (nonempty_not_empty res R). eauto.
      * inversion H as [|l' v I Hv|]; subst.
        destruct I as [->|I].
        -- destruct (Hx t Hv NEx) as [t'' [E' _]]. congruence.
        -- apply (IHl t); [eapply has_text_list; eassumption|exact NEl].
  - induction IH as [|[k x] d Hx Hd IHd]; intros t H NE.
    + inversion H; subst; contradiction.
    + simpl in Hx.
      assert (NEx : forall t', has_text t' x -> t' <> "")
        by (intros t' H'; apply NE; eapply has_text_dict; [now left|exact H']).
      assert (NEd : forall t', has_text t' (PyDict d) -> t' <> "")
        by (intros t' H'; apply NE; now apply has_text_dict_tail).
      destruct (search_dict_head k x d) as [[t0 [-> [-> ->]]]|[N ->]].
      * exists t0. split; [reflexivity|].
        apply NE. apply has_text_here. now left.
      * destruct (search_for_text x) as [res|] eqn:E.
        -- assert (R : res <> "") by (apply NEx; now apply search_sound).
           rewrite (nonempty_not_empty res R). eauto.
        -- inversion H as [d' I|?|d' k' v' I Hv]; subst.
           ++ destruct I as [[= -> ->]|I].
              ** exfalso. now apply (N t).
              ** apply (IHd t); [now apply has_text_here|exact NEd].
           ++ destruct I as [[= -> ->]|I].
              ** destruct (Hx t Hv NEx) as [t'' [E' _]]. congruence.
              ** apply (IHd t); [eapply has_text_dict; eassumption|exact NEd].
Qed.

Lemma has_text_occurs (t : string) (v : pyval) : has_text t v -> occurs t v.
Proof.
  induction 1.
  - eapply occurs_dict; [eassumption|constructor].
  - eapply occurs_list; eassumption.
  - eapply occurs_dict; eassumption.
Qed.

Lemma dict_get_In (d : dict) (k : string) (v : pyval) :
  dict_get d k = Some v -> In (k, v) d.
Proof.
  induction d as [|[k' v'] d IH]; simpl; [discriminate|].
  destruct (String.eqb_spec k' k) as [->|N].
  - intros [= ->]. now left.
  - intros H. right. auto.
Qed.

Lemma py_get_In (d : dict) (k : string) (v : pyval) :
  py_get d k = v -> v <> PyNone -> In (k, v) d.
Proof.
  unfold py_get. destruct (dict_get d k) as [x|] eqn:E.
  - intros <- _. now apply dict_get_In.
  - intros <- N. contradiction.
Qed.

Lemma first_sub_occurs (subs : list pyval) (t : string) :
  first_sub subs = Some t -> occurs t (PyList subs).
Proof.
  induction subs as [|x subs IH]; simpl; [discriminate|].
  assert (T : first_sub subs = Some t -> occurs t (PyList (x :: subs))).
  { intros H. specialize (IH H). inversion IH; subst.
    eapply occurs_list; [right; eassumption|assumption]. }
  destruct x; auto.
  destruct (py_get d "text") eqn:E; auto.
  intros [= ->].
  eapply occurs_list; [now left|].
  eapply occurs_dict; [|constructor].
  apply py_get_In; [exact E|discriminate].
Qed.

Lemma first_content_occurs (content : list pyval) (t : string) :
  first_content content = Some t -> occurs t (PyList content).
Proof.
  induction content as [|c content IH]; simpl; [discriminate|].
  assert (T : first_content content = Some t ->
              occurs t (PyList (c :: content))).
  { intros H. specialize (IH H). inversion IH; subst.
    eapply occurs_list; [right; eassumption|assumption]. }
  destruct c as [| | | |t0| |d]; auto.
  - intros [= ->]. eapply occurs_list; [now left|constructor].
  - assert (Inner : match py_get d "content" with
                    | PyList subs =>
                        match first_sub subs with
                        | Some t1 => Some t1
                        | None => first_content content
                        end
                    | _ => first_content content
                    end = Some t -> occurs t (PyList (PyDict d :: content))).
    { destruct (py_get d "content") as [| | | | |subs|] eqn:C; auto.
      destruct (first_sub subs) as [t1|] eqn:F; auto.
      intros [= ->]. eapply occurs_list; [now left|].
      eapply occurs_dict;
        [apply py_get_In; [exact C|discriminate]|now apply first_sub_occurs]. }
    destruct (dict_get d "text") as [v|] eqn:E; [|exact Inner].
    destruct v; try exact Inner.
    intros [= ->]. eapply occurs_list; [now left|].
    eapply occurs_dict; [apply dict_get_In; exact E|constructor].
Qed.

Lemma modern_shape_occurs (resp : pyval) (t : string) :
  modern_shape resp = Some t -> occurs t resp.
Proof.
  unfold modern_shape. destruct resp as [| | | | | |r]; try discriminate.
  destruct (py_get r "output") as [| | | | | |out] eqn:O; try discriminate.
  destruct (py_get out "message") as [| | | | | |msg] eqn:Ms;
    try discriminate.
  destruct (py_get msg "content") as [| | | | |content|] eqn:C;
    try discriminate.
  intros H.
  eapply occurs_dict; [apply py_get_In; [exact O|discriminate]|].
  eapply occurs_dict; [apply py_get_In; [exact Ms|discriminate]|].
  eapply occurs_dict; [apply py_get_In; [exact C|discriminate]|].
  now apply first_content_occurs.
Qed.

(** X1.  For a response of the usual shape, an object whose [output] is an
    object whose [message] is an object whose [content] is a list, the text
    returned is the [text] of the first item of the content when that item
    is an object with a string under [text], and the item itself when it is
    a string. *)
Theorem extract_modern_shape (dumps : pyval -> string) (r out msg : dict)
  (c : pyval) (rest : list pyval) (t : string) :
  py_get r "output" = PyDict out ->
  py_get out "message" = PyDict msg ->
  py_get msg "content" = PyList (c :: rest) ->
  (c = PyStr t \/ exists cd, c = PyDict cd /\ dict_get cd "text" = Some (PyStr t)) ->
  _extract_bedrock_response_text dumps (PyDict r) = t.
Proof.
  intros O Ms C H. unfold _extract_bedrock_response_text.
  assert (T : truthy (PyDict r) = true).
  { destruct r; [discriminate O|reflexivity]. }
  rewrite T. cbn [negb]. unfold modern_shape. rewrite O, Ms, C.
  destruct H as [->|[cd [-> E]]]; cbn [first_content]; [reflexivity|].
  now rewrite E.
Qed.

(** X2.  The text returned for a response is the empty string, or a string
    that is a value somewhere in the response, or the JSON text of the whole
    response; it is the empty string for a response that is falsy. *)
Theorem extract_sound (dumps : pyval -> string) (resp : pyval) :
  (truthy resp = false ->
   _extract_bedrock_response_text dumps resp = "")
  /\ (_extract_bedrock_response_text dumps resp = ""
      \/ occurs (_extract_bedrock_response_text dumps resp) resp
      \/ (search_for_text resp = None
          /\ _extract_bedrock_response_text dumps resp = dumps resp)).
Proof.
  unfold _extract_bedrock_response_text. split.
  - intros ->. reflexivity.
  - destruct (truthy resp); cbn [negb]; [|now left].
    destruct (modern_shape resp) as [t|] eqn:Md.
    + right. left. now apply modern_shape_occurs.
    + destruct (search_for_text resp) as [res|] eqn:S.
      * right. left. now apply has_text_occurs, search_sound.
      * right. right. split; reflexivity.
Qed.

(** X3.  When a truthy response holds a string under a key [text] at any
    depth, and no string stored under a key [text] in it is empty, the text
    returned is a string of the response and never the JSON text of the
    whole response. *)
Theorem extract_finds_text (dumps : pyval -> string) (resp : pyval)
  (t : string) :
  truthy resp = true ->
  has_text t resp ->
  (forall t', has_text t' resp -> t' <> "") ->
  occurs (_extract_bedrock_response_text dumps resp) resp
  /\ (modern_shape resp = None ->
      has_text (_extract_bedrock_response_text dumps resp) resp
      /\ _extract_bedrock_response_text dumps resp <> "").
Proof.
  intros T H NE. unfold _extract_bedrock_response_text.
  rewrite T. cbn [negb].
  destruct (search_complete resp t H NE) as [t'' [S R]].
  destruct (modern_shape resp) as [t0|] eqn:Md.
  - split; [now apply modern_shape_occurs|discriminate].
  - rewrite S. split.
    + now apply has_text_occurs, search_sound.
    + intros _. split; [now apply search_sound|exact R].
Qed.

End ResponseFacts.

(** ** The estimate of a factor and the snippets of a search *)

Section EstimateFacts.
Import LeadAssessor Estimate Props.
Variable lib : PyLib.
Variable pv : Providers.

Lemma generate_json_state (prompt : string) (maxTokens : Z) (s : State) :
  let s' := snd (BedrockLLM.generate_json lib pv prompt maxTokens s) in
  n_search s' = n_search s /\ n_commit s' = n_commit s /\ db s' = db s
  /\ (n_llm s' = S (n_llm s) \/ n_llm s' = S (S (n_llm s))).
Proof.
  rewrite generate_json_run.
  destruct (converse_text pv (n_llm s) prompt maxTokens) as [t|e]; simpl.
  - rewrite fallback_run.
    destruct (json_loads lib (BedrockLLM.clean t)); simpl; auto.
  - auto.
Qed.

(** X4.  [_estimate_factor_with_llm] never raises.  It returns the empty
    mapping when [generate_json] raises; otherwise it returns the object
    that [generate_json] gave, the first item of a list when that item is an
    object, and the empty mapping for every other value.  It calls the
    completion service once or twice and makes no search. *)
Theorem estimate_never_raises (lead : Lead) (factor : string)
  (snippets : list pyval) (s : State) :
  exists (d : dict) (s' : State),
    _estimate_factor_with_llm lib pv lead factor snippets s = (Ok d, s')
    /\ n_search s' = n_search s
    /\ db s' = db s
    /\ (n_llm s' = S (n_llm s) \/ n_llm s' = S (S (n_llm s)))
    /\ match BedrockLLM.generate_json lib pv
               (estimate_prompt lib lead factor snippets) 600 s with
       | (Raise _, _) => d = []
       | (Ok (PyDict o), _) => d = o
       | (Ok (PyList (PyDict o :: _)), _) => d = o
       | (Ok _, _) => d = []
       end.
Proof.
  unfold _estimate_factor_with_llm, try_except. rewrite bind_run.
  pose proof (generate_json_state (estimate_prompt lib lead factor snippets)
                600 s) as G.
  destruct (BedrockLLM.generate_json lib pv _ 600 s) as [[res|e] s1];
    cbv zeta in G; cbn [snd] in G; destruct G as [G1 [_ [G2 G3]]].
  - exists (parsed_factor_of res), s1. unfold ret.
    repeat (split; [assumption || reflexivity|]).
    destruct res as [| | | | |[|[]]|]; reflexivity.
  - exists [], s1. unfold ret. repeat (split; [assumption || reflexivity|]).
    reflexivity.
Qed.

Lemma map_result_ok {A B : Type} (f : A -> result B) (l : list A)
  (ys : list B) :
  map_result f l = Ok ys -> Forall2 (fun x y => f x = Ok y) l ys.
Proof.
  revert ys. induction l as [|x l IH]; intros ys; simpl.
  - intros [= <-]. constructor.
  - destruct (f x) as [y|e] eqn:E; [|discriminate]. simpl.
    destruct (map_result f l) as [ys'|e]; [|discriminate]. simpl.
    intros [= <-]. constructor; auto.
Qed.

Lemma py_or_not_none (a b : pyval) : b <> PyNone -> py_or a b <> PyNone.
Proof.
  intros N. unfold py_or. destruct (truthy a) eqn:T; [|exact N].
  intros ->. discriminate T.
Qed.

Lemma snippet_of_ok (q : string) (r sn : pyval) :
  snippet_of q r = Ok sn ->
  exists d title snippet link,
    r = PyDict d
    /\ sn = PyDict [("query", PyStr q); ("title", title);
                    ("snippet", snippet); ("link", link)]
    /\ title <> PyNone /\ snippet <> PyNone /\ link <> PyNone.
Proof.
  destruct r as [| | | | | |d]; try discriminate.
  unfold snippet_of. cbn [method_get]. rewrite !py_or_lazy_ok.
  cbn [rbind]. intros [= <-].
  eexists. eexists. eexists. eexists.
  split; [reflexivity|]. split; [reflexivity|].
  repeat split; repeat apply py_or_not_none; discriminate.
Qed.

Lemma chars_length (t : string) :
  List.length (PyStr.chars t) = String.length t.
Proof. induction t as [|c t IH]; simpl; congruence. Qed.

Lemma search_items_bound (n : Z) (out : http_outcome) (items : list pyval) :
  py_iter (match SerperClient.search_try n out with
           | Ok v => v
           | Raise _ => PyList []
           end) = Ok items ->
  (0 <= n)%Z -> (Z.of_nat (List.length items) <= n)%Z.
Proof.
  intros H N.
  destruct (SerperClient.search_try n out) as [v|e] eqn:E.
  - apply search_try_shape in E as [[l ->]|[t ->]];
      cbn [py_iter] in H; injection H as <-.
    + unfold list_slice_to.
      replace (0 <=? n)%Z with true by (symmetry; now apply Z.leb_le).
      now apply firstn_length_Z.
    + rewrite length_map, chars_length. unfold str_slice_to.
      replace (0 <=? n)%Z with true by (symmetry; now apply Z.leb_le).
      pose proof (take_length (Z.to_nat n) t). lia.
  - injection H as <-. simpl. lia.
Qed.

(** X5.  Whenever [_search_for_factor] returns, it has made one search, and
    every snippet is an object with exactly the keys [query], [title],
    [snippet] and [link] in that order, whose [query] is the query built
    for the factor from the stripped name and industry of the lead and whose
    other values are never null; for a number of results that is not
    negative there are at most that many snippets. *)
Theorem snippets_shape (lead : Lead) (factor : string) (num_results : Z)
  (s s' : State) (snippets : list pyval) :
  _search_for_factor lib pv lead factor num_results s = (Ok snippets, s') ->
  s' = incr_search s
  /\ Forall
       (fun sn =>
          exists title snippet link,
            sn = PyDict
                   [("query",
                     PyStr (Query._seo_query_for_factor lib
                              (PyStr.strip (or_empty (company_name lead)))
                              (Some (PyStr.strip (or_empty (industry lead))))
                              (source_url lead) factor));
                    ("title", title); ("snippet", snippet); ("link", link)]
            /\ title <> PyNone /\ snippet <> PyNone /\ link <> PyNone)
       snippets
  /\ ((0 <= num_results)%Z ->
      (Z.of_nat (List.length snippets) <= num_results)%Z).
Proof.
  unfold _search_for_factor. rewrite bind_run, search_run. unfold lift.
  set (q := Query._seo_query_for_factor lib _ _ _ factor).
  destruct (py_iter _) as [items|e] eqn:I; cbn [rbind]; [|discriminate].
  destruct (map_result (snippet_of q) items) as [sns|e] eqn:Mp;
    [|discriminate].
  intros [= <- <-]. split; [reflexivity|].
  apply map_result_ok in Mp.
  pose proof (Forall2_length Mp) as Len. split.
  - clear I Len. induction Mp as [|r sn items sns H _ IH]; [constructor|].
    constructor; [|exact IH].
    apply snippet_of_ok in H as [d [t [sp [l [_ [-> R]]]]]]. eauto.
  - intros N. rewrite <- Len.
    eapply search_items_bound; eassumption.
Qed.

(** X6.  A failed search is not fatal for [_search_for_factor]: when
    [requests.post] raises, or the response has an error status, or its body
    cannot be decoded, it returns no snippet and does not raise. *)
Theorem search_failure_gives_no_snippets (lead : Lead) (factor : string)
  (num_results : Z) (s : State) :
  let q := Query._seo_query_for_factor lib
             (PyStr.strip (or_empty (company_name lead)))
             (Some (PyStr.strip (or_empty (industry lead))))
             (source_url lead) factor in
  ((exists e, requests_post pv (n_search s) q num_results = PostRaises e)
   \/ (exists r, requests_post pv (n_search s) q num_results = PostReturns r
                 /\ ((400 <= status_code r < 600)%Z
                     \/ exists e, resp_json r = Raise e))) ->
  _search_for_factor lib pv lead factor num_results s
  = (Ok [], incr_search s).
Proof.
  intros q H. unfold _search_for_factor. rewrite bind_run, search_run.
  fold q. unfold lift.
  assert (E : exists e, SerperClient.search_try num_results
                          (requests_post pv (n_search s) q num_results)
                        = Raise e).
  { destruct H as [[e ->]|[r [-> [St|[e J]]]]]; simpl.
    - eauto.
    - unfold SerperClient.raise_for_status.
      replace ((400 <=? status_code r) && (status_code r <? 600))%Z
        with true by (symmetry; apply andb_true_iff; split;
                      [apply Z.leb_le|apply Z.ltb_lt]; lia).
      simpl. eauto.
    - destruct (SerperClient.raise_for_status r); simpl; eauto.
      rewrite J. simpl. eauto. }
  destruct E as [e ->]. reflexivity.
Qed.

End EstimateFacts.

(** ** More on [assess_lead] *)

Section ScoreRange.
Import LeadAssessor Props.

Lemma round_half_even_range (q : Q) :
  (0 <= q)%Q -> (q <= 100)%Q ->
  (0 <= PyFloat.round_half_even q <= 100)%Z.
Proof.
  destruct q as [n d]. unfold Qle, PyFloat.round_half_even.
  cbn [Qnum Qden]. intros H0 H1.
  assert (Dpos : (0 < Z.pos d)%Z) by lia.
  pose proof (Z.div_mod n (Z.pos d) ltac:(lia)) as DM.
  pose proof (Z.mod_pos_bound n (Z.pos d) Dpos) as MB.
  assert (F0 : (0 <= n / Z.pos d)%Z) by (apply Z.div_pos; lia).
  assert (F1 : (n / Z.pos d <= 100)%Z)
    by (apply Z.div_le_upper_bound; lia).
  set (fl := (n / Z.pos d)%Z) in *.
  set (r := (n mod Z.pos d)%Z) in *.
  assert (Top : (0 < r -> fl < 100)%Z).
  { intros R. destruct (Z.eq_dec fl 100) as [E|E]; [|lia].
    rewrite E in DM. lia. }
  destruct (2 * r ?= Z.pos d)%Z eqn:C.
  - apply Z.compare_eq in C.
    destruct (Z.even fl); [lia|]. split; [lia|].
    assert (fl < 100)%Z by (apply Top; lia). lia.
  - lia.
  - apply Z.compare_gt_iff in C. split; [lia|].
    assert (fl < 100)%Z by (apply Top; lia). lia.
Qed.

Lemma fold_sum_bounds (qs : list Q) :
  Forall (fun q => (0 <= q)%Q /\ (q <= 1)%Q) qs ->
  forall a : Q,
    (a <= fold_left Qplus qs a)%Q
    /\ (fold_left Qplus qs a
        <= a + inject_Z (Z.of_nat (List.length qs)))%Q.
Proof.
  induction 1 as [|q qs [Q0 Q1] _ IH]; intros a.
  - simpl. split; [lra|]. unfold inject_Z. lra.
  - cbn [fold_left]. destruct (IH (a + q)%Q) as [L U].
    split; [lra|].
    replace (Z.of_nat (List.length (q :: qs)))
      with (Z.of_nat (List.length qs) + 1)%Z by (simpl List.length; lia).
    rewrite inject_Z_plus. change (inject_Z 1) with 1%Q. lra.
Qed.

Lemma score_of_range (qs : list Q) :
  Forall (fun q => (0 <= q)%Q /\ (q <= 1)%Q) qs ->
  (0 <= Spec.score_of qs <= 100)%Z.
Proof.
  intros F. unfold Spec.score_of.
  destruct qs as [|q qs]; [lia|].
  destruct (fold_sum_bounds (q :: qs) F 0%Q) as [L U].
  set (n := inject_Z (Z.of_nat (List.length (q :: qs)))) in *.
  assert (Npos : (0 < n)%Q).
  { unfold n. change 0%Q with (inject_Z 0). rewrite <- Zlt_Qlt.
    simpl List.length. lia. }
  unfold Spec.mean. fold n.
  set (sum := fold_left Qplus (q :: qs) 0%Q) in *.
  assert (M0 : (0 <= sum / n)%Q).
  { apply Qle_shift_div_l; [exact Npos|]. lra. }
  assert (M1 : (sum / n <= 1)%Q).
  { apply Qle_shift_div_r; [exact Npos|]. lra. }
  apply round_half_even_range; lra.
Qed.

End ScoreRange.

Section AssessMore.
Import LeadAssessor Props.
Variable lib : PyLib.
Variable pv : Providers.

Lemma lead_score_range_helper (lead : Lead) (s s1 : State) (acc : Acc) :
  collect lib pv lead s = (Ok acc, s1) ->
  exists (a : dict) (n : Z),
    assess_lead lib pv lead s = (Ok a, s1)
    /\ dict_get a "lead_score" = Some (PyInt n)
    /\ (0 <= n <= 100)%Z.
Proof.
  intros H. eexists. eexists.
  split; [apply assess_lead_collected; exact H|].
  split.
  - rewrite dict_get_set_other by discriminate.
    rewrite dict_get_set_other by discriminate.
    apply dict_get_set_same.
  - apply score_of_range, normalized_scores_range.
Qed.

(** X7.  Whenever the loop over the factors ends, the [lead_score] of the
    assessment that [assess_lead] returns is an integer between 0 and 100,
    whatever the completions contained. *)
Theorem lead_score_in_range (lead : Lead) (s s1 : State) (acc : Acc) :
  collect lib pv lead s = (Ok acc, s1) ->
  exists (a : dict) (n : Z),
    assess_lead lib pv lead s = (Ok a, s1)
    /\ dict_get a "lead_score" = Some (PyInt n)
    /\ (0 <= n <= 100)%Z.
Proof. apply lead_score_range_helper. Qed.

Lemma py_float_ok_present (a : dict) (k : string) (f : pyfloat) :
  py_float lib (py_get a k) = Ok f -> dict_get a k <> None.
Proof.
  unfold py_get. destruct (dict_get a k); [discriminate|].
  simpl. discriminate.
Qed.

Lemma normalize_keys (ks : list string) :
  forall a ns,
    dict_keys (fst (fold_left (normalize_step lib) ks (a, ns)))
    = dict_keys a.
Proof.
  induction ks as [|k ks IH]; intros a ns; cbn [fold_left]; [reflexivity|].
  rewrite normalize_step_run.
  destruct (py_float lib (py_get a k)) as [fv|e] eqn:E.
  - rewrite IH. apply dict_keys_set_old. eapply py_float_ok_present, E.
  - apply IH.
Qed.

Lemma factor_step_keys (lead : Lead) (factor : string) (acc acc' : Acc)
  (s s' : State) :
  factor_step lib pv lead factor acc s = (Ok acc', s') ->
  dict_get (assessment acc) factor = None ->
  dict_keys (assessment acc')
  = (dict_keys (assessment acc)
     ++ if dict_mem (assessment acc') factor then [factor] else [])%list.
Proof.
  rewrite factor_step_run.
  destruct (_search_for_factor lib pv lead factor 3 s) as [[snippets|e] s1];
    [|discriminate].
  cbv zeta.
  destruct (BedrockLLM.generate_json lib pv _ 800 s1) as [[res|e] s2];
    intros [= <- <-] N.
  - unfold record_factor. cbn [assessment].
    destruct (is_none _).
    + unfold dict_mem. rewrite N. now rewrite app_nil_r.
    + unfold dict_mem. rewrite dict_get_set_same.
      now apply dict_keys_set_new.
  - cbn [assessment]. unfold dict_mem. rewrite N. now rewrite app_nil_r.
Qed.

Lemma collect_from_keys (lead : Lead) (fs : list string) :
  forall acc acc' s s',
    collect_from lib pv lead fs acc s = (Ok acc', s') ->
    NoDup fs ->
    (forall f, In f fs -> dict_get (assessment acc) f = None) ->
    dict_keys (assessment acc')
    = (dict_keys (assessment acc)
       ++ filter (dict_mem (assessment acc')) fs)%list.
Proof.
  induction fs as [|f fs IH]; intros acc acc' s s' H N F.
  - injection H as <- <-. simpl. now rewrite app_nil_r.
  - unfold collect_from in H. rewrite for_each_cons in H.
    destruct (factor_step lib pv lead f acc s) as [[acc1|e] s1] eqn:E;
      [|discriminate].
    fold (collect_from lib pv lead fs) in H.
    inversion N as [|? ? Nf N']; subst.
    pose proof (factor_step_keys _ _ _ _ _ _ E (F f (or_introl eq_refl)))
      as K1.
    apply factor_step_effect in E as [O _].
    rewrite (IH _ _ _ _ H N').
    + rewrite K1, <- app_assoc. f_equal. cbn [filter].
      unfold dict_mem at 1 3.
      rewrite (collect_from_other lib pv lead fs f _ _ _ _ H Nf).
      destruct (dict_get (assessment acc1) f); reflexivity.
    + intros g I. rewrite O; [apply F; now right|].
      intros ->. contradiction.
Qed.

Lemma dict_mem_keys (d : dict) (k : string) :
  dict_mem d k = true <-> In k (dict_keys d).
Proof.
  unfold dict_mem. destruct (dict_get d k) eqn:E.
  - split; [intros _|reflexivity].
    destruct (in_dec string_dec k (dict_keys d)) as [I|N]; [exact I|].
    apply dict_get_None_keys in N. congruence.
  - split; [discriminate|]. intros I.
    apply dict_get_None_keys in E. contradiction.
Qed.

Lemma dict_mem_same_keys (d1 d2 : dict) (k : string) :
  dict_keys d1 = dict_keys d2 -> dict_mem d1 k = dict_mem d2 k.
Proof.
  intros K.
  destruct (dict_mem d1 k) eqn:E1; destruct (dict_mem d2 k) eqn:E2;
    try reflexivity.
  - apply dict_mem_keys in E1. rewrite K in E1.
    apply dict_mem_keys in E1. congruence.
  - apply dict_mem_keys in E2. rewrite <- K in E2.
    apply dict_mem_keys in E2. congruence.
Qed.

(** X8.  The keys of the assessment that [assess_lead] returns are the
    factors that got a value, in the order of the list of factors, followed
    by [lead_score], [rationales] and [raw_search_snippets]. *)
Theorem assessment_keys (lead : Lead) (s s1 : State) (acc : Acc) :
  collect lib pv lead s = (Ok acc, s1) ->
  exists a : dict,
    assess_lead lib pv lead s = (Ok a, s1)
    /\ dict_keys a
       = (filter (dict_mem a) FACTOR_KEYS ++ META_KEYS)%list
    /\ NoDup (dict_keys a).
Proof.
  intros H. eexists. split; [apply assess_lead_collected; exact H|].
  set (a0 := fst (normalize lib (assessment acc))).
  assert (K0 : dict_keys a0
               = filter (dict_mem (assessment acc)) FACTOR_KEYS).
  { unfold a0, normalize. rewrite normalize_keys.
    unfold collect in H.
    rewrite (collect_from_keys lead FACTOR_KEYS _ _ _ _ H FACTOR_KEYS_NoDup);
      [reflexivity|reflexivity]. }
  assert (M : forall k, In k FACTOR_KEYS ->
                dict_mem
                  (dict_set
                     (dict_set (dict_set a0 "lead_score"
                        (PyInt (Spec.score_of
                                  (Spec.normalized_scores lib
                                     (assessment acc)))))
                        "rationales" (PyDict (rationales acc)))
                     "raw_search_snippets"
                     (PyDict (raw_search_snippets acc))) k
                = dict_mem (assessment acc) k).
  { intros k I. destruct (factor_not_meta k I) as [N1 [N2 N3]].
    unfold dict_mem. rewrite final_get_other by assumption.
    fold (dict_mem a0 k). fold (dict_mem (assessment acc) k).
    apply dict_mem_same_keys. unfold a0, normalize.
    now rewrite normalize_keys. }
  assert (G : forall k, ~ In k FACTOR_KEYS -> dict_get a0 k = None).
  { intros k N. unfold a0, normalize.
    apply dict_get_None_keys. rewrite normalize_keys.
    apply dict_get_None_keys.
    now apply (collect_not_factor lib pv lead k acc s s1 H). }
  assert (KK : dict_keys
                 (dict_set
                    (dict_set (dict_set a0 "lead_score"
                       (PyInt (Spec.score_of
                                 (Spec.normalized_scores lib
                                    (assessment acc)))))
                       "rationales" (PyDict (rationales acc)))
                    "raw_search_snippets"
                    (PyDict (raw_search_snippets acc)))
               = (dict_keys a0 ++ META_KEYS)%list).
  { rewrite dict_keys_set_new.
    - rewrite dict_keys_set_new.
      + rewrite dict_keys_set_new.
        * now rewrite <- !app_assoc.
        * apply G. simpl. intuition discriminate.
      + rewrite dict_get_set_other by discriminate.
        apply G. simpl. intuition discriminate.
    - rewrite !dict_get_set_other by discriminate.
      apply G. simpl. intuition discriminate. }
  split.
  - rewrite KK, K0. f_equal.
    apply filter_ext_in. intros k I. symmetry. now apply M.
  - rewrite KK, K0. apply NoDup_app.
    + apply NoDup_filter, FACTOR_KEYS_NoDup.
    + unfold META_KEYS. repeat (constructor; [simpl; intuition discriminate|]).
      constructor.
    + intros k I1 I2. apply filter_In in I1 as [I1 _].
      destruct (factor_not_meta k I1) as [N1 [N2 N3]].
      simpl in I2. intuition congruence.
Qed.

End AssessMore.

Section RoundFacts.
Import LeadAssessor Props.
Variable lib : PyLib.
Variable pv : Providers.

Lemma collect_from_rationales_other (lead : Lead) (fs : list string)
  (k : string) :
  forall acc acc' s s',
    collect_from lib pv lead fs acc s = (Ok acc', s') ->
    ~ In k fs ->
    dict_get (rationales acc') k = dict_get (rationales acc) k
    /\ dict_get (raw_search_snippets acc') k
       = dict_get (raw_search_snippets acc) k.
Proof.
  unfold collect_from.
  induction fs as [|f fs IH]; intros acc acc' s s' H N.
  - injection H as <- <-. split; reflexivity.
  - rewrite for_each_cons in H.
    destruct (factor_step lib pv lead f acc s) as [[acc1|e] s1] eqn:E;
      [|discriminate].
    apply factor_step_effect in E as [_ [[sn R] [Ra _]]].
    assert (f <> k) by (intros ->; apply N; now left).
    destruct (IH _ _ _ _ H) as [I1 I2]; [intros I; apply N; now right|].
    rewrite I1, I2, R. split.
    + apply Ra. congruence.
    + now apply dict_get_set_other.
Qed.

(** X9.  What the round of a factor leaves once the loop has ended.  The
    evidence of the factor is the list of its snippets.  When
    [generate_json] raised, the factor has no value and no rationale.
    Otherwise the object looked at is the value itself when it is an
    object, the first item when it is a list that starts with an object,
    and the empty object for every other value (a number, a string, a list
    that starts with something else); the rationale of the factor is the
    [rationale] of that object when it is truthy, and there is none
    otherwise. *)
Theorem round_contribution (lead : Lead) (pre post : list string)
  (factor : string) (s s1 s2 s3 s' : State) (acc1 acc : Acc)
  (snippets : list pyval) (outcome : result pyval) :
  FACTOR_KEYS = (pre ++ factor :: post)%list ->
  collect_from lib pv lead pre empty_acc s = (Ok acc1, s1) ->
  _search_for_factor lib pv lead factor 3 s1 = (Ok snippets, s2) ->
  BedrockLLM.generate_json lib pv
    (_build_factor_prompt lib lead factor snippets) 800 s2
  = (outcome, s3) ->
  collect lib pv lead s = (Ok acc, s') ->
  dict_get (raw_search_snippets acc) factor = Some (PyList snippets)
  /\ match outcome with
     | Raise _ =>
         dict_get (assessment acc) factor = None
         /\ dict_get (rationales acc) factor = None
     | Ok res =>
         let parsed := match res with
                       | PyDict o => o
                       | PyList (PyDict o :: _) => o
                       | _ => []
                       end in
         dict_get (assessment acc) factor = Spec.chosen_value parsed factor
         /\ dict_get (rationales acc) factor
            = (if truthy (py_get parsed "rationale")
               then Some (py_get parsed "rationale") else None)
     end.
Proof.
  intros K Hpre Hs Hg H.
  pose proof FACTOR_KEYS_NoDup as N. rewrite K in N.
  apply NoDup_split_not_in in N as [Npre Npost].
  unfold collect, collect_from in H. rewrite K, for_each_app in H.
  unfold collect_from in Hpre. rewrite Hpre in H.
  rewrite for_each_cons, factor_step_run, Hs in H. cbv zeta in H.
  rewrite Hg in H.
  fold (collect_from lib pv lead pre) in Hpre.
  pose proof (collect_from_other lib pv lead pre factor _ _ _ _ Hpre Npre)
    as A0.
  destruct (collect_from_rationales_other lead pre factor _ _ _ _ Hpre Npre)
    as [R0 _].
  cbn [assessment rationales empty_acc dict_get] in A0, R0.
  destruct outcome as [res|e];
    fold (collect_from lib pv lead post) in H;
    pose proof (collect_from_other lib pv lead post factor _ _ _ _ H Npost)
      as A1;
    destruct (collect_from_rationales_other lead post factor _ _ _ _ H Npost)
      as [R1 E1];
    rewrite A1, R1, E1.
  - split; [unfold record_factor; cbn [raw_search_snippets];
            apply dict_get_set_same|].
    assert (G : dict_get
                  (assessment
                     (record_factor factor res
                        (mkAcc (assessment acc1)
                           (dict_set (raw_search_snippets acc1) factor
                              (PyList snippets))
                           (rationales acc1)))) factor
                = Spec.chosen_value (parsed_factor_of res) factor
                /\ dict_get
                     (rationales
                        (record_factor factor res
                           (mkAcc (assessment acc1)
                              (dict_set (raw_search_snippets acc1) factor
                                 (PyList snippets))
                              (rationales acc1)))) factor
                   = (if truthy (py_get (parsed_factor_of res) "rationale")
                      then Some (py_get (parsed_factor_of res) "rationale")
                      else None)).
    { split.
      - rewrite <- extract_value_chosen.
        unfold record_factor. cbn [assessment].
        destruct (is_none (extract_value (parsed_factor_of res) factor));
          [exact A0|apply dict_get_set_same].
      - unfold record_factor. cbn [rationales].
        destruct (truthy (py_get (parsed_factor_of res) "rationale"));
          [apply dict_get_set_same|exact R0]. }
    destruct res as [| | | | |[|[]]|]; exact G.
  - cbn [raw_search_snippets assessment rationales].
    split; [apply dict_get_set_same|]. split; assumption.
Qed.

(** X10.  The values that the normalisation does not replace are returned
    as they were collected: the value of a factor that is not a score key,
    and the value of a score key on which [float] raises (a string that is
    not a number, a list, an object, an integer too large). *)
Theorem unnormalised_values_kept (lead : Lead) (s s1 : State) (acc : Acc) :
  collect lib pv lead s = (Ok acc, s1) ->
  exists a : dict,
    assess_lead lib pv lead s = (Ok a, s1)
    /\ forall k,
         In k FACTOR_KEYS ->
         (~ In k SCORE_KEYS
          \/ exists e, py_float lib (py_get (assessment acc) k) = Raise e) ->
         dict_get a k = dict_get (assessment acc) k.
Proof.
  intros H. eexists. split; [apply assess_lead_collected; exact H|].
  intros k I C. destruct (factor_not_meta k I) as [N1 [N2 N3]].
  rewrite final_get_other by assumption. unfold normalize.
  destruct (in_dec string_dec k SCORE_KEYS) as [Sk|Nk].
  - destruct C as [C|[e C]]; [contradiction|].
    rewrite normalize_at by (auto using SCORE_KEYS_NoDup).
    now rewrite C.
  - now apply normalize_other.
Qed.

Lemma factor_step_state (lead : Lead) (factor : string) (acc : Acc)
  (s : State) :
  let r := factor_step lib pv lead factor acc s in
  db (snd r) = db s /\ n_commit (snd r) = n_commit s
  /\ n_search (snd r) = S (n_search s)
  /\ (n_llm s <= n_llm (snd r) <= n_llm s + 2)%nat
  /\ (forall acc', fst r = Ok acc' -> (n_llm s + 1 <= n_llm (snd r))%nat).
Proof.
  cbv zeta. rewrite factor_step_run.
  destruct (search_for_factor_run lib pv lead factor 3 s) as [r E].
  rewrite E. destruct r as [snippets|e].
  - cbv zeta.
    pose proof (generate_json_state lib pv
                  (_build_factor_prompt lib lead factor snippets) 800
                  (incr_search s)) as G.
    cbv zeta in G.
    destruct (BedrockLLM.generate_json lib pv _ 800 (incr_search s))
      as [[res|e] s2]; cbn [fst snd] in *;
      destruct G as [G1 [G2 [G3 G4]]]; simpl in G1, G2, G3, G4;
      (split; [congruence|]); (split; [congruence|]);
      (split; [congruence|]); (split; [lia|]);
      intros; try discriminate; lia.
  - cbn [fst snd]. simpl.
    split; [reflexivity|]. split; [reflexivity|]. split; [reflexivity|].
    split; [lia|]. discriminate.
Qed.

Lemma collect_from_state (lead : Lead) (fs : list string) :
  forall acc s,
    let r := collect_from lib pv lead fs acc s in
    db (snd r) = db s /\ n_commit (snd r) = n_commit s
    /\ (n_search s <= n_search (snd r) <= n_search s + List.length fs)%nat
    /\ (n_llm s <= n_llm (snd r) <= n_llm s + 2 * List.length fs)%nat
    /\ (forall acc', fst r = Ok acc' ->
        n_search (snd r) = (n_search s + List.length fs)%nat
        /\ (n_llm s + List.length fs <= n_llm (snd r))%nat).
Proof.
  unfold collect_from.
  induction fs as [|f fs IH]; intros acc s; cbv zeta.
  - simpl. repeat split; lia.
  - rewrite for_each_cons.
    pose proof (factor_step_state lead f acc s) as F. cbv zeta in F.
    destruct (factor_step lib pv lead f acc s) as [[acc1|e] s1];
      cbn [fst snd] in F; destruct F as [F1 [F2 [F3 [F4 F5]]]].
    + specialize (IH acc1 s1). cbv zeta in IH.
      destruct (for_each fs (factor_step lib pv lead) acc1 s1) as [r s2];
        cbn [fst snd] in *.
      destruct IH as [I1 [I2 [I3 [I4 I5]]]].
      specialize (F5 acc1 eq_refl).
      simpl List.length.
      split; [congruence|]. split; [congruence|].
      split; [lia|]. split; [lia|].
      intros acc' E. destruct (I5 acc' E). lia.
    + cbn [fst snd]. simpl List.length.
      split; [congruence|]. split; [congruence|].
      split; [lia|]. split; [lia|]. discriminate.
Qed.

(** X11.  [assess_lead] never touches the database: the rows and the number
    of commits are as before, whatever the services do.  It makes at most 11
    searches and at most 22 calls of the completion service; when it
    returns an assessment and not an error it has made exactly 11 searches
    and at least 11 calls of the completion service. *)
Theorem assess_lead_calls (lead : Lead) (s : State) :
  let r := assess_lead lib pv lead s in
  db (snd r) = db s
  /\ n_commit (snd r) = n_commit s
  /\ (n_search s <= n_search (snd r) <= n_search s + 11)%nat
  /\ (n_llm s <= n_llm (snd r) <= n_llm s + 22)%nat
  /\ (forall a, fst r = Ok a -> dict_get a "error" = None ->
      n_search (snd r) = (n_search s + 11)%nat
      /\ (n_llm s + 11 <= n_llm (snd r))%nat).
Proof.
  cbv zeta. rewrite assess_lead_run.
  pose proof (collect_from_state lead FACTOR_KEYS empty_acc s) as C.
  cbv zeta in C. fold (collect lib pv lead) in C.
  change (List.length FACTOR_KEYS) with 11%nat in C.
  destruct (collect lib pv lead s) as [[acc|e] s1]; cbn [fst snd] in *;
    destruct C as [C1 [C2 [C3 [C4 C5]]]].
  - destruct (C5 acc eq_refl).
    split; [assumption|]. split; [assumption|].
    split; [lia|]. split; [lia|]. intros; lia.
  - split; [assumption|]. split; [assumption|].
    split; [lia|]. split; [lia|].
    intros a [= <-]. discriminate.
Qed.

Lemma map_result_raises (q : string) (l : list pyval) :
  ~ Forall Spec.is_object l ->
  exists e, map_result (snippet_of q) l = Raise e.
Proof.
  induction l as [|r l IH]; intros N.
  - exfalso. apply N. constructor.
  - cbn [map_result].
    destruct r as [| | | | | |d];
      try (unfold snippet_of; cbn [method_get py_or_lazy rbind]; eauto; fail).
    destruct (snippet_of_object q d) as [x ->]. cbn [rbind].
    destruct IH as [e ->].
    + intros F. apply N. constructor; [exact I|exact F].
    + cbn [rbind]. eauto.
Qed.

(** X12.  One search result that is not an object discards the whole
    assessment.  When the rounds of the earlier factors went through and
    the search of a factor gives a list with an item that is not an object,
    [assess_lead] returns a mapping with the only key [error]; the values
    collected so far are lost, and no call of the completion service and no
    search is made after that search. *)
Theorem malformed_result_aborts (lead : Lead) (pre post : list string)
  (factor : string) (s s1 : State) (acc1 : Acc) (l : list pyval) :
  FACTOR_KEYS = (pre ++ factor :: post)%list ->
  collect_from lib pv lead pre empty_acc s = (Ok acc1, s1) ->
  SerperClient.search_try 3
    (requests_post pv (n_search s1)
       (Query._seo_query_for_factor lib
          (PyStr.strip (or_empty (company_name lead)))
          (Some (PyStr.strip (or_empty (industry lead))))
          (source_url lead) factor) 3)
  = Ok (PyList l) ->
  ~ Forall Spec.is_object l ->
  exists msg,
    assess_lead lib pv lead s
    = (Ok [("error", PyStr msg)], incr_search s1).
Proof.
  intros K Hpre Hs N.
  rewrite assess_lead_run. unfold collect, collect_from.
  rewrite K, for_each_app. unfold collect_from in Hpre. rewrite Hpre.
  rewrite for_each_cons, factor_step_run.
  unfold _search_for_factor. rewrite bind_run, search_run, Hs.
  unfold lift. cbn [py_iter rbind].
  match goal with
  | |- context [map_result (snippet_of ?q) l] =>
      destruct (map_result_raises q l N) as [e ->]
  end.
  eauto.
Qed.

End RoundFacts.

(** ** More on persistence and on [assess_all_leads] *)

Section PersistMore.
Import LeadAssessor Props.
Variable lib : PyLib.
Variable pv : Providers.

(** X13.  [persist_assessment] never raises and is all or nothing.  Either
    nothing changes, the lead is as it was and so are the rows (when an
    exception came before the commit, no commit was attempted; when the
    commit failed, one was); or the commit succeeded and the row written is
    the lead that the lines before the commit prepared, with the status
    [assessed] and the same primary key.  It makes no search and no call of
    the completion service. *)
Theorem persist_all_or_nothing (lead : Lead) (a : dict) (s : State) :
  exists (lead' : Lead) (s' : State),
    persist_assessment lib pv lead a s = (Ok lead', s')
    /\ n_search s' = n_search s /\ n_llm s' = n_llm s
    /\ ((lead' = lead /\ db s' = db s
         /\ match prepare lib lead a with
            | Raise _ => s' = s
            | Ok _ => session_commit pv (n_commit s) <> None
                      /\ n_commit s' = S (n_commit s)
            end)
        \/ (prepare lib lead a = Ok lead'
            /\ session_commit pv (n_commit s) = None
            /\ db s' = db_write (db s) lead'
            /\ n_commit s' = S (n_commit s)
            /\ status lead' = Some "assessed"
            /\ id lead' = id lead)).
Proof.
  rewrite persist_run.
  destruct (prepare lib lead a) as [lead1|e] eqn:P.
  - destruct (session_commit pv (n_commit s)) as [e|] eqn:C.
    + exists lead, (incr_commit s). split; [reflexivity|].
      split; [reflexivity|]. split; [reflexivity|].
      left. repeat split. discriminate.
    + exists lead1, (set_db (db_write (db s) lead1) (incr_commit s)).
      split; [reflexivity|]. split; [reflexivity|]. split; [reflexivity|].
      right. split; [reflexivity|].
      apply prepare_effect in P as [d [_ [I [St _]]]].
      repeat split; assumption.
  - exists lead, s. split; [reflexivity|].
    split; [reflexivity|]. split; [reflexivity|].
    left. repeat split.
Qed.

Lemma find_db_write (rows : list Lead) (x : Lead) :
  Api.lead_by_id (db_write rows x) (id x) = Some x.
Proof.
  unfold Api.lead_by_id.
  induction rows as [|r rows IH]; simpl.
  - now rewrite Z.eqb_refl.
  - destruct (Z.eqb_spec (id r) (id x)) as [E|E]; simpl.
    + now rewrite Z.eqb_refl.
    + destruct (Z.eqb_spec (id r) (id x)); [contradiction|exact IH].
Qed.

Lemma db_write_ids (rows : list Lead) (x : Lead) :
  In (id x) (map id rows) -> map id (db_write rows x) = map id rows.
Proof.
  induction rows as [|r rows IH]; simpl; [contradiction|].
  destruct (Z.eqb_spec (id r) (id x)) as [E|E]; simpl.
  - intros _. now rewrite E.
  - intros [C|I]; [contradiction|]. now rewrite IH.
Qed.

Lemma db_write_other (rows : list Lead) (x row : Lead) :
  id row <> id x -> (In row (db_write rows x) <-> In row rows).
Proof.
  intros N. induction rows as [|r rows IH]; simpl.
  - split; [intros [<-|[]]; contradiction|contradiction].
  - destruct (Z.eqb_spec (id r) (id x)) as [E|E]; simpl.
    + split; intros [<-|I]; auto; [contradiction|].
      exfalso. apply N. congruence.
    + rewrite IH. tauto.
Qed.

Lemma db_write_unique (rows : list Lead) (x : Lead) :
  Spec.unique_ids rows -> Spec.unique_ids (db_write rows x).
Proof.
  unfold Spec.unique_ids. intros U.
  destruct (in_dec Z.eq_dec (id x) (map id rows)) as [I|N].
  - now rewrite db_write_ids.
  - assert (E : db_write rows x = (rows ++ [x])%list).
    { clear U. induction rows as [|r rows IH]; simpl; [reflexivity|].
      destruct (Z.eqb_spec (id r) (id x)) as [E|E].
      - exfalso. apply N. left. exact E.
      - rewrite IH; [reflexivity|]. intros I. apply N. now right. }
    rewrite E, map_app. apply NoDup_app; [exact U| |].
    + repeat constructor. simpl. tauto.
    + intros i I [<-|[]]. contradiction.
Qed.

(** X14.  What [persist_assessment] stores can be read back.  Let the
    [raw_data] of the lead be empty, not JSON or a JSON object [d], let the
    [lead_score] of the assessment not be an integer too large for a float,
    let the commit succeed, and let [json.loads] read back the merged
    document from what [json.dumps] writes.  Then the row found under the
    primary key of the lead is the lead returned, the assessment that
    [get_lead] and [list_leads] read from it is the assessment that was
    passed, every other key of [d] is kept with its value, and an earlier
    assessment under the key [assessment] is replaced. *)
Theorem persisted_assessment_reads_back (lead : Lead) (a d : dict)
  (s : State) :
  existing_of lib lead = PyDict d ->
  (forall z, py_get a "lead_score" = PyInt z -> PyFloat.int_fits z = true) ->
  session_commit pv (n_commit s) = None ->
  reads_back lib (PyDict (dict_set d "assessment" (PyDict a))) ->
  exists (lead1 : Lead) (s' : State),
    persist_assessment lib pv lead a s = (Ok lead1, s')
    /\ Api.lead_by_id (db s') (id lead) = Some lead1
    /\ Api.stored_assessment lib lead1 = PyDict a
    /\ existing_of lib lead1 = PyDict (dict_set d "assessment" (PyDict a))
    /\ (forall k, k <> "assessment" ->
        dict_get (dict_set d "assessment" (PyDict a)) k = dict_get d k).
Proof.
  intros E F C [RB NE].
  destruct (prepare_ok lib lead a d E F) as [lead1 P].
  destruct (prepare_effect lib lead lead1 a P) as [d' [E' [I [St [R _]]]]].
  rewrite E in E'. injection E' as <-.
  exists lead1, (set_db (db_write (db s) lead1) (incr_commit s)).
  split; [rewrite persist_run, P, C; reflexivity|].
  split; [rewrite <- I; apply find_db_write|].
  split; [|split].
  - unfold Api.stored_assessment. rewrite R, NE, RB.
    cbn [method_get]. unfold py_get. now rewrite dict_get_set_same.
  - unfold existing_of. rewrite R, NE, RB. reflexivity.
  - intros k N. apply dict_get_set_other. congruence.
Qed.

Lemma int_fits_small (n : Z) :
  (0 <= n <= 100)%Z -> PyFloat.int_fits n = true.
Proof.
  intros H. unfold PyFloat.int_fits. apply Z.ltb_lt.
  assert (B : (100 < 2 ^ 1024 - 2 ^ 970)%Z)
    by (apply Z.ltb_lt; vm_compute; reflexivity).
  lia.
Qed.

(** The [lead_score] of what [assess_lead] returns is absent or an integer
    between 0 and 100; [assess_lead] leaves the database alone. *)
Lemma assess_lead_score (lead : Lead) (s : State) :
  exists a s',
    assess_lead lib pv lead s = (Ok a, s')
    /\ db s' = db s /\ n_commit s' = n_commit s
    /\ (forall z, py_get a "lead_score" = PyInt z -> (0 <= z <= 100)%Z).
Proof.
  pose proof (collect_from_state lib pv lead FACTOR_KEYS empty_acc s) as C.
  cbv zeta in C. fold (collect lib pv lead) in C.
  destruct (collect lib pv lead s) as [[acc|e] s1] eqn:H;
    cbn [fst snd] in C; destruct C as [C1 [C2 _]].
  - destruct (lead_score_range_helper lib pv lead s s1 acc H)
      as [a [n [A [L R]]]].
    exists a, s1. split; [exact A|]. split; [exact C1|]. split; [exact C2|].
    intros z. unfold py_get. rewrite L. intros [= <-]. exact R.
  - exists [("error", PyStr (exn_str e))], s1.
    rewrite assess_lead_run, H. split; [reflexivity|].
    split; [exact C1|]. split; [exact C2|].
    intros z. discriminate.
Qed.

Lemma prepare_score (lead : Lead) (a d : dict) (z : Z) :
  existing_of lib lead = PyDict d ->
  py_get a "lead_score" = PyInt z ->
  PyFloat.int_fits z = true ->
  exists lead1,
    prepare lib lead a = Ok lead1 /\ lead_score lead1 = PyFloat.of_Z z.
Proof.
  intros E V F. unfold prepare. rewrite E, V.
  cbn [py_setitem rbind is_int_or_float py_float]. rewrite F.
  cbn [rbind]. eexists. split; reflexivity.
Qed.

(** One round of [assess_all_leads] when the [raw_data] of the lead can be
    merged and the commit succeeds. *)
Lemma assess_one_success (lead : Lead) (results : list pyval) (s : State) :
  (exists d, existing_of lib lead = PyDict d) ->
  session_commit pv (n_commit s) = None ->
  exists a lead' s',
    assess_lead lib pv lead s = (Ok a, mkState (n_search s') (n_llm s')
                                            (n_commit s) (db s))
    /\ assess_one lib pv lead results s
       = (Ok (results ++ [result_entry lead' a])%list, s')
    /\ id lead' = id lead
    /\ status lead' = Some "assessed"
    /\ db s' = db_write (db s) lead'
    /\ (forall z, py_get a "lead_score" = PyInt z ->
        lead_score lead' = PyFloat.of_Z z /\ (0 <= z <= 100)%Z).
Proof.
  intros [d E] C.
  destruct (assess_lead_score lead s) as [a [s1 [A [D [Nc R]]]]].
  assert (F : forall z, py_get a "lead_score" = PyInt z ->
                        PyFloat.int_fits z = true)
    by (intros z V; apply int_fits_small, R, V).
  destruct (prepare_ok lib lead a d E F) as [lead1 P].
  destruct (prepare_effect lib lead lead1 a P) as [d' [_ [I [St _]]]].
  exists a, lead1, (set_db (db_write (db s1) lead1) (incr_commit s1)).
  split.
  - rewrite A. f_equal. destruct s1; simpl in *. congruence.
  - split.
    + unfold assess_one. rewrite bind_run, A, bind_run, persist_run, P.
      rewrite Nc, C. reflexivity.
    + split; [exact I|]. split; [exact St|].
      split; [simpl; now rewrite D|].
      intros z V. split; [|now apply R].
      destruct (prepare_score lead a d z E V (F z V)) as [l2 [P2 L2]].
      rewrite P in P2. injection P2 as <-. exact L2.
Qed.

(** One round of [assess_all_leads] changes at most the row of its lead. *)
Lemma assess_one_db (lead : Lead) (results : list pyval) (s : State) :
  exists a lead' s',
    assess_one lib pv lead results s
    = (Ok (results ++ [result_entry lead' a])%list, s')
    /\ id lead' = id lead
    /\ (db s' = db s \/ db s' = db_write (db s) lead').
Proof.
  destruct (assess_lead_score lead s) as [a [s1 [A [D [Nc R]]]]].
  unfold assess_one. rewrite bind_run, A, bind_run, persist_run.
  destruct (prepare lib lead a) as [lead1|e] eqn:P.
  - destruct (session_commit pv (n_commit s1)).
    + exists a, lead, (incr_commit s1). split; [reflexivity|].
      split; [reflexivity|]. left. exact D.
    + apply prepare_effect in P as [d [_ [I _]]].
      exists a, lead1, (set_db (db_write (db s1) lead1) (incr_commit s1)).
      split; [reflexivity|]. split; [exact I|]. right. simpl. now rewrite D.
  - exists a, lead, s1. split; [reflexivity|]. split; [reflexivity|].
    left. exact D.
Qed.

(** X15.  One round of [assess_all_leads] for a lead whose [raw_data] can be
    merged, when the loop over the factors ends and the commit succeeds:
    the row found under the primary key of the lead has the status
    [assessed], and its [lead_score] is the [lead_score] of the assessment
    as a float, an integer between 0 and 100. *)
Theorem assessed_lead_gets_score (lead : Lead) (results : list pyval)
  (s s1 : State) (acc : Acc) (d : dict) :
  existing_of lib lead = PyDict d ->
  session_commit pv (n_commit s) = None ->
  collect lib pv lead s = (Ok acc, s1) ->
  exists (a : dict) (lead' : Lead) (s' : State) (n : Z),
    assess_one lib pv lead results s
    = (Ok (results ++ [result_entry lead' a])%list, s')
    /\ dict_get a "lead_score" = Some (PyInt n)
    /\ (0 <= n <= 100)%Z
    /\ lead_score lead' = Finite (inject_Z n)
    /\ status lead' = Some "assessed"
    /\ Api.lead_by_id (db s') (id lead) = Some lead'.
Proof.
  intros E C H.
  destruct (assess_one_success lead results s (ex_intro _ d E) C)
    as [a [lead' [s' [A [O [I [St [D R]]]]]]]].
  destruct (lead_score_range_helper lib pv lead s s1 acc H)
    as [a' [n [A' [L Rg]]]].
  rewrite A in A'. injection A' as <- _.
  exists a, lead', s', n.
  split; [exact O|]. split; [exact L|]. split; [exact Rg|].
  assert (V : py_get a "lead_score" = PyInt n)
    by (unfold py_get; now rewrite L).
  split; [apply (R n V)|]. split; [exact St|].
  rewrite D, <- I. apply find_db_write.
Qed.

(** X16.  [persist_assessment] changes at most the row of the lead it is
    given: a row with another primary key is in the database afterwards if
    and only if it was there before; when the lead has a row, the primary
    keys of the rows and their order stay as they were; distinct primary
    keys stay distinct. *)
Theorem persist_touches_one_row (lead : Lead) (a : dict) (s : State) :
  let s' := snd (persist_assessment lib pv lead a s) in
  (forall row, id row <> id lead -> (In row (db s') <-> In row (db s)))
  /\ (In (id lead) (map id (db s)) -> map id (db s') = map id (db s))
  /\ (Spec.unique_ids (db s) -> Spec.unique_ids (db s')).
Proof.
  cbv zeta. rewrite persist_run.
  destruct (prepare lib lead a) as [lead1|e] eqn:P.
  - apply prepare_effect in P as [d [_ [I _]]].
    destruct (session_commit pv (n_commit s)); cbn [snd].
    + simpl. repeat split; auto.
    + simpl. split; [|split].
      * intros row N. apply db_write_other. congruence.
      * intros In_id. apply db_write_ids. now rewrite I.
      * apply db_write_unique.
  - cbn [snd]. repeat split; auto.
Qed.

End PersistMore.

Section AssessAllFacts.
Import LeadAssessor Props.
Variable lib : PyLib.
Variable pv : Providers.

Lemma insert_In_rev (x l : Lead) (sorted : list Lead) :
  l = x \/ In l sorted -> In l (insert_by_created_at x sorted).
Proof.
  induction sorted as [|r sorted IH]; simpl.
  - intros [->|[]]. now left.
  - destruct (created_at x <? created_at r)%Z; simpl.
    + intros [->|[->|I]]; auto.
    + intros [->|[->|I]]; auto.
Qed.

Lemma order_by_In_rev (rows : list Lead) (l : Lead) :
  In l rows -> In l (order_by_created_at rows).
Proof.
  unfold order_by_created_at.
  induction rows as [|r rows IH]; simpl; [auto|].
  intros [->|I]; apply insert_In_rev; auto.
Qed.





Lemma apply_limit_total (limit : option Z) (rows : list Lead) :
  limit_ok limit -> exists leads, apply_limit limit rows = Ok leads.
Proof.
  intros L. unfold apply_limit. destruct limit as [n|]; [|eauto].
  destruct (n =? 0)%Z; [eauto|].
  specialize (L n eq_refl).
  destruct (Z.ltb_spec n 0); [lia|eauto].
Qed.



Lemma for_each_assess_other_rows (leads : list Lead) :
  forall results s results' s',
    for_each leads (assess_one lib pv) results s = (Ok results', s') ->
    forall row, ~ In (id row) (map id leads) ->
                (In row (db s') <-> In row (db s)).
Proof.
  induction leads as [|l leads IH]; intros results s results' s' H row N.
  - injection H as <- <-. tauto.
  - rewrite for_each_cons in H.
    destruct (assess_one_db lib pv l results s) as [a [l' [s1 [E [I D]]]]].
    rewrite E in H.
    rewrite (IH _ _ _ _ H row) by (intros C; apply N; now right).
    destruct D as [->| ->]; [tauto|].
    apply db_write_other. rewrite I. intros C. apply N. left. congruence.
Qed.

Lemma unique_ids_eq (rows : list Lead) (x y : Lead) :
  Spec.unique_ids rows -> In x rows -> In y rows -> id x = id y -> x = y.
Proof.
  unfold Spec.unique_ids.
  induction rows as [|r rows IH]; simpl; [contradiction|].
  intros U Ix Iy E. inversion U as [|? ? Nr U']; subst.
  destruct Ix as [<-|Ix]; destruct Iy as [<-|Iy]; auto.
  - exfalso. apply Nr. rewrite E. now apply in_map.
  - exfalso. apply Nr. rewrite <- E. now apply in_map.
Qed.

(** X18.  [assess_all_leads] changes only rows of leads it lists: a row
    whose primary key is not that of a listed lead is in the database
    afterwards if and only if it was there before; with distinct primary
    keys, every row that had the status [assessed] is still there,
    unchanged. *)
Theorem assess_all_keeps_other_rows (limit : option Z) (s s' : State)
  (results : list pyval) :
  assess_all_leads lib pv limit s = (Ok results, s') ->
  (forall row,
      ~ In (Some (PyInt (id row))) (map Spec.entry_lead_id results) ->
      (In row (db s') <-> In row (db s)))
  /\ (Spec.unique_ids (db s) ->
      forall row, In row (db s) -> not_assessed row = false ->
                  In row (db s')).
Proof.
  unfold assess_all_leads. intros H.
  destruct (apply_limit limit (unassessed (db s))) as [leads|e] eqn:A;
    [|discriminate].
  pose proof (for_each_assess_ids lib pv leads _ _ _ _ H) as Ids.
  simpl in Ids.
  assert (O : forall row, ~ In (id row) (map id leads) ->
                          (In row (db s') <-> In row (db s)))
    by (apply (for_each_assess_other_rows leads _ _ _ _ H)).
  split.
  - intros row N. apply O. intros C. apply N. rewrite Ids.
    apply in_map_iff in C as [l [E Il]].
    apply in_map_iff. exists l. split; [|exact Il].
    unfold id_entry. now rewrite E.
  - intros U row Ir Na. apply O; [|exact Ir].
    intros C. apply in_map_iff in C as [l [E Il]].
    apply (apply_limit_In _ _ _ _ A) in Il.
    apply unassessed_In in Il as [Il Ul].
    assert (l = row) by (eapply unique_ids_eq; eassumption).
    subst l. congruence.
Qed.

Lemma for_each_assess_clears (leads : list Lead) :
  commits_succeed pv ->
  forall results s results' s',
    for_each leads (assess_one lib pv) results s = (Ok results', s') ->
    (forall l, In l leads -> exists d, existing_of lib l = PyDict d) ->
    Spec.unique_ids (db s) ->
    (forall row, In row (db s) -> not_assessed row = true -> In row leads) ->
    Spec.unique_ids (db s')
    /\ forall row, In row (db s') -> not_assessed row = false.
Proof.
  intros C.
  induction leads as [|l leads IH]; intros results s results' s' H M U R.
  - injection H as <- <-. split; [exact U|].
    intros row I. destruct (not_assessed row) eqn:N; [|reflexivity].
    destruct (R row I N).
  - rewrite for_each_cons in H.
    destruct (assess_one_success lib pv l results s
                (M l (or_introl eq_refl)) (C _))
      as [a [l' [s1 [_ [E [I [St [D _]]]]]]]].
    rewrite E in H.
    apply (IH _ _ _ _ H).
    + intros x Ix. apply M. now right.
    + rewrite D. now apply db_write_unique.
    + intros row Ir Nr. rewrite D in Ir.
      apply (db_write_In _ _ _ U) in Ir as [->|[Ir Nid]].
      * unfold not_assessed in Nr. rewrite St in Nr. discriminate.
      * destruct (R row Ir Nr) as [<-|Irest]; [|exact Irest].
        exfalso. apply Nid. now rewrite I.
Qed.

Lemma filter_none {A : Type} (f : A -> bool) (l : list A) :
  (forall x, In x l -> f x = false) -> filter f l = [].
Proof.
  induction l as [|x l IH]; simpl; [reflexivity|].
  intros H. rewrite (H x (or_introl eq_refl)). apply IH.
  intros y I. apply H. now right.
Qed.

(** X19.  A run of [assess_all_leads] without a limit, in which every
    commit succeeds, from a database with distinct primary keys in which the
    [raw_data] of every lead to assess can be merged, leaves no row with a
    status other than [assessed]; a later run, whatever the services and for
    every limit that is not negative, returns the empty list and changes
    nothing. *)
Theorem second_run_is_empty (limit : option Z) (s s' : State)
  (results : list pyval) :
  (limit = None \/ limit = Some 0%Z) ->
  commits_succeed pv ->
  Spec.unique_ids (db s) ->
  raw_data_mergeable lib (db s) ->
  assess_all_leads lib pv limit s = (Ok results, s') ->
  unassessed (db s') = []
  /\ forall pv2 limit2 s2,
       db s2 = db s' -> limit_ok limit2 ->
       assess_all_leads lib pv2 limit2 s2 = (Ok [], s2).
Proof.
  intros N C U M H.
  assert (A : apply_limit limit (unassessed (db s))
              = Ok (unassessed (db s)))
    by (destruct N as [->| ->]; reflexivity).
  unfold assess_all_leads in H. rewrite A in H.
  destruct (for_each_assess_clears (unassessed (db s)) C _ _ _ _ H)
    as [_ Clear].
  - intros l I. apply unassessed_In in I as [I Ul]. now apply M.
  - exact U.
  - intros row I Ur. unfold unassessed. apply order_by_In_rev.
    apply filter_In. split; assumption.
  - assert (E : unassessed (db s') = []).
    { unfold unassessed. now rewrite (filter_none _ _ Clear). }
    split; [exact E|].
    intros pv2 limit2 s2 D L. unfold assess_all_leads. rewrite D, E.
    destruct (apply_limit_total limit2 [] L) as [leads A2]. rewrite A2.
    assert (leads = []).
    { destruct leads as [|x leads]; [reflexivity|].
      exfalso. apply (apply_limit_In _ _ _ x A2). now left. }
    subst leads. reflexivity.
Qed.

End AssessAllFacts.

Section EndpointFacts.
Import LeadAssessor Props.
Variable lib : PyLib.
Variable pv : Providers.

Lemma lead_by_id_found (rows : list Lead) (i : Z) (lead : Lead) :
  Api.lead_by_id rows i = Some lead -> In lead rows /\ id lead = i.
Proof.
  unfold Api.lead_by_id. intros F. apply find_some in F as [I E].
  split; [exact I|now apply Z.eqb_eq].
Qed.

Lemma lead_by_id_present (rows : list Lead) (i : Z) :
  existsb (Z.eqb i) (map id rows)
  = match Api.lead_by_id rows i with Some _ => true | None => false end.
Proof.
  unfold Api.lead_by_id.
  induction rows as [|r rows IH]; simpl; [reflexivity|].
  rewrite (Z.eqb_sym i). destruct (id r =? i)%Z; [reflexivity|exact IH].
Qed.

Lemma assess_by_id_run (i : Z) (res : list pyval) (s : State) :
  exists res' s',
    Api.assess_by_id lib pv i res s = (Ok res', s')
    /\ map id (db s') = map id (db s)
    /\ map Spec.entry_lead_id res'
       = (map Spec.entry_lead_id res
          ++ (if existsb (Z.eqb i) (map id (db s))
              then [Some (PyInt i)] else []))%list.
Proof.
  unfold Api.assess_by_id. rewrite lead_by_id_present.
  destruct (Api.lead_by_id (db s) i) as [lead|] eqn:F.
  - apply lead_by_id_found in F as [I E].
    change (exists res' s',
      assess_one lib pv lead res s = (Ok res', s')
      /\ map id (db s') = map id (db s)
      /\ map Spec.entry_lead_id res'
         = (map Spec.entry_lead_id res ++ [Some (PyInt i)])%list).
    destruct (assess_one_db lib pv lead res s) as [a [l' [s1 [R [Il D]]]]].
    rewrite R. eexists. exists s1. split; [reflexivity|]. split.
    + destruct D as [->| ->]; [reflexivity|].
      apply db_write_ids. rewrite Il. now apply in_map.
    + rewrite map_app. simpl. unfold result_entry, Spec.entry_lead_id.
      simpl. now rewrite Il, E.
  - exists res, s. split; [reflexivity|]. split; [reflexivity|].
    now rewrite app_nil_r.
Qed.

Lemma for_each_by_id (ids : list Z) :
  forall res s, exists res' s',
    for_each ids (Api.assess_by_id lib pv) res s = (Ok res', s')
    /\ map id (db s') = map id (db s)
    /\ map Spec.entry_lead_id res'
       = (map Spec.entry_lead_id res
          ++ map (fun i => Some (PyInt i))
               (filter (fun i => existsb (Z.eqb i) (map id (db s))) ids))%list.
Proof.
  induction ids as [|i ids IH]; intros res s.
  - exists res, s. simpl. now rewrite app_nil_r.
  - rewrite for_each_cons.
    destruct (assess_by_id_run i res s) as [res1 [s1 [R [D1 E1]]]].
    rewrite R.
    destruct (IH res1 s1) as [res' [s' [F [D E]]]].
    exists res', s'. split; [exact F|]. split; [congruence|].
    rewrite E, E1, D1, <- app_assoc. f_equal. simpl.
    destruct (existsb (Z.eqb i) (map id (db s))); reflexivity.
Qed.

(** X20.  The endpoint [assess_leads], given a list of lead ids that is not
    empty, never fails in the loop.  It returns one entry for each id of the
    request that is the primary key of a row, in the order of the request
    and as often as the id is listed, whatever the status of the row: a lead
    that is already assessed is assessed again.  An id without a row is
    skipped.  The primary keys of the rows, and their order, do not
    change, and the limit of the request is not used. *)
Theorem assess_leads_by_ids (ids : list Z) (limit : option Z) (s : State) :
  ids <> [] ->
  exists (res : list pyval) (s' : State),
    Api.assess_leads lib pv (Some ids) limit s = (Ok res, s')
    /\ map Spec.entry_lead_id res
       = map (fun i => Some (PyInt i))
           (filter (fun i => existsb (Z.eqb i) (map id (db s))) ids)
    /\ map id (db s') = map id (db s).
Proof.
  intros N. destruct ids as [|i ids]; [contradiction|].
  destruct (for_each_by_id (i :: ids) [] s) as [res [s' [F [D E]]]].
  exists res, s'. split; [exact F|]. split; [exact E|exact D].
Qed.

End EndpointFacts.

Section LeadGeneratorFacts.
Import LeadGenerator Props.
Variable lib : PyLib.
Variable pv : Providers.
Variable get_page_text : string -> result string.

Lemma setdefault_fold_get (defs : list (string * pyval)) :
  forall (d : dict) (k : string),
    dict_get (fold_left (fun d kv => dict_setdefault d (fst kv) (snd kv))
                defs d) k
    = match dict_get d k with
      | Some x => Some x
      | None => Query.lookup defs k
      end.
Proof.
  induction defs as [|[k0 v0] defs IH]; intros d k; simpl.
  - now destruct (dict_get d k).
  - rewrite IH. unfold dict_setdefault, dict_mem.
    destruct (dict_get d k0) eqn:G0.
    + destruct (dict_get d k) eqn:G; [reflexivity|].
      destruct (String.eqb_spec k0 k) as [->|N]; [congruence|reflexivity].
    + destruct (String.eqb_spec k0 k) as [->|N].
      * now rewrite dict_get_set_same, G0.
      * now rewrite dict_get_set_other by exact N.
Qed.

Lemma setdefault_fold_keys (defs : list (string * pyval)) :
  NoDup (map fst defs) ->
  forall d : dict,
    dict_keys (fold_left (fun d kv => dict_setdefault d (fst kv) (snd kv))
                 defs d)
    = (dict_keys d
       ++ filter (fun k => negb (dict_mem d k)) (map fst defs))%list.
Proof.
  induction defs as [|[k0 v0] defs IH]; intros ND d; simpl.
  - now rewrite app_nil_r.
  - inversion ND as [|? ? N0 ND']; subst.
    rewrite (IH ND'). unfold dict_setdefault.
    destruct (dict_mem d k0) eqn:M0; simpl; [reflexivity|].
    assert (G0 : dict_get d k0 = None)
      by (unfold dict_mem in M0; destruct (dict_get d k0); congruence).
    rewrite (dict_keys_set_new _ _ _ G0), <- app_assoc. simpl.
    do 2 f_equal. apply filter_ext_in. intros k I.
    unfold dict_mem. rewrite dict_get_set_other; [reflexivity|].
    intros ->. contradiction.
Qed.

Lemma with_defaults_fold (url : string) (d : dict) :
  with_defaults url d
  = fold_left (fun d kv => dict_setdefault d (fst kv) (snd kv))
      (defaults_for url) d.
Proof. reflexivity. Qed.

Lemma valid_items_objects (url : string) (items : list pyval) :
  valid_items url items
  = map (fun d => PyDict (with_defaults url d)) (objects_of items).
Proof.
  induction items as [|v items IH]; [reflexivity|].
  destruct v; simpl; try exact IH. now rewrite IH.
Qed.

Lemma defaults_NoDup (url : string) : NoDup (map fst (defaults_for url)).
Proof.
  simpl. repeat constructor; simpl; intuition discriminate.
Qed.

(** X21.  When [generate_json] returns a value, [extract_companies_from_url]
    returns it.  If the value is a list with at least one object, the result
    is the list of its objects in their order, the other items dropped; each
    object keeps its keys and values, and the keys among [company_name],
    [industry], [description], [why_payu], [source_url], [company_size] and
    [lead_score] that it lacks are appended in that order, with the empty
    string, the url of the page for [source_url] and 0 for [lead_score].  In
    every other case the value is returned as it is, also when it is not a
    list.  The page text sent has at most 12000 characters. *)
Theorem extraction_result (url text : string) (leads : pyval)
  (s s' : State) :
  get_page_text url = Ok text ->
  BedrockLLM.generate_json lib pv
    (extraction_prompt url (PyStr.take (Z.to_nat 12000) text)) 2000 s
  = (Ok leads, s') ->
  let objects := objects_of (match leads with PyList l => l | _ => [] end) in
  extract_companies_from_url lib pv get_page_text url s
  = (Ok (match objects with
         | [] => leads
         | _ => PyList (map (fun d => PyDict (with_defaults url d)) objects)
         end), s')
  /\ (forall d k,
        dict_get (with_defaults url d) k
        = match dict_get d k with
          | Some x => Some x
          | None => Query.lookup (defaults_for url) k
          end)
  /\ (forall d,
        dict_keys (with_defaults url d)
        = (dict_keys d
           ++ filter (fun k => negb (dict_mem d k))
                (map fst (defaults_for url)))%list)
  /\ (Z.of_nat (String.length (PyStr.take (Z.to_nat 12000) text))
      <= 12000)%Z.
Proof.
  intros P G objects. split; [|split; [|split]].
  - unfold extract_companies_from_url. rewrite bind_run. unfold lift.
    rewrite P, G, valid_items_objects. fold objects.
    now destruct objects.
  - intros d k. rewrite with_defaults_fold. apply setdefault_fold_get.
  - intros d. rewrite with_defaults_fold.
    apply setdefault_fold_keys, defaults_NoDup.
  - pose proof (take_length (Z.to_nat 12000) text). lia.
Qed.

(** X22.  [extract_companies_from_url] does not fall back when the model
    fails.  With the page text read, a failure of the call of the completion
    service, or an answer that is not JSON and whose one repair does not give
    JSON either, makes it raise [UnboundLocalError], not the exception of
    the failure; it raises no other exception, makes no search and no
    commit, and leaves the rows as they are. *)
Theorem extraction_failure_is_unbound (url text : string) (s : State) :
  get_page_text url = Ok text ->
  let prompt := extraction_prompt url (PyStr.take (Z.to_nat 12000) text) in
  let run := extract_companies_from_url lib pv get_page_text url s in
  (forall e, converse_text pv (n_llm s) prompt 2000 = Raise e ->
             run = (Raise UnboundLocalError, incr_llm s))
  /\ (forall response e,
        converse_text pv (n_llm s) prompt 2000 = Ok response ->
        json_loads lib (BedrockLLM.clean response) = None ->
        Spec.repaired lib pv (BedrockLLM.clean response) (incr_llm s)
        = Raise e ->
        run = (Raise UnboundLocalError, incr_llm (incr_llm s)))
  /\ (forall e, fst run = Raise e -> e = UnboundLocalError)
  /\ n_search (snd run) = n_search s
  /\ n_commit (snd run) = n_commit s
  /\ db (snd run) = db s.
Proof.
  intros P prompt run.
  assert (R : run
              = match BedrockLLM.generate_json lib pv prompt 2000 s with
                | (Ok leads, s') =>
                    (Ok (match valid_items url
                                 (match leads with PyList l => l | _ => [] end)
                         with [] => leads | v => PyList v end), s')
                | (Raise _, s') => (Raise UnboundLocalError, s')
                end).
  { unfold run, extract_companies_from_url. rewrite bind_run. unfold lift.
    rewrite P. fold prompt.
    destruct (BedrockLLM.generate_json lib pv prompt 2000 s) as [[leads|e] s'];
      [|reflexivity].
    now destruct (valid_items url _). }
  pose proof (generate_json_state lib pv prompt 2000 s) as St.
  simpl in St. destruct St as [S1 [S2 [S3 _]]].
  split; [|split; [|split; [|split; [|split]]]].
  - intros e C. rewrite R, generate_json_run, C. reflexivity.
  - intros response e C J F.
    rewrite R, generate_json_run, C, fallback_run, J, F. reflexivity.
  - intros e F. rewrite R in F.
    destruct (BedrockLLM.generate_json lib pv prompt 2000 s) as [[leads|e'] s'];
      simpl in F; congruence.
  - rewrite R.
    destruct (BedrockLLM.generate_json lib pv prompt 2000 s) as [[leads|e'] s'];
      exact S1.
  - rewrite R.
    destruct (BedrockLLM.generate_json lib pv prompt 2000 s) as [[leads|e'] s'];
      exact S2.
  - rewrite R.
    destruct (BedrockLLM.generate_json lib pv prompt 2000 s) as [[leads|e'] s'];
      exact S3.
Qed.

End LeadGeneratorFacts.

(** ** The further properties at concrete inputs *)

Section FurtherRuns.
Import LeadAssessor BedrockResponse Props.

Lemma extract_modern_shape_witness :
  py_get Demo.converse_response "output" = PyDict Demo.converse_output
  /\ _extract_bedrock_response_text Demo.dumps
       (PyDict Demo.converse_response) = "hello".
Proof.
  split; [reflexivity|].
  apply (extract_modern_shape Demo.dumps Demo.converse_response
           Demo.converse_output Demo.converse_message
           (PyDict [("text", PyStr "hello")]) [] "hello");
    try reflexivity.
  right. eexists. split; reflexivity.
Defined.

Lemma extract_finds_text_witness :
  has_text "hello" Demo.legacy_response
  /\ modern_shape Demo.legacy_response = None
  /\ has_text (_extract_bedrock_response_text Demo.dumps Demo.legacy_response)
       Demo.legacy_response.
Proof.
  assert (H : has_text "hello" Demo.legacy_response).
  { eapply has_text_dict; [left; reflexivity|].
    apply has_text_here. left. reflexivity. }
  assert (N : forall t', has_text t' Demo.legacy_response -> t' <> "").
  { intros t' T. inversion T as [d I|l v I T'|d k v I T']; subst.
    - destruct I as [I|[]]. discriminate I.
    - destruct I as [I|[]]. injection I as <- <-.
      inversion T' as [d I|l v I T''|d k v I T'']; subst.
      + destruct I as [I|[]]. injection I as <-. discriminate.
      + destruct I as [I|[]]. injection I as <- <-. inversion T''. }
  split; [exact H|]. split; [reflexivity|].
  exact (proj1 (proj2 (extract_finds_text Demo.dumps Demo.legacy_response
                         "hello" eq_refl H N) eq_refl)).
Defined.

Lemma snippets_shape_witness :
  _search_for_factor Fake.lib Fake.mixed Fake.acme "tech_stack" 3
    (Fake.start [])
  = (Ok Demo.tech_snippets, incr_search (Fake.start []))
  /\ (Z.of_nat (List.length Demo.tech_snippets) <= 3)%Z.
Proof.
  assert (H : _search_for_factor Fake.lib Fake.mixed Fake.acme "tech_stack" 3
                (Fake.start [])
              = (Ok Demo.tech_snippets, incr_search (Fake.start [])))
    by (vm_compute; reflexivity).
  split; [exact H|].
  apply (snippets_shape Fake.lib Fake.mixed Fake.acme "tech_stack" 3
           (Fake.start []) _ _ H).
  lia.
Defined.

Lemma search_failure_gives_no_snippets_witness :
  _search_for_factor Fake.lib Demo.search_down Fake.acme "tech_stack" 3
    (Fake.start [])
  = (Ok [], incr_search (Fake.start [])).
Proof.
  apply (search_failure_gives_no_snippets Fake.lib Demo.search_down Fake.acme
           "tech_stack" 3 (Fake.start [])).
  left. eexists. reflexivity.
Defined.

Lemma lead_score_in_range_witness :
  collect Fake.lib Fake.mixed Fake.acme (Fake.start [])
  = (Ok Fake.mixed_acc, Fake.mixed_end)
  /\ exists a n,
       assess_lead Fake.lib Fake.mixed Fake.acme (Fake.start [])
       = (Ok a, Fake.mixed_end)
       /\ dict_get a "lead_score" = Some (PyInt n) /\ (0 <= n <= 100)%Z.
Proof.
  assert (H : collect Fake.lib Fake.mixed Fake.acme (Fake.start [])
              = (Ok Fake.mixed_acc, Fake.mixed_end))
    by (vm_compute; reflexivity).
  split; [exact H|].
  exact (lead_score_in_range Fake.lib Fake.mixed Fake.acme (Fake.start [])
           Fake.mixed_end Fake.mixed_acc H).
Defined.

Lemma assessment_keys_witness :
  collect Fake.lib Fake.mixed Fake.acme (Fake.start [])
  = (Ok Fake.mixed_acc, Fake.mixed_end)
  /\ exists a,
       assess_lead Fake.lib Fake.mixed Fake.acme (Fake.start [])
       = (Ok a, Fake.mixed_end)
       /\ dict_keys a = (filter (dict_mem a) FACTOR_KEYS ++ META_KEYS)%list
       /\ NoDup (dict_keys a).
Proof.
  assert (H : collect Fake.lib Fake.mixed Fake.acme (Fake.start [])
              = (Ok Fake.mixed_acc, Fake.mixed_end))
    by (vm_compute; reflexivity).
  split; [exact H|].
  exact (assessment_keys Fake.lib Fake.mixed Fake.acme (Fake.start [])
           Fake.mixed_end Fake.mixed_acc H).
Defined.

Lemma round_contribution_witness :
  collect Fake.lib Fake.mixed Fake.acme (Fake.start [])
  = (Ok Fake.mixed_acc, Fake.mixed_end)
  /\ BedrockLLM.generate_json Fake.lib Fake.mixed
       (_build_factor_prompt Fake.lib Fake.acme "tech_stack"
          Demo.tech_snippets)
       800 (incr_search (Fake.start []))
     = (Ok (PyDict [("tech_stack", PyStr "Shopify")]),
        incr_llm (incr_search (Fake.start [])))
  /\ dict_get (assessment Fake.mixed_acc) "tech_stack"
     = Some (PyStr "Shopify")
  /\ dict_get (rationales Fake.mixed_acc) "tech_stack" = None.
Proof.
  assert (H : collect Fake.lib Fake.mixed Fake.acme (Fake.start [])
              = (Ok Fake.mixed_acc, Fake.mixed_end))
    by (vm_compute; reflexivity).
  assert (G : BedrockLLM.generate_json Fake.lib Fake.mixed
                (_build_factor_prompt Fake.lib Fake.acme "tech_stack"
                   Demo.tech_snippets)
                800 (incr_search (Fake.start []))
              = (Ok (PyDict [("tech_stack", PyStr "Shopify")]),
                 incr_llm (incr_search (Fake.start []))))
    by (vm_compute; reflexivity).
  split; [exact H|]. split; [exact G|].
  assert (S : _search_for_factor Fake.lib Fake.mixed Fake.acme "tech_stack" 3
                (Fake.start [])
              = (Ok Demo.tech_snippets,
                 incr_search (Fake.start [])))
    by (vm_compute; reflexivity).
  destruct (round_contribution Fake.lib Fake.mixed Fake.acme []
              (tl FACTOR_KEYS) "tech_stack" (Fake.start []) (Fake.start [])
              _ _ Fake.mixed_end empty_acc Fake.mixed_acc _ _
              eq_refl eq_refl S G H) as [_ [V R]].
  split; [exact V|exact R].
Defined.

Lemma unnormalised_values_kept_witness :
  collect Fake.lib Fake.mixed Fake.acme (Fake.start [])
  = (Ok Fake.mixed_acc, Fake.mixed_end)
  /\ exists a,
       assess_lead Fake.lib Fake.mixed Fake.acme (Fake.start [])
       = (Ok a, Fake.mixed_end)
       /\ dict_get a "tech_stack" = Some (PyStr "Shopify")
       /\ dict_get a "web_presence_quality" = Some (PyStr "high").
Proof.
  assert (H : collect Fake.lib Fake.mixed Fake.acme (Fake.start [])
              = (Ok Fake.mixed_acc, Fake.mixed_end))
    by (vm_compute; reflexivity).
  split; [exact H|].
  destruct (unnormalised_values_kept Fake.lib Fake.mixed Fake.acme
              (Fake.start []) Fake.mixed_end Fake.mixed_acc H) as [a [Ha K]].
  exists a. split; [exact Ha|]. split.
  - rewrite (K "tech_stack").
    + vm_compute. reflexivity.
    + left. reflexivity.
    + left. simpl. intuition discriminate.
  - rewrite (K "web_presence_quality").
    + vm_compute. reflexivity.
    + simpl. intuition.
    + right. eexists. vm_compute. reflexivity.
Defined.

Lemma malformed_result_aborts_witness :
  ~ Forall Spec.is_object [PyStr "x"]
  /\ exists msg,
       assess_lead Fake.lib Fake.bad_results Fake.acme (Fake.start [])
       = (Ok [("error", PyStr msg)], incr_search (Fake.start [])).
Proof.
  assert (N : ~ Forall Spec.is_object [PyStr "x"])
    by (intros F; inversion F as [|? ? O _]; exact O).
  split; [exact N|].
  apply (malformed_result_aborts Fake.lib Fake.bad_results Fake.acme []
           (tl FACTOR_KEYS) "tech_stack" (Fake.start []) (Fake.start [])
           empty_acc [PyStr "x"] eq_refl eq_refl).
  - vm_compute. reflexivity.
  - exact N.
Defined.

Lemma persisted_assessment_reads_back_witness :
  reads_back Demo.lib
    (PyDict (dict_set [] "assessment" (PyDict Fake.error_only)))
  /\ exists lead1 s',
       persist_assessment Demo.lib Fake.value_zero Fake.acme Fake.error_only
         (Fake.start [Fake.acme])
       = (Ok lead1, s')
       /\ Api.lead_by_id (db s') 1 = Some lead1
       /\ Api.stored_assessment Demo.lib lead1 = PyDict Fake.error_only.
Proof.
  assert (R : reads_back Demo.lib
                (PyDict (dict_set [] "assessment" (PyDict Fake.error_only))))
    by (split; vm_compute; reflexivity).
  assert (L : forall z, py_get Fake.error_only "lead_score" = PyInt z ->
                        PyFloat.int_fits z = true)
    by (intros z E; discriminate E).
  split; [exact R|].
  destruct (persisted_assessment_reads_back Demo.lib Fake.value_zero
              Fake.acme Fake.error_only [] (Fake.start [Fake.acme]) eq_refl
              L eq_refl R) as [lead1 [s' [P [F [A _]]]]].
  exists lead1, s'. split; [exact P|]. split; [exact F|exact A].
Defined.

Lemma assessed_lead_gets_score_witness :
  collect Fake.lib Fake.mixed Fake.acme (Fake.start [])
  = (Ok Fake.mixed_acc, Fake.mixed_end)
  /\ exists a lead' s' n,
       assess_one Fake.lib Fake.mixed Fake.acme [] (Fake.start [])
       = (Ok [result_entry lead' a], s')
       /\ dict_get a "lead_score" = Some (PyInt n)
       /\ lead_score lead' = Finite (inject_Z n)
       /\ status lead' = Some "assessed".
Proof.
  assert (H : collect Fake.lib Fake.mixed Fake.acme (Fake.start [])
              = (Ok Fake.mixed_acc, Fake.mixed_end))
    by (vm_compute; reflexivity).
  split; [exact H|].
  destruct (assessed_lead_gets_score Fake.lib Fake.mixed Fake.acme []
              (Fake.start []) Fake.mixed_end Fake.mixed_acc [] eq_refl
              eq_refl H) as [a [lead' [s' [n [R [L [_ [F [St _]]]]]]]]].
  exists a, lead', s', n.
  split; [exact R|]. split; [exact L|]. split; [exact F|exact St].
Defined.


Lemma assess_all_keeps_other_rows_witness :
  Spec.unique_ids Demo.rows
  /\ not_assessed Demo.assessed_lead = false
  /\ In Demo.assessed_lead
       (db (snd (assess_all_leads Fake.lib Fake.value_zero None
                   (Fake.start Demo.rows)))).
Proof.
  assert (U : Spec.unique_ids Demo.rows).
  { unfold Spec.unique_ids. simpl. repeat constructor; simpl.
    - intros [E|[]]. discriminate E.
    - intros []. }
  split; [exact U|]. split; [reflexivity|].
  assert (H : assess_all_leads Fake.lib Fake.value_zero None
                (Fake.start Demo.rows)
              = (Ok (Fake.run_value []
                       (assess_all_leads Fake.lib Fake.value_zero None
                          (Fake.start Demo.rows))),
                 snd (assess_all_leads Fake.lib Fake.value_zero None
                        (Fake.start Demo.rows))))
    by (vm_compute; reflexivity).
  apply (proj2 (assess_all_keeps_other_rows Fake.lib Fake.value_zero None
                  (Fake.start Demo.rows) _ _ H) U Demo.assessed_lead).
  - left. reflexivity.
  - reflexivity.
Defined.

Lemma second_run_is_empty_witness :
  commits_succeed Fake.value_zero
  /\ raw_data_mergeable Fake.lib Demo.rows
  /\ unassessed
       (db (snd (assess_all_leads Fake.lib Fake.value_zero None
                   (Fake.start Demo.rows)))) = []
  /\ assess_all_leads Fake.lib Fake.mixed (Some 5%Z)
       (snd (assess_all_leads Fake.lib Fake.value_zero None
               (Fake.start Demo.rows)))
     = (Ok [], snd (assess_all_leads Fake.lib Fake.value_zero None
                      (Fake.start Demo.rows))).
Proof.
  assert (C : commits_succeed Fake.value_zero) by (intros n; reflexivity).
  assert (M : raw_data_mergeable Fake.lib Demo.rows).
  { intros l [<-|[<-|[]]] N; [discriminate N|]. eexists. reflexivity. }
  assert (U : Spec.unique_ids Demo.rows).
  { unfold Spec.unique_ids. simpl. repeat constructor; simpl.
    - intros [E|[]]. discriminate E.
    - intros []. }
  assert (H : assess_all_leads Fake.lib Fake.value_zero None
                (Fake.start Demo.rows)
              = (Ok (Fake.run_value []
                       (assess_all_leads Fake.lib Fake.value_zero None
                          (Fake.start Demo.rows))),
                 snd (assess_all_leads Fake.lib Fake.value_zero None
                        (Fake.start Demo.rows))))
    by (vm_compute; reflexivity).
  split; [exact C|]. split; [exact M|].
  destruct (second_run_is_empty Fake.lib Fake.value_zero None
              (Fake.start Demo.rows) _ _ (or_introl eq_refl) C U M H)
    as [E Again].
  split; [exact E|].
  apply Again; [reflexivity|].
  intros n F. injection F as <-. lia.
Defined.

Lemma assess_leads_by_ids_witness :
  exists res s',
    Api.assess_leads Fake.lib Fake.value_zero (Some [7; 3; 1]%Z) None
      (Fake.start Demo.rows)
    = (Ok res, s')
    /\ map Spec.entry_lead_id res = [Some (PyInt 3); Some (PyInt 1)]
    /\ map id (db s') = [3; 1]%Z.
Proof.
  assert (N : [7; 3; 1]%Z <> []) by discriminate.
  destruct (assess_leads_by_ids Fake.lib Fake.value_zero [7; 3; 1]%Z None
              (Fake.start Demo.rows) N) as [res [s' [R [E D]]]].
  exists res, s'. split; [exact R|]. split; [exact E|exact D].
Defined.

Lemma extraction_result_witness :
  BedrockLLM.generate_json Demo.lib Demo.extractor
    (LeadGenerator.extraction_prompt "https://acme.io"
       (PyStr.take (Z.to_nat 12000)
          "Acme builds checkout software for online shops."))
    2000 (Fake.start [])
  = (Ok (PyList [PyDict Demo.extracted_item; PyInt 3]),
     incr_llm (Fake.start []))
  /\ LeadGenerator.extract_companies_from_url Demo.lib Demo.extractor
       Demo.page "https://acme.io" (Fake.start [])
     = (Ok (PyList
              [PyDict (LeadGenerator.with_defaults "https://acme.io"
                         Demo.extracted_item)]),
        incr_llm (Fake.start []))
  /\ dict_keys (LeadGenerator.with_defaults "https://acme.io"
                  Demo.extracted_item)
     = ["company_name"; "lead_score"; "industry"; "description"; "why_payu";
        "source_url"; "company_size"]
  /\ dict_get (LeadGenerator.with_defaults "https://acme.io"
                 Demo.extracted_item) "lead_score"
     = Some (PyInt 80).
Proof.
  assert (G : BedrockLLM.generate_json Demo.lib Demo.extractor
                (LeadGenerator.extraction_prompt "https://acme.io"
                   (PyStr.take (Z.to_nat 12000)
                      "Acme builds checkout software for online shops."))
                2000 (Fake.start [])
              = (Ok (PyList [PyDict Demo.extracted_item; PyInt 3]),
                 incr_llm (Fake.start [])))
    by (vm_compute; reflexivity).
  split; [exact G|].
  destruct (extraction_result Demo.lib Demo.extractor Demo.page
              "https://acme.io" _ _ (Fake.start []) _ eq_refl G)
    as [R [V [K _]]].
  split; [exact R|]. split.
  - rewrite K. reflexivity.
  - rewrite V. reflexivity.
Defined.

Lemma extraction_failure_is_unbound_witness :
  LeadGenerator.extract_companies_from_url Demo.lib Demo.llm_down Demo.page
    "https://acme.io" (Fake.start [])
  = (Raise LeadGenerator.UnboundLocalError, incr_llm (Fake.start [])).
Proof.
  apply (proj1 (extraction_failure_is_unbound Demo.lib Demo.llm_down
                  Demo.page "https://acme.io"
                  "Acme builds checkout software for online shops."
                  (Fake.start []) eq_refl)
           (mkExn "ClientError" "throttled")).
  reflexivity.
Defined.

End FurtherRuns.
